(** * The PL/SQL review pipeline: aggregation, validation and orchestration

    A shallow embedding of [bin/ai_plsql_review.py] and [modules/validator.py]
    (with the parts of [modules/run_logger.py], [modules/llm_client.py] and
    [modules/prompts.py] they call), and the properties of the per-file
    aggregator, the schema validator, the correction retry and the directory
    orchestrator.

    Python values are the values [json.loads] produces.  Strings are Rocq
    strings read as sequences of code points; the embedding covers ASCII
    text, on which [str.lower], [str.upper] and [str.strip] are as defined
    below.  A dictionary is an association list in insertion order, as
    Python dictionaries iterate. *)

From Stdlib Require Import ZArith List String Ascii Bool Lia SpecFloat.
Import ListNotations.

Set Warnings "-register-all".

Open Scope string_scope.
Open Scope list_scope.
Open Scope Z_scope.

Infix "+++" := String.append (right associativity, at level 60).

(** ** Python strings *)

Module PyStr.

Definition in_range (lo hi : nat) (c : ascii) : bool :=
  let n := nat_of_ascii c in Nat.leb lo n && Nat.leb n hi.

(** [str.isspace] on ASCII: tab to carriage return, the four separators
    28..31 and the blank. *)
Definition isspace (c : ascii) : bool :=
  in_range 9 13 c || in_range 28 32 c.

Definition lower_char (c : ascii) : ascii :=
  if in_range 65 90 c then ascii_of_nat (nat_of_ascii c + 32) else c.

Definition upper_char (c : ascii) : ascii :=
  if in_range 97 122 c then ascii_of_nat (nat_of_ascii c - 32) else c.

Fixpoint map_chars (f : ascii -> ascii) (s : string) : string :=
  match s with
  | EmptyString => EmptyString
  | String c t => String (f c) (map_chars f t)
  end.

Definition lower : string -> string := map_chars lower_char.
Definition upper : string -> string := map_chars upper_char.

Fixpoint lstrip (s : string) : string :=
  match s with
  | EmptyString => EmptyString
  | String c t => if isspace c then lstrip t else s
  end.

Fixpoint rstrip (s : string) : string :=
  match s with
  | EmptyString => EmptyString
  | String c t =>
      match rstrip t with
      | EmptyString => if isspace c then EmptyString else String c EmptyString
      | t' => String c t'
      end
  end.

Definition strip (s : string) : string := rstrip (lstrip s).

(** [sub in s] for strings. *)
Fixpoint contains (sub s : string) : bool :=
  String.prefix sub s
  || match s with
     | EmptyString => false
     | String _ t => contains sub t
     end.

(** [c * n] for a one-character string. *)
Fixpoint replicate (n : nat) (c : ascii) : string :=
  match n with
  | O => EmptyString
  | S k => String c (replicate k c)
  end.

(** The characters of a string, as Python iterates it. *)
Fixpoint chars (s : string) : list string :=
  match s with
  | EmptyString => []
  | String c t => String c EmptyString :: chars t
  end.

(** [sep.join(parts)]. *)
Fixpoint join (sep : string) (parts : list string) : string :=
  match parts with
  | [] => EmptyString
  | [p] => p
  | p :: rest => p +++ sep +++ join sep rest
  end.

Definition nl : string := String (ascii_of_nat 10) EmptyString.
Definition dq : string := String (ascii_of_nat 34) EmptyString.

(** [x in xs] for a list of strings. *)
Definition mem (x : string) (xs : list string) : bool :=
  existsb (String.eqb x) xs.

End PyStr.

(** ** Python values and exceptions *)

Inductive pyval : Type :=
| PNone
| PBool (b : bool)
| PInt (z : Z)
| PFloat (f : spec_float)
| PStr (s : string)
| PList (l : list pyval)
| PDict (d : list (string * pyval)).

Definition dict : Type := list (string * pyval).

(** The exception classes the pipeline meets; all are subclasses of
    [Exception].  [JSONDecodeError] is kept apart from its parent
    [ValueError] because the stage executor catches it alone. *)
Inductive pyexc : Type :=
| ValueError (msg : string)
| JSONDecodeError (msg : string)
| TypeError (msg : string)
| AttributeError (msg : string)
| KeyError (msg : string)
| RuntimeError (msg : string)
| OSError (msg : string).

Inductive result (A : Type) : Type :=
| Ok (a : A)
| Raise (e : pyexc).

Arguments Ok {A} a.
Arguments Raise {A} e.

Definition rbind {A B : Type} (r : result A) (k : A -> result B) : result B :=
  match r with
  | Ok a => k a
  | Raise e => Raise e
  end.

Declare Scope result_scope.
Delimit Scope result_scope with result.
Notation "x <- c ;; k" := (rbind c (fun x => k))
  (at level 100, c at next level, right associativity) : result_scope.

Definition is_ok {A : Type} (r : result A) : bool :=
  match r with Ok _ => true | Raise _ => false end.

Module Py.

Definition type_name (v : pyval) : string :=
  match v with
  | PNone => "NoneType"
  | PBool _ => "bool"
  | PInt _ => "int"
  | PFloat _ => "float"
  | PStr _ => "str"
  | PList _ => "list"
  | PDict _ => "dict"
  end.

(** Truth value of an object, as [or], [not] and [if] test it. *)
Definition truthy (v : pyval) : bool :=
  match v with
  | PNone => false
  | PBool b => b
  | PInt z => negb (z =? 0)
  | PFloat (S754_zero _) => false
  | PFloat _ => true
  | PStr s => negb (s =? "")%string
  | PList l => match l with [] => false | _ => true end
  | PDict d => match d with [] => false | _ => true end
  end.

(** [a or b] *)
Definition or_ (a b : pyval) : pyval := if truthy a then a else b.

Definition is_str (v : pyval) : bool :=
  match v with PStr _ => true | _ => false end.

Definition is_list (v : pyval) : bool :=
  match v with PList _ => true | _ => false end.

(** [key in d] *)
Fixpoint lookup (k : string) (d : dict) : option pyval :=
  match d with
  | [] => None
  | (k', v) :: t => if (k' =? k)%string then Some v else lookup k t
  end.

(** [d.get(k, dflt)] *)
Definition get_default (k : string) (dflt : pyval) (d : dict) : pyval :=
  match lookup k d with Some v => v | None => dflt end.

(** [d.get(k)] *)
Definition get (k : string) (d : dict) : pyval := get_default k PNone d.

(** [d[k] = v]: an existing key keeps its place. *)
Fixpoint set (k : string) (v : pyval) (d : dict) : dict :=
  match d with
  | [] => [(k, v)]
  | (k', v') :: t =>
      if (k' =? k)%string then (k', v) :: t else (k', v') :: set k v t
  end.

(** [d.setdefault(k, v)], for its effect on [d]. *)
Definition setdefault (k : string) (v : pyval) (d : dict) : dict :=
  match lookup k d with
  | Some _ => d
  | None => d ++ [(k, v)]
  end.

(** [v.lower()], [v.strip()]: methods of [str] only. *)
Definition no_attribute (v : pyval) (meth : string) : pyexc :=
  AttributeError ("'" +++ type_name v +++ "' object has no attribute '" +++ meth +++ "'").

Definition lower (v : pyval) : result string :=
  match v with
  | PStr s => Ok (PyStr.lower s)
  | _ => Raise (no_attribute v "lower")
  end.

Definition strip (v : pyval) : result string :=
  match v with
  | PStr s => Ok (PyStr.strip s)
  | _ => Raise (no_attribute v "strip")
  end.

(** [v.get]: the pipeline calls it on what it takes for a dictionary. *)
Definition as_dict (v : pyval) : result dict :=
  match v with
  | PDict d => Ok d
  | _ => Raise (no_attribute v "get")
  end.

End Py.

(** ** Library functions and external collaborators

    What the pipeline takes from Python's library and from its prompt
    module is kept as an interface: the claims below hold for every
    implementation of it. *)

Class PyLib : Type := {
  (** [repr(v)]; [str(v)] is [repr(v)] for every value but a string. *)
  py_repr : pyval -> string;
  (** [json.loads(text)] *)
  json_loads : string -> result pyval;
  (** [json.dumps(v, indent=2)] *)
  json_dumps : pyval -> string;
  (** [sha256(text.encode("utf-8")).hexdigest()] *)
  sha256_hex : string -> string;
  (** The request builders of [modules/prompts.py], each returning the
      system and the user prompt. *)
  build_summary_prompt : string -> string * string;
  build_classification_prompt : string -> string * string;
  build_analysis_prompt : string -> string * string;
  build_refactor_prompt : string -> string * string;
  (** [Path(p).name], [Path(p).stem], [Path(p).expanduser().resolve()] *)
  path_name : string -> string;
  path_stem : string -> string;
  path_resolve : string -> string
}.

Section Aggregator.

Context {L : PyLib}.

(** [str(v)] *)
Definition py_str (v : pyval) : string :=
  match v with
  | PStr s => s
  | _ => py_repr v
  end.

(** [for x in v]: the elements a [for] loop visits. *)
Definition py_iter (v : pyval) : result (list pyval) :=
  match v with
  | PList l => Ok l
  | PStr s => Ok (map PStr (PyStr.chars s))
  | PDict d => Ok (map (fun kv => PStr (fst kv)) d)
  | _ => Raise (TypeError ("'" +++ Py.type_name v +++ "' object is not iterable"))
  end.

(** *** [_flatten_issues_from_classification] *)

Definition severities : list string := ["low"; "medium"; "high"; "critical"].

(** The body of the inner loop: one element of a category's list
    becomes one issue dictionary. *)
Definition flatten_issue (category : string) (issue : pyval) : result dict :=
  let issue_dict :=
    match issue with
    | PDict d => d
    | _ => [("message", PStr (py_str issue))]
    end in
  let issue_dict := Py.setdefault "category" (PStr category) issue_dict in
  (sev <- Py.lower (Py.or_ (Py.get "severity" issue_dict) (PStr "medium")) ;;
   let sev := if PyStr.mem sev severities then sev else "medium" in
   let issue_dict := Py.set "severity" (PStr sev) issue_dict in
   let issue_dict := Py.setdefault "code" (PStr (PyStr.upper category)) issue_dict in
   Ok issue_dict)%result.

Fixpoint flatten_items (category : string) (items : list pyval)
    (issues : list dict) : result (list dict) :=
  match items with
  | [] => Ok issues
  | issue :: rest =>
      (issue_dict <- flatten_issue category issue ;;
       flatten_items category rest (issues ++ [issue_dict]))%result
  end.

Fixpoint flatten_categories (entries : dict) (issues : list dict)
    : result (list dict) :=
  match entries with
  | [] => Ok issues
  | (category, items) :: rest =>
      match items with
      | PList l =>
          (issues' <- flatten_items category l issues ;;
           flatten_categories rest issues')%result
      | _ => flatten_categories rest issues
      end
  end.

Definition _flatten_issues_from_classification (classification : dict)
    : result (list dict) :=
  flatten_categories classification [].

(** *** [_compute_risk_score] *)

(** [severity_weights.get(sev, 10)]: a list or a dictionary cannot be
    hashed. *)
Definition severity_weights_get (sev : pyval) (dflt : Z) : result Z :=
  match sev with
  | PStr s =>
      Ok (if (s =? "low")%string then 5
          else if (s =? "medium")%string then 10
          else if (s =? "high")%string then 20
          else if (s =? "critical")%string then 30
          else dflt)
  | PList _ | PDict _ =>
      Raise (TypeError ("unhashable type: '" +++ Py.type_name sev +++ "'"))
  | _ => Ok dflt
  end.

Fixpoint score_issues (issues : list dict) (score : Z) : result Z :=
  match issues with
  | [] => Ok score
  | issue :: rest =>
      let sev := Py.get_default "severity" (PStr "medium") issue in
      (w <- severity_weights_get sev 10 ;;
       score_issues rest (score + w))%result
  end.

Definition _compute_risk_score (classification analysis : dict) : result Z :=
  (issues <- _flatten_issues_from_classification classification ;;
   score <- score_issues issues 0 ;;
   let risks := Py.or_ (Py.get "risks" analysis) (PList []) in
   let score :=
     match risks with
     | PList l => score + 5 * Z.of_nat (List.length l)
     | _ => score
     end in
   Ok (Z.max 0 (Z.min 100 score)))%result.

(** *** [_derive_checklist_items] *)

Definition risk_item_text (item : pyval) : result string :=
  match item with
  | PDict d =>
      Py.strip
        (Py.or_ (Py.or_ (Py.or_ (Py.or_ (Py.get "mitigation" d)
                                        (Py.get "recommendation" d))
                                (Py.get "message" d))
                        (Py.get "description" d))
                (PStr ""))
  | _ => Ok (PyStr.strip (py_str item))
  end.

Definition uncertainty_item_text (item : pyval) : result string :=
  match item with
  | PDict d =>
      Py.strip (Py.or_ (Py.or_ (Py.get "message" d) (Py.get "description" d))
                       (PStr ""))
  | _ => Ok (PyStr.strip (py_str item))
  end.

(** The two inner loops differ in the text they read and in the label. *)
Fixpoint checklist_items_loop (text_of : pyval -> result string)
    (label : string) (items : list pyval) (checklist : list string)
    : result (list string) :=
  match items with
  | [] => Ok checklist
  | item :: rest =>
      (text <- text_of item ;;
       if (text =? "")%string then
         checklist_items_loop text_of label rest checklist
       else
         let entry := label +++ text in
         if PyStr.mem entry checklist then
           checklist_items_loop text_of label rest checklist
         else
           checklist_items_loop text_of label rest (checklist ++ [entry]))%result
  end.

Fixpoint checklist_buckets (analysis : dict) (bucket_names : list string)
    (checklist : list string) : result (list string) :=
  match bucket_names with
  | [] => Ok checklist
  | bucket_name :: rest =>
      match Py.or_ (Py.get bucket_name analysis) (PList []) with
      | PList bucket =>
          (checklist' <- checklist_items_loop risk_item_text "Review: "
                           bucket checklist ;;
           checklist_buckets analysis rest checklist')%result
      | _ => checklist_buckets analysis rest checklist
      end
  end.

Definition _derive_checklist_items (classification analysis : dict)
    : result (list string) :=
  (checklist <- checklist_buckets analysis ["risks"; "assumptions"] [] ;;
   match Py.or_ (Py.get "uncertainty" classification) (PList []) with
   | PList unc =>
       checklist_items_loop uncertainty_item_text "Clarify: " unc checklist
   | _ => Ok checklist
   end)%result.

(** *** [_derive_refactor_suggestions] *)

Definition add_suggestion (text : string) (suggestions : list string)
    : list string :=
  if negb (text =? "")%string && negb (PyStr.mem text suggestions)
  then suggestions ++ [text] else suggestions.

Fixpoint suggestion_keys (analysis : dict) (keys : list string)
    (suggestions : list string) : list string :=
  match keys with
  | [] => suggestions
  | key :: rest =>
      match Py.get key analysis with
      | PList val =>
          suggestion_keys analysis rest
            (fold_left (fun acc item => add_suggestion (PyStr.strip (py_str item)) acc)
                       val suggestions)
      | _ => suggestion_keys analysis rest suggestions
      end
  end.

Fixpoint suggestion_issues (issues : list dict) (suggestions : list string)
    : result (list string) :=
  match issues with
  | [] => Ok suggestions
  | issue :: rest =>
      (text <- Py.strip (Py.or_ (Py.or_ (Py.get "recommendation" issue)
                                        (Py.get "suggestion" issue))
                                (PStr "")) ;;
       suggestion_issues rest (add_suggestion text suggestions))%result
  end.

Definition _derive_refactor_suggestions (classification analysis : dict)
    : result (list string) :=
  let suggestions :=
    suggestion_keys analysis
      ["suggestions"; "refactor_suggestions"; "improvements"] [] in
  (issues <- _flatten_issues_from_classification classification ;;
   suggestion_issues issues suggestions)%result.

End Aggregator.

(** ** [modules/validator.py] *)

Section Validator.

Context {L : PyLib}.

(** [key in obj] *)
Definition py_contains (key : string) (obj : pyval) : result bool :=
  match obj with
  | PDict d => Ok (match Py.lookup key d with Some _ => true | None => false end)
  | PList l =>
      Ok (existsb (fun v => match v with
                            | PStr s => (s =? key)%string
                            | _ => false
                            end) l)
  | PStr s => Ok (PyStr.contains key s)
  | _ => Raise (TypeError ("argument of type '" +++ Py.type_name obj
                           +++ "' is not iterable"))
  end.

(** [obj[key]] for a string [key] *)
Definition py_getitem (obj : pyval) (key : string) : result pyval :=
  match obj with
  | PDict d =>
      match Py.lookup key d with
      | Some v => Ok v
      | None => Raise (KeyError key)
      end
  | PList _ => Raise (TypeError "list indices must be integers or slices, not str")
  | PStr _ => Raise (TypeError "string indices must be integers, not 'str'")
  | _ => Raise (TypeError ("'" +++ Py.type_name obj
                           +++ "' object is not subscriptable"))
  end.

(** [obj.items()] *)
Definition py_items (obj : pyval) : result dict :=
  match obj with
  | PDict d => Ok d
  | _ => Raise (Py.no_attribute obj "items")
  end.

Definition validate_summary (summary code : string) : result unit :=
  if (summary =? "")%string || (PyStr.strip summary =? "")%string
  then Raise (ValueError "Summary is empty.")
  else Ok tt.

Fixpoint _ensure_keys (obj : pyval) (required_keys : list string)
    (context : string) : result unit :=
  match required_keys with
  | [] => Ok tt
  | key :: rest =>
      (present <- py_contains key obj ;;
       if present then _ensure_keys obj rest context
       else Raise (ValueError (context +++ ": missing required key '"
                               +++ key +++ "'.")))%result
  end.

Definition required_categories : list string :=
  [ "performance"; "error_handling"; "logic_correctness"; "maintainability";
    "security"; "data_integrity"; "uncertainty" ].

(** The second loop of [validate_classification]. *)
Fixpoint check_lists (data : pyval) (keys : list string) : result unit :=
  match keys with
  | [] => Ok tt
  | key :: rest =>
      (v <- py_getitem data key ;;
       if Py.is_list v then check_lists data rest
       else Raise (ValueError ("Classification: '" +++ key
                               +++ "' should be a list, got <class '"
                               +++ Py.type_name v +++ "'>.")))%result
  end.

(** The third loop, over every entry of the dictionary. *)
Fixpoint check_strings (key : string) (issues : list pyval) : result unit :=
  match issues with
  | [] => Ok tt
  | issue :: rest =>
      if Py.is_str issue then check_strings key rest
      else Raise (ValueError ("Classification: entry in '" +++ key
                              +++ "' is not a string: " +++ py_repr issue))
  end.

Fixpoint check_entries (entries : dict) : result unit :=
  match entries with
  | [] => Ok tt
  | (key, issues) :: rest =>
      (elements <- py_iter issues ;;
       _ <- check_strings key elements ;;
       check_entries rest)%result
  end.

Definition validate_classification (data : pyval) (code : string)
    : result unit :=
  (_ <- _ensure_keys data required_categories "Classification" ;;
   _ <- check_lists data required_categories ;;
   entries <- py_items data ;;
   check_entries entries)%result.

Definition is_list_of_str (v : pyval) : bool :=
  match v with
  | PList l => forallb Py.is_str l
  | _ => false
  end.

Definition validate_analysis (data : pyval) (code : string) : result unit :=
  (_ <- _ensure_keys data ["summary"; "risks"; "assumptions"] "Analysis" ;;
   summary <- py_getitem data "summary" ;;
   if negb (Py.is_str summary) then
     Raise (ValueError "Analysis: 'summary' must be a string.")
   else
     risks <- py_getitem data "risks" ;;
     if negb (is_list_of_str risks) then
       Raise (ValueError "Analysis: 'risks' must be a list of strings.")
     else
       assumptions <- py_getitem data "assumptions" ;;
       if negb (is_list_of_str assumptions) then
         Raise (ValueError "Analysis: 'assumptions' must be a list of strings.")
       else Ok tt)%result.

End Validator.

(** ** Run-level aggregation: [aggregate_results] *)

Module FileResult.
(** The dictionary [process_file] returns, with its six keys. *)
Record t : Type := mk {
  path : string;
  risk_score : Z;
  summary : string;
  issues : list dict;
  refactor_suggestions : list string;
  checklist_items : list string
}.
End FileResult.

Module Summary.
(** The dictionary [aggregate_results] returns. *)
Record t : Type := mk {
  run_id : string;
  timestamp_utc : string;
  scanned_files : Z;
  overall_risk_score : Z;
  red_flags : list dict;
  files : list FileResult.t;
  checklist : list string
}.
End Summary.

(** [round(a / n)] for integers [a] and [n > 0]: the quotient rounded to
    the nearest integer, a tie going to the even one.  Python divides in
    binary64; for scores in 0..100 and fewer than 2^46 files the double
    lies on the same side of every half-integer as the exact quotient. *)
Definition py_round_div (a n : Z) : Z :=
  let q := a / n in
  let r := a mod n in
  if 2 * r <? n then q
  else if n <? 2 * r then q + 1
  else if Z.even q then q else q + 1.

Definition red_flag_entry (file : string) (issue : dict) : dict :=
  [ ("file", PStr file);
    ("severity", Py.get "severity" issue);
    ("code", Py.get "code" issue);
    ("message", Py.get "message" issue) ].

(** The loop over one file's issues. *)
Fixpoint red_flags_loop (file : string) (issues : list dict)
    (red_flags : list dict) : result (list dict) :=
  match issues with
  | [] => Ok red_flags
  | issue :: rest =>
      (sev <- Py.lower (Py.or_ (Py.get "severity" issue) (PStr "")) ;;
       if PyStr.mem sev ["high"; "critical"] then
         red_flags_loop file rest (red_flags ++ [red_flag_entry file issue])
       else
         red_flags_loop file rest red_flags)%result
  end.

(** The loop over one file's checklist items. *)
Fixpoint checklist_loop (items : list string) (checklist : list string)
    : list string :=
  match items with
  | [] => checklist
  | item :: rest =>
      if PyStr.mem item checklist then checklist_loop rest checklist
      else checklist_loop rest (checklist ++ [item])
  end.

(** The loop over the files, carrying [red_flags] and [checklist]. *)
Fixpoint aggregate_loop (file_results : list FileResult.t)
    (red_flags : list dict) (checklist : list string)
    : result (list dict * list string) :=
  match file_results with
  | [] => Ok (red_flags, checklist)
  | fr :: rest =>
      (red_flags' <- red_flags_loop (FileResult.path fr) (FileResult.issues fr)
                       red_flags ;;
       aggregate_loop rest red_flags'
         (checklist_loop (FileResult.checklist_items fr) checklist))%result
  end.

(** [aggregate_results(run_id, file_results)]; [now] is the timestamp the
    function reads from the clock. *)
Definition aggregate_results (run_id now : string)
    (file_results : list FileResult.t) : result Summary.t :=
  let scanned_files := Z.of_nat (List.length file_results) in
  let overall_risk :=
    if scanned_files =? 0 then 0
    else py_round_div
           (fold_left (fun acc fr => acc + FileResult.risk_score fr) file_results 0)
           scanned_files in
  (acc <- aggregate_loop file_results [] [] ;;
   Ok (Summary.mk run_id now scanned_files overall_risk
                  (fst acc) file_results (snd acc)))%result.

(** ** Effects: the world the orchestrator runs in

    A run is a function on a world: the files on disk and the history of
    what the run did so far.  The external service, the clock and the
    directory listing are oracles; the first two may answer differently as
    the history grows. *)

Inductive event : Type :=
| EvPrint (text : string)                       (* print(text) *)
| EvPrintErr (text : string)                    (* print(text, file=sys.stderr) *)
| EvLLM (model system_prompt user_prompt : string)  (* a request to the service *)
| EvParse (text : string)                       (* json.loads(text) *)
| EvClock                                       (* datetime.utcnow() *)
| EvRead (path : string)                        (* path.read_text() *)
| EvMkdir (path : string)                       (* path.mkdir(parents=True, exist_ok=True) *)
| EvWrite (path content : string).              (* path.write_text(content) *)

Record world : Type := mkWorld {
  fs : list (string * string);    (* path and content, the latest write first *)
  trace : list event
}.

Class Outside : Type := {
  (** The reply of the service to a request, or the exception the client
      raises. *)
  llm_reply : list event -> string -> string -> string -> result string;
  (** [datetime.utcnow()] as [isoformat(timespec="seconds")] and as
      [strftime("%Y%m%dT%H%M%S")]. *)
  utcnow_iso : list event -> string;
  utcnow_compact : list event -> string;
  (** [p.exists()] at start-up, and the files [root.glob(pattern)] yields,
      sorted. *)
  path_exists : string -> bool;
  sorted_glob_files : string -> string -> list string;
  (** [os.getenv("LLM_MODEL", "gpt-4.1-mini")] *)
  DEFAULT_MODEL : string
}.

Definition M (A : Type) : Type := world -> result A * world.

Definition ret {A : Type} (a : A) : M A := fun w => (Ok a, w).

Definition raise {A : Type} (e : pyexc) : M A := fun w => (Raise e, w).

Definition bind {A B : Type} (c : M A) (k : A -> M B) : M B :=
  fun w =>
    match c w with
    | (Ok a, w') => k a w'
    | (Raise e, w') => (Raise e, w')
    end.

(** [try: c except Exception as e: ...], the handler being the caller's
    match on the outcome. *)
Definition try_ {A : Type} (c : M A) : M (result A) :=
  fun w => let (r, w') := c w in (Ok r, w').

Definition lift {A : Type} (r : result A) : M A := fun w => (r, w).

Declare Scope io_scope.
Delimit Scope io_scope with io.
Notation "x <- c ;; k" := (bind c (fun x => k))
  (at level 100, c at next level, right associativity) : io_scope.

Definition emit (e : event) : M unit :=
  fun w => (Ok tt, mkWorld (fs w) (trace w ++ [e])).

Definition print (text : string) : M unit := emit (EvPrint text).
Definition print_err (text : string) : M unit := emit (EvPrintErr text).

Definition path_join (dir name : string) : string := dir +++ "/" +++ name.

Definition fs_lookup (path : string) (files : list (string * string))
    : option string :=
  option_map snd (find (fun pc => (fst pc =? path)%string) files).

(** [path.read_text(encoding="utf-8")] *)
Definition read_text (path : string) : M string :=
  fun w =>
    let w' := mkWorld (fs w) (trace w ++ [EvRead path]) in
    match fs_lookup path (fs w) with
    | Some content => (Ok content, w')
    | None => (Raise (OSError ("No such file or directory: '" +++ path +++ "'")), w')
    end.

(** [path.is_file()] *)
Definition is_file (path : string) : M bool :=
  fun w => (Ok (match fs_lookup path (fs w) with Some _ => true | None => false end), w).

(** [path.write_text(content, encoding="utf-8")] *)
Definition write_text (path content : string) : M unit :=
  fun w => (Ok tt, mkWorld ((path, content) :: fs w) (trace w ++ [EvWrite path content])).

Definition mkdir (path : string) : M unit := emit (EvMkdir path).

Section Stages.

Context {L : PyLib} {O : Outside}.

Definition now_iso : M string :=
  fun w => (Ok (utcnow_iso (trace w) +++ "Z"), mkWorld (fs w) (trace w ++ [EvClock])).

Definition now_compact : M string :=
  fun w => (Ok (utcnow_compact (trace w)), mkWorld (fs w) (trace w ++ [EvClock])).

(** [json.loads(text)], leaving a mark in the history. *)
Definition parse_json (text : string) : M pyval :=
  (_ <- emit (EvParse text) ;; lift (json_loads text))%io.

(** *** [modules/llm_client.py] *)

Definition call_llm (system_prompt user_prompt : string)
    (model : option string) : M string :=
  let model_name :=
    match model with
    | Some m => if (m =? "")%string then DEFAULT_MODEL else m
    | None => DEFAULT_MODEL
    end in
  fun w =>
    let w' := mkWorld (fs w)
                (trace w ++ [EvLLM model_name system_prompt user_prompt]) in
    match llm_reply (trace w) model_name system_prompt user_prompt with
    | Ok content => (Ok (PyStr.strip content), w')
    | Raise e => (Raise e, w')
    end.

(** *** [modules/prompts.py]: the correction request and the templates *)

Definition ANALYSIS_JSON_TEMPLATE : string :=
  let q := PyStr.dq in
  PyStr.strip
    (PyStr.join PyStr.nl
       [ "";
         "{";
         "  " +++ q +++ "summary" +++ q +++ ": " +++ q +++ "string" +++ q +++ ",";
         "  " +++ q +++ "risks" +++ q +++ ": [" +++ q +++ "string" +++ q +++ "],";
         "  " +++ q +++ "assumptions" +++ q +++ ": [" +++ q +++ "string" +++ q +++ "]";
         "}";
         "" ]).

Definition template_line (key : string) (last : bool) : string :=
  let q := PyStr.dq in
  "  " +++ q +++ key +++ q +++ ": [" +++ q +++ "string" +++ q +++ "]"
  +++ (if last then "" else ",").

Definition CLASSIFICATION_JSON_TEMPLATE : string :=
  PyStr.strip
    (PyStr.join PyStr.nl
       [ "";
         "{";
         template_line "performance" false;
         template_line "error_handling" false;
         template_line "logic_correctness" false;
         template_line "maintainability" false;
         template_line "security" false;
         template_line "data_integrity" false;
         template_line "uncertainty" true;
         "}";
         "" ]).

Definition build_json_correction_prompt (raw_json template : string)
    : string * string :=
  let system_prompt :=
    "You are a strict JSON repair assistant. "
    +++ "Your only job is to take malformed JSON and output syntactically valid JSON that matches the given template. "
    +++ "You must not change the meaning of any values, only fix formatting and syntax." in
  let user_prompt :=
    PyStr.strip
      (PyStr.join PyStr.nl
         [ "";
           "[ROLE]";
           "Act as a JSON repair tool.";
           "";
           "[CONTEXT]";
           "You are given JSON-like output that may contain syntax errors (such as comments, trailing commas,";
           "or invalid tokens). You must correct it to be valid JSON that matches the target structure.";
           "";
           "[TASK]";
           "- Take the provided raw JSON-like text.";
           "- Fix only the syntax and formatting to make it valid JSON.";
           "- Preserve the meaning and text of each value as much as possible.";
           "- Ensure the result matches the structure described in the template.";
           "";
           "[CONSTRAINTS]";
           "- Do NOT add new fields.";
           "- Do NOT remove fields that are present and valid.";
           "- Do NOT change field names.";
           "- Do NOT convert strings to other types.";
           "- Do NOT include any comments (no '//' or '/* ... */').";
           "- Do NOT include any explanation or text outside the JSON.";
           "- Output must be syntactically valid JSON.";
           "";
           "[TEMPLATE]";
           template;
           "";
           "[RAW_JSON]";
           raw_json;
           "" ]) in
  (system_prompt, user_prompt).

(** *** The stage executor *)

Definition _correct_json (raw template : string) (model : option string)
    : M string :=
  let '(system_prompt, user_prompt) := build_json_correction_prompt raw template in
  (reply <- call_llm system_prompt user_prompt model ;;
   ret (PyStr.strip reply))%io.

Definition run_summary_step (code : string) (model : option string) : M string :=
  let '(system_prompt, user_prompt) := build_summary_prompt code in
  (raw <- call_llm system_prompt user_prompt model ;;
   _ <- lift (validate_summary raw code) ;;
   ret (PyStr.strip raw))%io.

Definition still_invalid (stage exc exc2 raw fixed_raw : string) : string :=
  stage +++ " JSON still invalid after correction." +++ PyStr.nl
  +++ "Original error: " +++ exc +++ PyStr.nl
  +++ "Correction error: " +++ exc2 +++ PyStr.nl
  +++ "Original output:" +++ PyStr.nl +++ raw +++ PyStr.nl +++ PyStr.nl
  +++ "Corrected output:" +++ PyStr.nl +++ fixed_raw.

(** [run_classification_step] and [run_analysis_step] have one body;
    they differ in the stage's name, request builder, template and
    validator. *)
Definition run_structured_step (stage : string)
    (build : string -> string * string) (template : string)
    (validate : pyval -> string -> result unit)
    (code : string) (model : option string) : M pyval :=
  let '(system_prompt, user_prompt) := build code in
  (reply <- call_llm system_prompt user_prompt model ;;
   let raw := PyStr.strip reply in
   first <- try_ (parse_json raw) ;;
   data <-
     match first with
     | Ok data => ret data
     | Raise (JSONDecodeError exc) =>
         (* Attempt one correction pass *)
         _ <- print ("[WARN] " +++ stage
                     +++ " JSON malformed, attempting correction: " +++ exc) ;;
         fixed_raw <- _correct_json raw template model ;;
         second <- try_ (parse_json fixed_raw) ;;
         match second with
         | Ok data => ret data
         | Raise (JSONDecodeError exc2) =>
             raise (ValueError (still_invalid stage exc exc2 raw fixed_raw))
         | Raise e => raise e
         end
     | Raise e => raise e
     end ;;
   _ <- lift (validate data code) ;;
   ret data)%io.

Definition run_classification_step : string -> option string -> M pyval :=
  run_structured_step "Classification" build_classification_prompt
    CLASSIFICATION_JSON_TEMPLATE validate_classification.

Definition run_analysis_step : string -> option string -> M pyval :=
  run_structured_step "Analysis" build_analysis_prompt
    ANALYSIS_JSON_TEMPLATE validate_analysis.

Definition run_refactor_step (code : string) (model : option string) : M string :=
  let '(system_prompt, user_prompt) := build_refactor_prompt code in
  (reply <- call_llm system_prompt user_prompt model ;;
   let raw := PyStr.strip reply in
   if (raw =? "")%string then raise (ValueError "Refactor output is empty.")
   else ret raw)%io.

End Stages.

(** ** [modules/reporter.py] *)

Section Reporter.

Context {L : PyLib}.

Definition bullet_lines (items : list pyval) : string :=
  PyStr.join PyStr.nl (map (fun item => "- " +++ py_str item) items).

Definition _format_issue_section (title : string) (items : pyval)
    : result string :=
  if negb (Py.truthy items) then
    Ok ("### " +++ title +++ PyStr.nl +++ PyStr.nl +++ "- *(none detected)*"
        +++ PyStr.nl)
  else
    (elements <- py_iter items ;;
     Ok ("### " +++ title +++ PyStr.nl +++ PyStr.nl +++ bullet_lines elements
         +++ PyStr.nl))%result.

Definition bullets_or_none (items : pyval) : result string :=
  if Py.truthy items then
    (elements <- py_iter items ;; Ok (bullet_lines elements +++ PyStr.nl))%result
  else Ok ("- *(none explicitly identified)*" +++ PyStr.nl).

Definition build_markdown_report (file_name summary : string)
    (classification analysis : dict) : result string :=
  let cget k := Py.get_default k (PList []) classification in
  let risks := Py.get_default "risks" (PList []) analysis in
  let assumptions := Py.get_default "assumptions" (PList []) analysis in
  (s1 <- _format_issue_section "Performance" (cget "performance") ;;
   s2 <- _format_issue_section "Error Handling" (cget "error_handling") ;;
   s3 <- _format_issue_section "Logic Correctness" (cget "logic_correctness") ;;
   s4 <- _format_issue_section "Maintainability" (cget "maintainability") ;;
   s5 <- _format_issue_section "Security" (cget "security") ;;
   s6 <- _format_issue_section "Data Integrity" (cget "data_integrity") ;;
   s7 <- _format_issue_section "Uncertainty / Open Questions" (cget "uncertainty") ;;
   r <- bullets_or_none risks ;;
   a <- bullets_or_none assumptions ;;
   Ok (PyStr.join PyStr.nl
         [ "# Code Review: " +++ file_name +++ PyStr.nl;
           "## Summary" +++ PyStr.nl;
           PyStr.strip summary +++ PyStr.nl;
           "## Issue Categories" +++ PyStr.nl;
           s1; s2; s3; s4; s5; s6; s7;
           "## Risks" +++ PyStr.nl;
           r;
           "## Assumptions" +++ PyStr.nl;
           a;
           "## Refactor Suggestions (Optional / Future Work)" +++ PyStr.nl;
           "- This version does not yet include automated refactor output."
           +++ PyStr.nl
           +++ "- Future versions may generate a behavior-preserving refactor using a dedicated prompt."
           +++ PyStr.nl ]))%result.

End Reporter.

(** ** [modules/run_logger.py] *)

Module Flags.
(** The [flags] dictionary [main] builds from the command line. *)
Record t : Type := mk {
  model : option string;
  no_markdown : bool;
  no_classification : bool;
  no_analysis : bool;
  refactor : bool
}.

Definition to_py (f : t) : pyval :=
  PDict [ ("model", match model f with Some m => PStr m | None => PNone end);
          ("no_markdown", PBool (no_markdown f));
          ("no_classification", PBool (no_classification f));
          ("no_analysis", PBool (no_analysis f));
          ("refactor", PBool (refactor f)) ].
End Flags.

Module RunLogger.
Record t : Type := mk {
  input_file : string;
  model : option string;
  input_sha256 : string;
  flags : Flags.t;
  started_at : string;
  steps : list pyval;
  outputs : list pyval
}.
End RunLogger.

Section RunLog.

Context {L : PyLib} {O : Outside}.

(** [RunLogger(input_file=..., model=..., input_sha256=..., flags=...)] *)
Definition new_run_logger (input_file : string) (model : option string)
    (input_sha256 : string) (flags : Flags.t) : M RunLogger.t :=
  (started_at <- now_iso ;;
   ret (RunLogger.mk input_file model input_sha256 flags started_at [] []))%io.

Definition log_step (self : RunLogger.t) (name status : string) : M RunLogger.t :=
  (timestamp <- now_iso ;;
   let event := PDict [ ("timestamp", PStr timestamp);
                        ("name", PStr name);
                        ("status", PStr status) ] in
   ret (RunLogger.mk (RunLogger.input_file self) (RunLogger.model self)
          (RunLogger.input_sha256 self) (RunLogger.flags self)
          (RunLogger.started_at self)
          (RunLogger.steps self ++ [event]) (RunLogger.outputs self)))%io.

(** [add_output(kind, path, content)], always called with the content. *)
Definition add_output (self : RunLogger.t) (kind path content : string)
    : RunLogger.t :=
  let digest := sha256_hex content in
  RunLogger.mk (RunLogger.input_file self) (RunLogger.model self)
    (RunLogger.input_sha256 self) (RunLogger.flags self)
    (RunLogger.started_at self) (RunLogger.steps self)
    (RunLogger.outputs self
     ++ [PDict [ ("kind", PStr kind); ("path", PStr path); ("sha256", PStr digest) ]]).

Definition to_dict (self : RunLogger.t) : dict :=
  [ ("version", PInt 1);
    ("started_at", PStr (RunLogger.started_at self));
    ("input_file", PStr (RunLogger.input_file self));
    ("model", PStr (match RunLogger.model self with
                    | Some m => if (m =? "")%string then "DEFAULT" else m
                    | None => "DEFAULT"
                    end));
    ("input_sha256", PStr (RunLogger.input_sha256 self));
    ("flags", Flags.to_py (RunLogger.flags self));
    ("steps", PList (RunLogger.steps self));
    ("outputs", PList (RunLogger.outputs self)) ].

(** [run_logger.write(log_dir, base_name)] *)
Definition run_logger_write (self : RunLogger.t) (log_dir base_name : string)
    : M string :=
  let data := to_dict self in
  (_ <- mkdir log_dir ;;
   let out_path := path_join log_dir (base_name +++ "_runlog.json") in
   _ <- write_text out_path (json_dumps (PDict data)) ;;
   ret out_path)%io.

Definition _update_global_index (log_dir runlog_path : string)
    (run_logger : RunLogger.t) : M string :=
  let index_path := path_join log_dir "index.json" in
  (present <- is_file index_path ;;
   existing <-
     (if present : bool then
        loaded <- try_ (text <- read_text index_path ;; parse_json text) ;;
        match loaded with
        | Ok (PList l) => ret l
        | Ok _ => ret []
        | Raise _ => ret []
        end
      else ret []) ;;
   let entry := Py.set "runlog_path" (PStr runlog_path) (to_dict run_logger) in
   let existing := existing ++ [PDict entry] in
   _ <- write_text index_path (json_dumps (PList existing)) ;;
   ret index_path)%io.

End RunLog.

(** ** The directory orchestrator: [process_file] and [main] *)

Module Args.
(** The command line, as [parse_args] returns it. *)
Record t : Type := mk {
  path : string;
  glob : string;
  output_dir : string;
  log_dir : string;
  model : option string;
  no_markdown : bool;
  no_classification : bool;
  no_analysis : bool;
  refactor : bool;
  dry_run : bool;
  run_id : option string
}.
End Args.

(** [x or None] and [x or default] on an optional string. *)
Definition nonempty (x : option string) : option string :=
  match x with
  | Some s => if (s =? "")%string then None else Some s
  | None => None
  end.

Definition or_default (x : option string) (default : string) : string :=
  match nonempty x with Some s => s | None => default end.

Definition file_result_to_py (fr : FileResult.t) : pyval :=
  PDict [ ("path", PStr (FileResult.path fr));
          ("risk_score", PInt (FileResult.risk_score fr));
          ("summary", PStr (FileResult.summary fr));
          ("issues", PList (map PDict (FileResult.issues fr)));
          ("refactor_suggestions", PList (map PStr (FileResult.refactor_suggestions fr)));
          ("checklist_items", PList (map PStr (FileResult.checklist_items fr))) ].

Definition summary_to_py (s : Summary.t) : pyval :=
  PDict [ ("run_id", PStr (Summary.run_id s));
          ("timestamp_utc", PStr (Summary.timestamp_utc s));
          ("scanned_files", PInt (Summary.scanned_files s));
          ("overall_risk_score", PInt (Summary.overall_risk_score s));
          ("red_flags", PList (map PDict (Summary.red_flags s)));
          ("files", PList (map file_result_to_py (Summary.files s)));
          ("checklist", PList (map PStr (Summary.checklist s))) ].

Definition empty_classification : dict :=
  [ ("performance", PList []); ("error_handling", PList []);
    ("logic_correctness", PList []); ("maintainability", PList []);
    ("security", PList []); ("data_integrity", PList []);
    ("uncertainty", PList []) ].

Definition empty_analysis : dict :=
  [ ("summary", PStr ""); ("risks", PList []); ("assumptions", PList []) ].

(** The stub [process_file] returns in a dry run. *)
Definition dry_run_stub (path : string) : FileResult.t :=
  FileResult.mk path 0 "" [] [] [].

Section Orchestrator.

Context {L : PyLib} {O : Outside}.

(** U+2014, as the source file spells it in UTF-8. *)
Definition em_dash : string :=
  String (ascii_of_nat 226) (String (ascii_of_nat 128)
    (String (ascii_of_nat 148) EmptyString)).

(** The nine [print] calls a dry run makes for one prompt pair. *)
Definition dry_run_show (step system_prompt user_prompt : string) : M unit :=
  (_ <- print (PyStr.replicate 80 "="%char) ;;
   _ <- print ("[DRY-RUN] " +++ step +++ " STEP " +++ em_dash +++ " system prompt") ;;
   _ <- print (PyStr.replicate 80 "-"%char) ;;
   _ <- print system_prompt ;;
   _ <- print "" ;;
   _ <- print ("[DRY-RUN] " +++ step +++ " STEP " +++ em_dash +++ " user prompt") ;;
   _ <- print (PyStr.replicate 80 "-"%char) ;;
   _ <- print user_prompt ;;
   print "")%io.

Definition when (b : bool) (c : M unit) : M unit := if b then c else ret tt.

Definition process_file_dry_run (path rel_name code : string)
    (model : option string) (flags : Flags.t) : M FileResult.t :=
  (_ <- print ("[DRY-RUN] PL/SQL review for: " +++ rel_name) ;;
   _ <- print ("[DRY-RUN] Model: " +++ or_default model "DEFAULT (llm_client)") ;;
   _ <- print "" ;;
   _ <- (let '(s, u) := build_summary_prompt code in dry_run_show "SUMMARY" s u) ;;
   _ <- when (negb (Flags.no_classification flags))
          (let '(s, u) := build_classification_prompt code in
           dry_run_show "CLASSIFICATION" s u) ;;
   _ <- when (negb (Flags.no_analysis flags))
          (let '(s, u) := build_analysis_prompt code in
           dry_run_show "ANALYSIS" s u) ;;
   _ <- when (Flags.refactor flags)
          (let '(s, u) := build_refactor_prompt code in
           dry_run_show "REFACTOR" s u) ;;
   _ <- print (PyStr.replicate 80 "="%char) ;;
   _ <- print "[DRY-RUN] No LLM calls were made. No files were written." ;;
   ret (dry_run_stub path))%io.

(** The classification block of a real run: the stage, its artifact and
    the log entries, or the skip. *)
Definition classification_block (rel_name base_name code output_dir : string)
    (model : option string) (flags : Flags.t) (run_logger : RunLogger.t)
    : M (dict * RunLogger.t) :=
  if negb (Flags.no_classification flags) then
    (_ <- print ("[INFO] Running classification step on: " +++ rel_name) ;;
     run_logger <- log_step run_logger "classification" "started" ;;
     data <- run_classification_step code model ;;
     run_logger <- log_step run_logger "classification" "success" ;;
     let classification_json_path :=
       path_join output_dir (base_name +++ "_classification.json") in
     let classification_content := json_dumps data in
     _ <- write_text classification_json_path classification_content ;;
     let run_logger := add_output run_logger "classification_json"
                         classification_json_path classification_content in
     classification <- lift (Py.as_dict data) ;;
     ret (classification, run_logger))%io
  else
    (_ <- print ("[INFO] --no-classification flag; skipping classification for "
                 +++ rel_name) ;;
     run_logger <- log_step run_logger "classification" "skipped" ;;
     ret (empty_classification, run_logger))%io.

Definition analysis_block (rel_name base_name code output_dir : string)
    (model : option string) (flags : Flags.t) (run_logger : RunLogger.t)
    : M (dict * RunLogger.t) :=
  if negb (Flags.no_analysis flags) then
    (_ <- print ("[INFO] Running analysis step on: " +++ rel_name) ;;
     run_logger <- log_step run_logger "analysis" "started" ;;
     data <- run_analysis_step code model ;;
     run_logger <- log_step run_logger "analysis" "success" ;;
     let analysis_json_path :=
       path_join output_dir (base_name +++ "_analysis.json") in
     let analysis_content := json_dumps data in
     _ <- write_text analysis_json_path analysis_content ;;
     let run_logger := add_output run_logger "analysis_json"
                         analysis_json_path analysis_content in
     analysis <- lift (Py.as_dict data) ;;
     ret (analysis, run_logger))%io
  else
    (_ <- print ("[INFO] --no-analysis flag; skipping analysis for " +++ rel_name) ;;
     run_logger <- log_step run_logger "analysis" "skipped" ;;
     ret (empty_analysis, run_logger))%io.

Definition refactor_block (rel_name base_name code output_dir : string)
    (model : option string) (flags : Flags.t) (run_logger : RunLogger.t)
    : M RunLogger.t :=
  if Flags.refactor flags then
    (_ <- print ("[INFO] Running refactor step on: " +++ rel_name) ;;
     run_logger <- log_step run_logger "refactor" "started" ;;
     refactored_code <- run_refactor_step code model ;;
     let refactor_path := path_join output_dir (base_name +++ "_refactor.sql") in
     _ <- write_text refactor_path refactored_code ;;
     let run_logger := add_output run_logger "refactor_sql" refactor_path
                         refactored_code in
     run_logger <- log_step run_logger "refactor" "success" ;;
     _ <- print ("[INFO] Refactored code written to: " +++ refactor_path) ;;
     ret run_logger)%io
  else
    (_ <- print ("[INFO] --refactor not set; skipping refactor for " +++ rel_name) ;;
     log_step run_logger "refactor" "skipped")%io.

Definition markdown_block (rel_name base_name output_dir summary_text : string)
    (classification analysis : dict) (flags : Flags.t)
    (run_logger : RunLogger.t) : M RunLogger.t :=
  if negb (Flags.no_markdown flags) then
    (report_md <- lift (build_markdown_report rel_name summary_text
                          classification analysis) ;;
     let report_path := path_join output_dir (base_name +++ "_review.md") in
     _ <- write_text report_path report_md ;;
     let run_logger := add_output run_logger "markdown_report" report_path
                         report_md in
     _ <- print ("[INFO] Markdown report written to: " +++ report_path) ;;
     ret run_logger)%io
  else
    (_ <- print ("[INFO] --no-markdown; skipping Markdown report for " +++ rel_name) ;;
     ret run_logger)%io.

Definition process_file_real_run (path rel_name base_name code : string)
    (output_dir log_dir : string) (model : option string) (flags : Flags.t)
    : M FileResult.t :=
  (run_logger <- new_run_logger path model (sha256_hex code) flags ;;
   (* Ensure per-run output dirs exist *)
   _ <- mkdir output_dir ;;
   _ <- mkdir log_dir ;;
   _ <- print ("[INFO] Running summary step on: " +++ rel_name +++ " (model="
               +++ or_default model "DEFAULT" +++ ")") ;;
   run_logger <- log_step run_logger "summary" "started" ;;
   summary_text <- run_summary_step code model ;;
   run_logger <- log_step run_logger "summary" "success" ;;
   (* Write per-file summary JSON *)
   let summary_json_path := path_join output_dir (base_name +++ "_summary.json") in
   let summary_content := json_dumps (PDict [("summary", PStr summary_text)]) in
   _ <- write_text summary_json_path summary_content ;;
   let run_logger := add_output run_logger "summary_json" summary_json_path
                       summary_content in
   c <- classification_block rel_name base_name code output_dir model flags
          run_logger ;;
   let '(classification, run_logger) := c in
   a <- analysis_block rel_name base_name code output_dir model flags run_logger ;;
   let '(analysis, run_logger) := a in
   run_logger <- refactor_block rel_name base_name code output_dir model flags
                   run_logger ;;
   run_logger <- markdown_block rel_name base_name output_dir summary_text
                   classification analysis flags run_logger ;;
   (* Persist run log *)
   runlog_path <- run_logger_write run_logger log_dir base_name ;;
   _ <- _update_global_index log_dir runlog_path run_logger ;;
   (* Derive aggregated fields *)
   issues <- lift (_flatten_issues_from_classification classification) ;;
   risk_score <- lift (_compute_risk_score classification analysis) ;;
   checklist_items <- lift (_derive_checklist_items classification analysis) ;;
   refactor_suggestions <- lift (_derive_refactor_suggestions classification
                                   analysis) ;;
   ret (FileResult.mk path risk_score summary_text issues refactor_suggestions
          checklist_items))%io.

Definition process_file (path output_dir log_dir : string)
    (model : option string) (flags : Flags.t) (dry_run : bool)
    : M FileResult.t :=
  let rel_name := path_name path in
  let base_name := path_stem path in
  (code <- read_text path ;;
   if dry_run then process_file_dry_run path rel_name code model flags
   else process_file_real_run path rel_name base_name code output_dir log_dir
          model flags)%io.

End Orchestrator.

Section Main.

Context {L : PyLib} {O : Outside}.

(** [str(exc)] *)
Definition exc_str (e : pyexc) : string :=
  match e with
  | ValueError m | JSONDecodeError m | TypeError m | AttributeError m
  | RuntimeError m | OSError m => m
  | KeyError k => "'" +++ k +++ "'"
  end.

(** [v.upper()] *)
Definition py_upper (v : pyval) : result string :=
  match v with
  | PStr s => Ok (PyStr.upper s)
  | _ => Raise (Py.no_attribute v "upper")
  end.

Definition write_summary_json (out_dir : string) (summary : Summary.t) : M string :=
  (_ <- mkdir out_dir ;;
   let target := path_join out_dir "summary.json" in
   _ <- write_text target (json_dumps (summary_to_py summary)) ;;
   ret target)%io.

Definition red_flag_line (rf : dict) : result string :=
  (sev <- py_getitem (PDict rf) "severity" ;;
   sev <- py_upper sev ;;
   file <- py_getitem (PDict rf) "file" ;;
   message <- py_getitem (PDict rf) "message" ;;
   Ok ("- **" +++ sev +++ "** in `" +++ py_str file +++ "` ("
       +++ py_str (Py.get_default "code" (PStr "UNSPECIFIED") rf) +++ "): "
       +++ py_str message))%result.

Definition issue_line (issue : dict) : result string :=
  (sev <- py_upper (Py.get_default "severity" (PStr "") issue) ;;
   Ok ("- " +++ sev +++ " " +++ py_str (Py.get_default "code" (PStr "") issue)
       +++ ": " +++ py_str (Py.get_default "message" (PStr "") issue)))%result.

(** [lines] after the loop [for x in xs: lines.append(f x)]. *)
Fixpoint append_lines {A : Type} (f : A -> result string) (xs : list A)
    (lines : list string) : result (list string) :=
  match xs with
  | [] => Ok lines
  | x :: rest => (l <- f x ;; append_lines f rest (lines ++ [l]))%result
  end.

Definition file_highlights (fr : FileResult.t) (lines : list string)
    : result (list string) :=
  let lines := lines ++ ["### `" +++ FileResult.path fr +++ "`"; ""] in
  let lines :=
    if negb (FileResult.summary fr =? "")%string
    then lines ++ ["**Summary:** " +++ FileResult.summary fr; ""] else lines in
  (lines <-
     match FileResult.issues fr with
     | [] => Ok lines
     | issues =>
         (lines <- append_lines issue_line issues (lines ++ ["**Issues:**"]) ;;
          Ok (lines ++ [""]))
     end ;;
   Ok match FileResult.refactor_suggestions fr with
      | [] => lines
      | suggestions =>
          lines ++ ["**Refactor Suggestions:**"]
          ++ map (fun sug => "- " +++ sug) suggestions ++ [""]
      end)%result.

Fixpoint files_highlights (frs : list FileResult.t) (lines : list string)
    : result (list string) :=
  match frs with
  | [] => Ok lines
  | fr :: rest =>
      (lines <- file_highlights fr lines ;; files_highlights rest lines)%result
  end.

Definition summary_md_text (summary : Summary.t) : result string :=
  let lines :=
    [ "# AI PL/SQL Review Report";
      "";
      "- Run ID: `" +++ Summary.run_id summary +++ "`";
      "- Files scanned: **" +++ py_str (PInt (Summary.scanned_files summary)) +++ "**";
      "- Overall risk score: **"
      +++ py_str (PInt (Summary.overall_risk_score summary)) +++ "** / 100";
      "" ] in
  (lines <-
     match Summary.red_flags summary with
     | [] => Ok lines
     | red_flags =>
         (lines <- append_lines red_flag_line red_flags
                     (lines ++ ["## Red Flags (High/Critical)"; ""]) ;;
          Ok (lines ++ [""]))
     end ;;
   let lines :=
     match Summary.checklist summary with
     | [] => lines
     | checklist =>
         lines ++ ["## Review Checklist"; ""]
         ++ map (fun item => "- [ ] " +++ item) checklist ++ [""]
     end in
   lines <-
     match Summary.files summary with
     | [] => Ok lines
     | files => files_highlights files (lines ++ ["## Per-File Highlights"; ""])
     end ;;
   Ok (PyStr.join PyStr.nl lines))%result.

Definition write_summary_md (out_dir : string) (summary : Summary.t) : M string :=
  (text <- lift (summary_md_text summary) ;;
   _ <- mkdir out_dir ;;
   let target := path_join out_dir "summary.md" in
   _ <- write_text target text ;;
   ret target)%io.

(** The loop of [main] over the discovered files: a result is appended
    for a file that went through, an error is printed for one that
    raised, and the loop goes on either way. *)
Fixpoint process_files (files : list string) (output_dir log_dir : string)
    (model : option string) (flags : Flags.t) (dry_run : bool)
    (results : list FileResult.t) : M (list FileResult.t) :=
  match files with
  | [] => ret results
  | path :: rest =>
      (_ <- print ("[INFO] === Processing " +++ path +++ " ===") ;;
       outcome <- try_ (process_file path output_dir log_dir model flags dry_run) ;;
       match outcome with
       | Ok file_result =>
           process_files rest output_dir log_dir model flags dry_run
             (results ++ [file_result])
       | Raise exc =>
           _ <- print_err ("[ERROR] Failed processing " +++ path +++ ": "
                           +++ exc_str exc) ;;
           process_files rest output_dir log_dir model flags dry_run results
       end)%io
  end.

(** [aggregate_results(run_id, results)] as [main] runs it: the clock is
    read when the returned dictionary is built, after the loops. *)
Definition aggregate_results_now (run_id : string)
    (results : list FileResult.t) : M Summary.t :=
  fun w =>
    match aggregate_results run_id (utcnow_iso (trace w) +++ "Z") results with
    | Ok s => (Ok s, mkWorld (fs w) (trace w ++ [EvClock]))
    | Raise e => (Raise e, w)
    end.

(** [main()], returning the exit status.  [path_resolve] and
    [sorted_glob_files] stand for what [Path.expanduser().resolve()] and
    [discover_files] returned: [main] calls them outside any handler, so
    a run in which one of them raises (an empty or absolute pattern, a
    tilde that cannot be expanded) ends there with that exception and is
    no run of this definition. *)
Definition main (args : Args.t) : M Z :=
  let root := path_resolve (Args.path args) in
  if negb (path_exists root) then
    (_ <- print_err ("ERROR: root path does not exist: " +++ root) ;; ret 1)%io
  else
    let output_root := path_resolve (Args.output_dir args) in
    let log_root := path_resolve (Args.log_dir args) in
    (run_id <- match nonempty (Args.run_id args) with
               | Some r => ret r
               | None => now_compact
               end ;;
     (* Run-level subdirs *)
     let run_output_dir := path_join output_root run_id in
     let run_log_dir := path_join log_root run_id in
     let files := sorted_glob_files root (Args.glob args) in
     match files with
     | [] =>
         _ <- print ("[INFO] No files found under " +++ root
                     +++ " matching pattern " +++ Args.glob args) ;;
         ret 0
     | _ =>
         _ <- print ("[INFO] Discovered "
                     +++ py_str (PInt (Z.of_nat (List.length files)))
                     +++ " file(s) under " +++ root +++ " with pattern "
                     +++ Args.glob args) ;;
         let model := nonempty (Args.model args) in
         let flags := Flags.mk model (Args.no_markdown args)
                        (Args.no_classification args) (Args.no_analysis args)
                        (Args.refactor args) in
         results <- process_files files run_output_dir run_log_dir model flags
                      (Args.dry_run args) [] ;;
         summary <- aggregate_results_now run_id results ;;
         _ <- write_summary_json run_output_dir summary ;;
         _ <- write_summary_md run_output_dir summary ;;
         _ <- print ("[INFO] Run " +++ run_id +++ " complete. Outputs in: "
                     +++ run_output_dir) ;;
         ret 0
     end)%io.

End Main.

(** * Notions the properties are stated with *)

Fixpoint map_result {A B : Type} (f : A -> result B) (l : list A)
    : result (list B) :=
  match l with
  | [] => Ok []
  | x :: rest =>
      (y <- f x ;; ys <- map_result f rest ;; Ok (y :: ys))%result
  end.

(** The elements [_flatten_issues_from_classification] visits, each with
    the category it stands under, in the order of the loops: the entries
    whose value is a list, and every element of those lists. *)
Definition issue_inputs (classification : dict) : list (string * pyval) :=
  flat_map (fun kv => match snd kv with
                      | PList l => map (pair (fst kv)) l
                      | _ => []
                      end) classification.

(** The severity of an element is absent, falsy or a string. *)
Definition severity_well_typed (issue : pyval) : bool :=
  match issue with
  | PDict d =>
      let v := Py.get "severity" d in negb (Py.truthy v) || Py.is_str v
  | _ => true
  end.

(** The element has no severity field, a null or empty one, or a string
    that is none of the four severities once lowercased. *)
Definition severity_missing_or_unrecognised (issue : pyval) : bool :=
  match issue with
  | PDict d =>
      let v := Py.get "severity" d in
      negb (Py.truthy v)
      || match v with
         | PStr s => negb (PyStr.mem (PyStr.lower s) severities)
         | _ => false
         end
  | _ => true
  end.

(** What an element that is no dictionary becomes. *)
Definition string_issue {L : PyLib} (category : string) (issue : pyval) : dict :=
  [ ("message", PStr (py_str issue)); ("category", PStr category);
    ("severity", PStr "medium"); ("code", PStr (PyStr.upper category)) ].

Definition is_dict (v : pyval) : bool :=
  match v with PDict _ => true | _ => false end.

(** The test [aggregate_results] applies to an issue. *)
Definition is_red_issue (issue : dict) : bool :=
  match Py.lower (Py.or_ (Py.get "severity" issue) (PStr "")) with
  | Ok sev => PyStr.mem sev ["high"; "critical"]
  | Raise _ => false
  end.

Definition all_checklist_items (frs : list FileResult.t) : list string :=
  flat_map FileResult.checklist_items frs.

Definition all_red_flags (frs : list FileResult.t) : list dict :=
  flat_map (fun fr => map (red_flag_entry (FileResult.path fr))
                          (filter is_red_issue (FileResult.issues fr))) frs.

(** The position of the first occurrence of [x] in [l], or the length of
    [l] when there is none. *)
Fixpoint first_index (x : string) (l : list string) : nat :=
  match l with
  | [] => O
  | y :: rest => if (y =? x)%string then O else S (first_index x rest)
  end.

(** The condition the specification gives for a classification to be
    accepted: each of the seven categories is present and is a list of
    strings. *)
Definition categories_are_string_lists (data : dict) : Prop :=
  forall key, In key required_categories ->
    exists l, Py.lookup key data = Some (PList l)
              /\ Forall (fun v => Py.is_str v = true) l.

(** [msg] carries the text [x]. *)
Definition occurs_in (x msg : string) : Prop :=
  exists pre post, msg = pre +++ x +++ post.

(** What a history says about the stage executor. *)
Definition parse_attempts (tr : list event) : nat :=
  List.length (filter (fun e => match e with EvParse _ => true | _ => false end) tr).

Definition llm_requests (tr : list event) : list (string * string * string) :=
  flat_map (fun e => match e with
                     | EvLLM m s u => [(m, s, u)]
                     | _ => []
                     end) tr.

Definition model_name {O : Outside} (model : option string) : string :=
  or_default model DEFAULT_MODEL.

(** ** A small instance, for the examples *)

Module Demo.

Definition classification_reply : dict :=
  [ ("performance", PList [PStr "full scan in loop"]);
    ("error_handling", PList []);
    ("logic_correctness", PList []);
    ("maintainability", PList []);
    ("security", PList []);
    ("data_integrity", PList []);
    ("uncertainty", PList [PStr "unclear commit boundary"]) ].

Definition analysis_reply : dict :=
  [ ("summary", PStr "Updates one table.");
    ("risks", PList [PStr "check nulls"]);
    ("assumptions", PList []) ].

(** A decoder that knows two documents. *)
Definition loads (text : string) : result pyval :=
  if (text =? "CLS")%string then Ok (PDict classification_reply)
  else if (text =? "ANA")%string then Ok (PDict analysis_reply)
  else Raise (JSONDecodeError "Expecting value: line 1 column 1 (char 0)").

Definition lib : PyLib := {|
  py_repr := fun v => "<" +++ Py.type_name v +++ ">";
  json_loads := loads;
  json_dumps := fun v => "<json " +++ Py.type_name v +++ ">";
  sha256_hex := fun text => "sha256:" +++ text;
  build_summary_prompt := fun code => ("summarize", code);
  build_classification_prompt := fun code => ("classify", code);
  build_analysis_prompt := fun code => ("analyze", code);
  build_refactor_prompt := fun code => ("refactor", code);
  path_name := fun p => p;
  path_stem := fun p => p;
  path_resolve := fun p => "/" +++ p
|}.

(** A service that answers the classification of a file containing
    [bad] with text that is no JSON, and a correction request with
    more of the same. *)
Definition reply (tr : list event) (model system_prompt user_prompt : string)
    : result string :=
  if (system_prompt =? "summarize")%string then Ok "Updates one table."
  else if (system_prompt =? "classify")%string then
    if PyStr.contains "bad" user_prompt then Ok "{oops" else Ok "CLS"
  else if (system_prompt =? "analyze")%string then Ok "ANA"
  else Ok "{oops again".

Definition outside : Outside := {|
  llm_reply := reply;
  utcnow_iso := fun _ => "2025-01-01T00:00:00";
  utcnow_compact := fun _ => "20250101T000000";
  path_exists := fun _ => true;
  sorted_glob_files := fun root pattern => ["bad.sql"; "good.sql"];
  DEFAULT_MODEL := "gpt-4.1-mini"
|}.

Definition w0 : world :=
  mkWorld [ ("bad.sql", "bad select"); ("good.sql", "select 1 from dual") ] [].

Definition args (dry_run : bool) : Args.t :=
  Args.mk "sql" "**/*.sql" "var/output" "var/logs" None false false false false
    dry_run (Some "r1").

Definition flags : Flags.t := Flags.mk None false false false false.

Definition file_30 : FileResult.t := FileResult.mk "a.sql" 30 "" [] [] [].
Definition file_10 : FileResult.t := FileResult.mk "b.sql" 10 "" [] [] [].

Definition nulls_file (path : string) : FileResult.t :=
  FileResult.mk path 5 "" [] [] ["Review: check nulls"].

Definition high_issue : dict :=
  [ ("message", PStr "dynamic SQL from user input"); ("category", PStr "security");
    ("severity", PStr "high"); ("code", PStr "SECURITY") ].

Definition low_issue : dict :=
  [ ("message", PStr "long procedure"); ("category", PStr "maintainability");
    ("severity", PStr "low"); ("code", PStr "MAINTAINABILITY") ].

Definition flagged_file : FileResult.t :=
  FileResult.mk "pkg.sql" 25 "" [high_issue; low_issue] [] [].

End Demo.

(** The classification of the example in the specification, and one whose
    single issue states its severity. *)
Definition critical_key_classification : dict :=
  [ ("critical", PList [PStr "X"]) ].

Definition critical_issue_classification : dict :=
  [ ("security", PList [PDict [("severity", PStr "critical"); ("message", PStr "X")]]) ].

(** All seven categories as lists of strings, and one more key holding a
    number. *)
Definition extra_key_classification : dict :=
  empty_classification ++ [("notes", PList [PInt 1])].

(** An issue whose severity is a number. *)
Definition numeric_severity_classification : dict :=
  [ ("security", PList [PDict [("severity", PInt 5); ("message", PStr "X")]]) ].

(** The claim of the specification's example, as it is written: the
    mapping with the single key [critical] scores 30, and two files
    scoring 30 and 10 average to 20. *)
Definition critical_key_scores_30 (L : PyLib) : Prop :=
  _compute_risk_score critical_key_classification empty_analysis = Ok 30
  /\ (forall run_id now s,
        aggregate_results run_id now [Demo.file_30; Demo.file_10] = Ok s ->
        Summary.overall_risk_score s = 20).

(** The claim that the flattening never raises, as it is written. *)
Definition flatten_never_raises (L : PyLib) : Prop :=
  forall classification : dict,
    is_ok (_flatten_issues_from_classification classification) = true.

(** Iterating the value yields strings only: a list of strings, a string,
    or a dictionary. *)
Definition iterable_of_strings (v : pyval) : Prop :=
  exists elements, py_iter v = Ok elements
                   /\ Forall (fun e => Py.is_str e = true) elements.

(** The acceptance condition of the specification, as an equivalence. *)
Definition accepts_iff_categories_are_string_lists (L : PyLib) (data : dict) : Prop :=
  validate_classification (PDict data) "" = Ok tt
  <-> categories_are_string_lists data.

(** The correction request for a malformed reply: it is made of the
    reply and the template. *)
Definition correction_request {O : Outside} (model : option string)
    (raw template : string) : string * string * string :=
  (model_name model,
   fst (build_json_correction_prompt raw template),
   snd (build_json_correction_prompt raw template)).

(** The request a stage opens with. *)
Definition stage_request {O : Outside} (model : option string)
    (build : string -> string * string) (code : string)
    : string * string * string :=
  (model_name model, fst (build code), snd (build code)).

(** The correction requests a stage sends after its own request: none
    when the service raised or the reply parsed or the parser raised
    anything but a decode error, and else the one request made of the
    stripped reply and the template. *)
Definition correction_requests {L : PyLib} {O : Outside} (model : option string)
    (template : string) (first_reply : result string)
    : list (string * string * string) :=
  match first_reply with
  | Ok reply =>
      let raw := PyStr.strip (PyStr.strip reply) in
      match json_loads raw with
      | Raise (JSONDecodeError _) => [correction_request model raw template]
      | _ => []
      end
  | Raise _ => []
  end.

(** What one invocation of a structured stage adds to the history: at
    most two parse attempts, and the stage's request followed by the
    correction requests its first reply calls for. *)
Definition one_correction_at_most {L : PyLib} {O : Outside}
    (step : string -> option string -> M pyval)
    (build : string -> string * string) (template : string)
    (code : string) (model : option string) (w : world) : Prop :=
  exists suffix,
    trace (snd (step code model w)) = trace w ++ suffix
    /\ (parse_attempts suffix <= 2)%nat
    /\ (List.length (llm_requests suffix) <= 2)%nat
    /\ llm_requests suffix
       = stage_request model build code
         :: correction_requests model template
              (llm_reply (trace w) (model_name model) (fst (build code))
                 (snd (build code))).

(** A computation that returns from every world. *)
Definition succeeds {A : Type} (c : M A) : Prop :=
  forall w, exists a w', c w = (Ok a, w').

(** The line [main] prints before it processes a file, and the one it
    prints when the file failed. *)
Definition processing_line (path : string) : string :=
  "[INFO] === Processing " +++ path +++ " ===".

Definition failed_line (path : string) (e : pyexc) : string :=
  "[ERROR] Failed processing " +++ path +++ ": " +++ exc_str e.

Create HintDb io discriminated.

(** ** Proof steps for the effectful code *)

Ltac io_norm :=
  cbv beta iota zeta delta
    [bind try_ ret raise lift print print_err emit mkdir parse_json call_llm
     _correct_json];
  cbn [fst snd trace fs].

Ltac case_llm :=
  match goal with
  | |- context [llm_reply ?t ?m ?s ?u] =>
      let E := fresh "Ereply" in
      destruct (llm_reply t m s u) eqn:E; io_norm
  end.

Ltac case_loads :=
  match goal with
  | |- context [json_loads ?t] =>
      let E := fresh "Eloads" in
      destruct (json_loads t) as [? | []] eqn:E; io_norm
  end.

Ltac case_correction :=
  match goal with
  | |- context [build_json_correction_prompt ?r ?t] =>
      let E := fresh "Ecorr" in
      destruct (build_json_correction_prompt r t) eqn:E; io_norm
  end.

Ltac history_done :=
  eexists; split; [rewrite <- ?app_assoc; reflexivity |];
  unfold parse_attempts, llm_requests;
  cbn [filter flat_map List.length app fst snd];
  repeat split; solve [lia | reflexivity].

(** Printing and reading the input: the events a dry run may add for a
    file. *)
Definition is_print_or_read (e : event) : bool :=
  match e with
  | EvPrint _ | EvPrintErr _ | EvRead _ => true
  | _ => false
  end.

(** [c] leaves the files as they are and adds only events that [P]
    allows. *)
Definition quietly {A : Type} (P : event -> bool) (c : M A) : Prop :=
  forall w,
    fs (snd (c w)) = fs w
    /\ exists suffix, trace (snd (c w)) = trace w ++ suffix
                      /\ forallb P suffix = true.

Definition returns {A : Type} (c : M A) (a : A) : Prop :=
  forall w, exists w', c w = (Ok a, w').

Definition no_issues (fr : FileResult.t) : Prop := FileResult.issues fr = [].

(** The paths a history wrote to. *)
Definition written_paths (tr : list event) : list string :=
  flat_map (fun e => match e with
                     | EvWrite path _ => [path]
                     | _ => []
                     end) tr.

(** ** Notions for the further properties *)

(** The two structured stages, with what tells them apart. *)
Inductive structured_stage : Type := Classification | Analysis.

Definition stage_step {L : PyLib} {O : Outside} (s : structured_stage)
    : string -> option string -> M pyval :=
  match s with
  | Classification => run_classification_step
  | Analysis => run_analysis_step
  end.

Definition stage_build {L : PyLib} (s : structured_stage)
    : string -> string * string :=
  match s with
  | Classification => build_classification_prompt
  | Analysis => build_analysis_prompt
  end.

Definition stage_template (s : structured_stage) : string :=
  match s with
  | Classification => CLASSIFICATION_JSON_TEMPLATE
  | Analysis => ANALYSIS_JSON_TEMPLATE
  end.

Definition stage_validate {L : PyLib} (s : structured_stage)
    : pyval -> string -> result unit :=
  match s with
  | Classification => validate_classification
  | Analysis => validate_analysis
  end.

Definition stage_name (s : structured_stage) : string :=
  match s with
  | Classification => "Classification"
  | Analysis => "Analysis"
  end.

(** The parsed value when the validator accepts it, and else what the
    validator raises. *)
Definition verdict (validate : pyval -> string -> result unit)
    (data : pyval) (code : string) : result pyval :=
  match validate data code with
  | Ok _ => Ok data
  | Raise e => Raise e
  end.

(** The world after [c] added the events [suffix] and changed no file. *)
Definition after (w : world) (suffix : list event) : world :=
  mkWorld (fs w) (trace w ++ suffix).

(** The outcome of a free-text stage on a reply of the service. *)
Definition free_text_outcome (empty_message : string) (reply : result string)
    : result string :=
  match reply with
  | Ok text =>
      if (PyStr.strip text =? "")%string
      then Raise (ValueError empty_message)
      else Ok (PyStr.strip text)
  | Raise e => Raise e
  end.

(** Whatever [c] returns satisfies [Q]. *)
Definition ensures {A : Type} (c : M A) (Q : A -> Prop) : Prop :=
  forall w a w', c w = (Ok a, w') -> Q a.

(** The line a structured stage prints before its correction pass. *)
Definition warn_line (s : structured_stage) (exc : string) : string :=
  "[WARN] " +++ stage_name s +++ " JSON malformed, attempting correction: " +++ exc.

(** *** A stage that fails twice, and the file it belongs to *)

(** The stage is run: its flag does not switch it off. *)
Definition stage_enabled (s : structured_stage) (flags : Flags.t) : bool :=
  match s with
  | Classification => negb (Flags.no_classification flags)
  | Analysis => negb (Flags.no_analysis flags)
  end.

(** The name of the stage in the lines [process_file] prints and in the
    run log. *)
Definition stage_key (s : structured_stage) : string :=
  match s with
  | Classification => "classification"
  | Analysis => "analysis"
  end.

(** The block of [process_file] that runs the stage. *)
Definition stage_block {L : PyLib} {O : Outside} (s : structured_stage)
    : string -> string -> string -> string -> option string -> Flags.t ->
      RunLogger.t -> M (dict * RunLogger.t) :=
  match s with
  | Classification => classification_block
  | Analysis => analysis_block
  end.

(** At the world [w] the service answers the request of the stage with
    [reply] and then, the stage having parsed it in vain and printed its
    warning, the correction request with [fixed_reply]; neither text
    parses, the decode errors being [exc] and [exc2].  Each reply is the
    one the service gives at the history the stage has made by then. *)
Definition decode_fails_twice {L : PyLib} {O : Outside} (stage : string)
    (build : string -> string * string) (template : string)
    (code : string) (model : option string) (w : world)
    (reply fixed_reply exc exc2 : string) : Prop :=
  let raw := PyStr.strip (PyStr.strip reply) in
  let fixed_raw := PyStr.strip (PyStr.strip fixed_reply) in
  let request := EvLLM (model_name model) (fst (build code)) (snd (build code)) in
  let warning :=
    EvPrint ("[WARN] " +++ stage +++ " JSON malformed, attempting correction: "
             +++ exc) in
  llm_reply (trace w) (model_name model) (fst (build code)) (snd (build code))
  = Ok reply
  /\ json_loads raw = Raise (JSONDecodeError exc)
  /\ llm_reply (trace w ++ [request; EvParse raw; warning]) (model_name model)
       (fst (build_json_correction_prompt raw template))
       (snd (build_json_correction_prompt raw template)) = Ok fixed_reply
  /\ json_loads fixed_raw = Raise (JSONDecodeError exc2).

(** The events such an invocation adds: the request, the parse, the
    warning, the correction request and the second parse. *)
Definition double_failure_events {L : PyLib} {O : Outside} (stage : string)
    (build : string -> string * string) (template : string)
    (code : string) (model : option string)
    (reply fixed_reply exc : string) : list event :=
  let raw := PyStr.strip (PyStr.strip reply) in
  let fixed_raw := PyStr.strip (PyStr.strip fixed_reply) in
  [ EvLLM (model_name model) (fst (build code)) (snd (build code));
    EvParse raw;
    EvPrint ("[WARN] " +++ stage +++ " JSON malformed, attempting correction: "
             +++ exc);
    EvLLM (model_name model) (fst (build_json_correction_prompt raw template))
      (snd (build_json_correction_prompt raw template));
    EvParse fixed_raw ].

(** Two decode errors in a row make a structured stage raise, whatever
    the stage and wherever it is invoked: the error carries both decode
    errors and both texts, and nothing follows the second parse. *)
Definition stage_fails_after_two_decode_errors {L : PyLib} {O : Outside} : Prop :=
  forall (stage : string) (build : string -> string * string) (template : string)
         (validate : pyval -> string -> result unit)
         (code : string) (model : option string) (w : world)
         (reply fixed_reply exc exc2 : string),
    let raw := PyStr.strip (PyStr.strip reply) in
    let fixed_raw := PyStr.strip (PyStr.strip fixed_reply) in
    let msg := still_invalid stage exc exc2 raw fixed_raw in
    decode_fails_twice stage build template code model w reply fixed_reply
      exc exc2 ->
    run_structured_step stage build template validate code model w
    = (Raise (ValueError msg),
       after w (double_failure_events stage build template code model reply
                  fixed_reply exc))
    /\ occurs_in exc msg /\ occurs_in exc2 msg
    /\ occurs_in raw msg /\ occurs_in fixed_raw msg.

(** The part of a real run of [process_file] that comes before the
    classification: the run log is opened, the directories are made, the
    summary is asked for, written and recorded. *)
Definition summary_block {L : PyLib} {O : Outside}
    (path rel_name base_name code output_dir log_dir : string)
    (model : option string) (flags : Flags.t) : M (string * RunLogger.t) :=
  (run_logger <- new_run_logger path model (sha256_hex code) flags ;;
   _ <- mkdir output_dir ;;
   _ <- mkdir log_dir ;;
   _ <- print ("[INFO] Running summary step on: " +++ rel_name +++ " (model="
               +++ or_default model "DEFAULT" +++ ")") ;;
   run_logger <- log_step run_logger "summary" "started" ;;
   summary_text <- run_summary_step code model ;;
   run_logger <- log_step run_logger "summary" "success" ;;
   let summary_json_path := path_join output_dir (base_name +++ "_summary.json") in
   let summary_content := json_dumps (PDict [("summary", PStr summary_text)]) in
   _ <- write_text summary_json_path summary_content ;;
   ret (summary_text,
        add_output run_logger "summary_json" summary_json_path summary_content))%io.

(** The run of [process_file] on the file [path], from the world [w],
    gets to the call of the stage [s], which it makes at the world [w1]:
    the file is read, the summary block returns, for the analysis the
    classification block returns too, the stage is not switched off, and
    its block has printed its line and logged its start. *)
Definition reaches_stage {L : PyLib} {O : Outside} (s : structured_stage)
    (path code output_dir log_dir : string) (model : option string)
    (flags : Flags.t) (w w1 : world) : Prop :=
  fs_lookup path (fs w) = Some code
  /\ stage_enabled s flags = true
  /\ exists summary_text rl w0 rl' w0',
       summary_block path (path_name path) (path_stem path) code output_dir
         log_dir model flags (after w [EvRead path])
       = (Ok (summary_text, rl), w0)
       /\ match s with
          | Classification => rl' = rl /\ w0' = w0
          | Analysis =>
              exists classification,
                classification_block (path_name path) (path_stem path) code
                  output_dir model flags rl w0
                = (Ok (classification, rl'), w0')
          end
       /\ w1 = after w0' [ EvPrint ("[INFO] Running " +++ stage_key s
                                    +++ " step on: " +++ path_name path);
                           EvClock ].

(** What happens to a file one of whose structured stages fails twice,
    at the world [w1] where [process_file] calls it: the stage raises
    the error that carries both decode errors and both texts,
    [process_file] raises that error and does nothing after it, the loop
    of [main] prints it and goes on with the other files from the results
    it had, and the aggregate counts the results only. *)
Definition skipped_after_double_failure {L : PyLib} {O : Outside}
    (s : structured_stage) (path code : string) (rest : list string)
    (output_dir log_dir : string)
    (model : option string) (flags : Flags.t) (results : list FileResult.t)
    (reply fixed_reply exc exc2 : string) (w w1 : world) : Prop :=
  let raw := PyStr.strip (PyStr.strip reply) in
  let fixed_raw := PyStr.strip (PyStr.strip fixed_reply) in
  let msg := still_invalid (stage_name s) exc exc2 raw fixed_raw in
  let failed :=
    after w1 (double_failure_events (stage_name s) (stage_build s)
                (stage_template s) code model reply fixed_reply exc) in
  stage_step s code model w1 = (Raise (ValueError msg), failed)
  /\ process_file path output_dir log_dir model flags false
       (snd (print (processing_line path) w)) = (Raise (ValueError msg), failed)
  /\ process_files (path :: rest) output_dir log_dir model flags false results w
     = process_files rest output_dir log_dir model flags false results
         (snd (print_err (failed_line path (ValueError msg)) failed))
  /\ (forall run_id now rs summary,
        aggregate_results run_id now rs = Ok summary ->
        Summary.scanned_files summary = Z.of_nat (List.length rs)
        /\ Summary.files summary = rs).

(** ** Further instances, for the examples *)

Module DemoMore.

(** A service whose first classification reply is malformed and whose
    reply to the correction request is well formed. *)
Definition repairing_reply (tr : list event)
    (model system_prompt user_prompt : string) : result string :=
  if (system_prompt =? "summarize")%string then Ok "  Updates one table.  "
  else if (system_prompt =? "classify")%string then Ok "{oops"
  else if (system_prompt =? "analyze")%string then Ok "ANA"
  else if (system_prompt =? "refactor")%string then Ok "   "
  else Ok "CLS".

Definition repairing : Outside := {|
  llm_reply := repairing_reply;
  utcnow_iso := fun _ => "2025-01-01T00:00:00";
  utcnow_compact := fun _ => "20250101T000000";
  path_exists := fun _ => true;
  sorted_glob_files := fun root pattern => [];
  DEFAULT_MODEL := "gpt-4.1-mini"
|}.

(** A service whose analysis reply is malformed, and whose reply to the
    correction request is malformed too. *)
Definition bad_analysis_reply (tr : list event)
    (model system_prompt user_prompt : string) : result string :=
  if (system_prompt =? "summarize")%string then Ok "Updates one table."
  else if (system_prompt =? "classify")%string then Ok "CLS"
  else if (system_prompt =? "analyze")%string then Ok "{oops"
  else Ok "{oops again".

Definition bad_analysis : Outside := {|
  llm_reply := bad_analysis_reply;
  utcnow_iso := fun _ => "2025-01-01T00:00:00";
  utcnow_compact := fun _ => "20250101T000000";
  path_exists := fun _ => true;
  sorted_glob_files := fun root pattern => ["good.sql"];
  DEFAULT_MODEL := "gpt-4.1-mini"
|}.

(** The world at which the run of [process_file] on the first file of
    [Demo.w0] calls the classification, and the one at which its run on
    the second file calls the analysis of the service above. *)
Definition at_classification : world :=
  after (snd (summary_block (L := Demo.lib) (O := Demo.outside) "bad.sql"
                "bad.sql" "bad.sql" "bad select" "/var/output/r1" "/var/logs/r1"
                None Demo.flags
                (after (snd (print (processing_line "bad.sql") Demo.w0))
                   [EvRead "bad.sql"])))
    [EvPrint "[INFO] Running classification step on: bad.sql"; EvClock].

Definition at_analysis : world :=
  let summarised :=
    summary_block (L := Demo.lib) (O := bad_analysis) "good.sql" "good.sql"
      "good.sql" "select 1 from dual" "/var/output/r1" "/var/logs/r1" None
      Demo.flags
      (after (snd (print (processing_line "good.sql") Demo.w0))
         [EvRead "good.sql"]) in
  let rl :=
    match fst summarised with
    | Ok p => snd p
    | Raise _ => RunLogger.mk "" None "" Demo.flags "" [] []
    end in
  after (snd (classification_block (L := Demo.lib) (O := bad_analysis)
                "good.sql" "good.sql" "select 1 from dual" "/var/output/r1"
                None Demo.flags rl (snd summarised)))
    [EvPrint "[INFO] Running analysis step on: good.sql"; EvClock].

(** A root that does not exist. *)
Definition missing_root : Outside := {|
  llm_reply := Demo.reply;
  utcnow_iso := fun _ => "2025-01-01T00:00:00";
  utcnow_compact := fun _ => "20250101T000000";
  path_exists := fun _ => false;
  sorted_glob_files := fun root pattern => [];
  DEFAULT_MODEL := "gpt-4.1-mini"
|}.

End DemoMore.

(** The number of risks [_compute_risk_score] counts in an analysis. *)
Definition risk_count (analysis : dict) : Z :=
  match Py.or_ (Py.get "risks" analysis) (PList []) with
  | PList l => Z.of_nat (List.length l)
  | _ => 0
  end.

(** [entry] is [label] followed by a text that is stripped and not
    empty. *)
Definition labelled (label entry : string) : Prop :=
  exists text, text <> "" /\ PyStr.strip text = text /\ entry = label +++ text.

(** A text that is stripped and not empty. *)
Definition stripped_text (text : string) : Prop :=
  text <> "" /\ PyStr.strip text = text.

(** The keys [_derive_refactor_suggestions] reads from the analysis. *)
Definition suggestion_key_names : list string :=
  ["suggestions"; "refactor_suggestions"; "improvements"].

(** The entries the index file of a log directory holds: those of the
    list it parses to, and none when the file is missing, does not parse
    or holds anything but a list. *)
Definition index_entries {L : PyLib} (log_dir : string) (w : world) : list pyval :=
  match fs_lookup (path_join log_dir "index.json") (fs w) with
  | Some text =>
      match json_loads text with
      | Ok (PList l) => l
      | _ => []
      end
  | None => []
  end.

(** The entry [_update_global_index] adds for a run. *)
Definition index_entry (runlog_path : string) (run_logger : RunLogger.t) : pyval :=
  PDict (Py.set "runlog_path" (PStr runlog_path) (to_dict run_logger)).

(** The clock reads [main] makes for the run id: one when none is given. *)
Definition run_id_clock (args : Args.t) : list event :=
  match nonempty (Args.run_id args) with
  | Some _ => []
  | None => [EvClock]
  end.

(** What holds of the result of a file that went through: it names the
    file, its score is within bounds, its issues all have the severity
    medium, and its checklist items and its suggestions are without
    duplicates. *)
Definition file_result_ok (fr : FileResult.t) : Prop :=
  0 <= FileResult.risk_score fr <= 100
  /\ Forall (fun d => Py.lookup "severity" d = Some (PStr "medium"))
       (FileResult.issues fr)
  /\ NoDup (FileResult.checklist_items fr)
  /\ NoDup (FileResult.refactor_suggestions fr).


(** The events that are no write to a file. *)
Definition is_no_write (e : event) : bool :=
  match e with
  | EvWrite _ _ => false
  | _ => true
  end.

(** [a] is the beginning of [b]. *)
Definition prefix_of (a b : list string) : Prop := exists rest, b = a ++ rest.

(** [c] writes the files [pre] and then [post], in this order, when it
    returns, and stops within [pre] when it raises. *)
Definition writes_paths {A : Type} (c : M A) (pre post : list string) : Prop :=
  forall w,
    exists suffix,
      trace (snd (c w)) = trace w ++ suffix
      /\ match fst (c w) with
         | Ok _ => written_paths suffix = pre ++ post
         | Raise _ => prefix_of (written_paths suffix) pre
         end.

(** [c] returns from every world and writes the files [paths]. *)
Definition always_writes {A : Type} (c : M A) (paths : list string) : Prop :=
  forall w,
    exists a suffix,
      fst (c w) = Ok a
      /\ trace (snd (c w)) = trace w ++ suffix
      /\ written_paths suffix = paths.

(** The artifacts a real run writes for a file, each with the kind its
    run log gives it, in the order they are written; and the two files of
    the log directory that follow. *)
Definition artifacts (output_dir base_name : string) (flags : Flags.t)
    : list (string * string) :=
  [("summary_json", path_join output_dir (base_name +++ "_summary.json"))]
  ++ (if Flags.no_classification flags then []
      else [("classification_json",
             path_join output_dir (base_name +++ "_classification.json"))])
  ++ (if Flags.no_analysis flags then []
      else [("analysis_json",
             path_join output_dir (base_name +++ "_analysis.json"))])
  ++ (if Flags.refactor flags
      then [("refactor_sql", path_join output_dir (base_name +++ "_refactor.sql"))]
      else [])
  ++ (if Flags.no_markdown flags then []
      else [("markdown_report",
             path_join output_dir (base_name +++ "_review.md"))]).

Definition artifact_kinds (output_dir base_name : string) (flags : Flags.t)
    : list string :=
  map fst (artifacts output_dir base_name flags).

Definition artifact_paths (output_dir base_name : string) (flags : Flags.t)
    : list string :=
  map snd (artifacts output_dir base_name flags).

Definition log_paths (log_dir base_name : string) : list string :=
  [path_join log_dir (base_name +++ "_runlog.json");
   path_join log_dir "index.json"].

Create HintDb quiet.

(** The files a history wrote, with what was written. *)
Definition written_files (tr : list event) : list (string * string) :=
  flat_map (fun e => match e with
                     | EvWrite path content => [(path, content)]
                     | _ => []
                     end) tr.

(** When [c] returns [a], the files it wrote stand in the relation [R]
    to [a]. *)
Definition tracks {A : Type} (c : M A) (R : A -> list (string * string) -> Prop)
    : Prop :=
  forall w a w',
    c w = (Ok a, w') ->
    exists suffix, trace w' = trace w ++ suffix /\ R a (written_files suffix).

(** The entry [add_output] records for a file of a kind. *)
Definition output_entry {L : PyLib} (kf : string * (string * string)) : pyval :=
  PDict [ ("kind", PStr (fst kf));
          ("path", PStr (fst (snd kf)));
          ("sha256", PStr (sha256_hex (snd (snd kf)))) ].

(** The name and the status of a step of a run log. *)
Definition step_tag (event : pyval) : string * string :=
  match event with
  | PDict d =>
      (match Py.lookup "name" d with Some (PStr n) => n | _ => "" end,
       match Py.lookup "status" d with Some (PStr s) => s | _ => "" end)
  | _ => ("", "")
  end.

Definition same_header (rl rl' : RunLogger.t) : Prop :=
  RunLogger.input_file rl' = RunLogger.input_file rl
  /\ RunLogger.model rl' = RunLogger.model rl
  /\ RunLogger.input_sha256 rl' = RunLogger.input_sha256 rl
  /\ RunLogger.flags rl' = RunLogger.flags rl
  /\ RunLogger.started_at rl' = RunLogger.started_at rl.

(** From [rl] to [rl'] the log gained the outputs of the files [files],
    under the kinds [kinds], and the steps [tags]. *)
Definition block_log {L : PyLib} (rl : RunLogger.t) (kinds : list string)
    (tags : list (string * string)) (files : list (string * string))
    (rl' : RunLogger.t) : Prop :=
  same_header rl rl'
  /\ List.length files = List.length kinds
  /\ RunLogger.outputs rl'
     = RunLogger.outputs rl ++ map output_entry (combine kinds files)
  /\ map step_tag (RunLogger.steps rl')
     = map step_tag (RunLogger.steps rl) ++ tags.

(** The steps of the run log of a file that went through. *)
Definition stage_steps (name : string) (ran : bool) : list (string * string) :=
  if ran then [(name, "started"); (name, "success")] else [(name, "skipped")].

Definition expected_steps (flags : Flags.t) : list (string * string) :=
  stage_steps "summary" true
  ++ stage_steps "classification" (negb (Flags.no_classification flags))
  ++ stage_steps "analysis" (negb (Flags.no_analysis flags))
  ++ stage_steps "refactor" (Flags.refactor flags).

(** The list [_derive_checklist_items] loops over for a key: the value
    under the key when that is a list, and nothing when the key is
    absent or its value is falsy or no list. *)
Definition bucket_items (d : dict) (name : string) : list pyval :=
  match Py.or_ (Py.get name d) (PList []) with
  | PList l => l
  | _ => []
  end.

(** The entries the items of a list stand for, in their order: the label
    followed by the text of the item, for the items whose text is not
    empty. *)
Definition entry_candidates (text_of : pyval -> result string) (label : string)
    (items : list pyval) : list string :=
  flat_map (fun item => match text_of item with
                        | Ok text =>
                            if (text =? "")%string then [] else [label +++ text]
                        | Raise _ => []
                        end) items.

(** The entries a classification and an analysis stand for: those of the
    risks, of the assumptions and of the uncertainty. *)
Definition checklist_candidates {L : PyLib} (classification analysis : dict)
    : list string :=
  entry_candidates risk_item_text "Review: " (bucket_items analysis "risks")
  ++ entry_candidates risk_item_text "Review: "
       (bucket_items analysis "assumptions")
  ++ entry_candidates uncertainty_item_text "Clarify: "
       (bucket_items classification "uncertainty").

(** What happens to each file in the loop of [main], in the order of the
    files: the outcome of [process_file] at the world the loop has
    reached, the line that announces the file being printed; the loop
    goes on from the world [process_file] left, after the error line when
    the file failed. *)
Fixpoint file_outcomes {L : PyLib} {O : Outside} (files : list string)
    (output_dir log_dir : string) (model : option string) (flags : Flags.t)
    (dry_run : bool) (w : world) : list (string * result FileResult.t) :=
  match files with
  | [] => []
  | path :: rest =>
      let out := process_file path output_dir log_dir model flags dry_run
                   (snd (print (processing_line path) w)) in
      (path, fst out)
      :: file_outcomes rest output_dir log_dir model flags dry_run
           match fst out with
           | Ok _ => snd out
           | Raise e => snd (print_err (failed_line path e) (snd out))
           end
  end.

(** The results of the files that went through, in the order of the
    files. *)
Definition went_through (outcomes : list (string * result FileResult.t))
    : list FileResult.t :=
  flat_map (fun po => match snd po with
                      | Ok fr => [fr]
                      | Raise _ => []
                      end) outcomes.


(** * Properties *)

(** ** Dictionaries and the result monad *)

Lemma mem_In (x : string) (xs : list string) :
  PyStr.mem x xs = true <-> In x xs.
Proof.
  unfold PyStr.mem. rewrite existsb_exists. split.
  - intros [y [Hy Heq]]. apply String.eqb_eq in Heq. now subst.
  - intros H. exists x. split; [assumption | apply String.eqb_refl].
Qed.

Lemma mem_not_In (x : string) (xs : list string) :
  PyStr.mem x xs = false <-> ~ In x xs.
Proof.
  rewrite <- mem_In. destruct (PyStr.mem x xs); split; congruence.
Qed.

Lemma lookup_In (k : string) (d : dict) (v : pyval) :
  Py.lookup k d = Some v -> In (k, v) d.
Proof.
  induction d as [| [k' v'] t IH]; simpl; [discriminate |].
  destruct (String.eqb_spec k' k) as [-> | _].
  - intros [= ->]. now left.
  - intros H. right. auto.
Qed.

Lemma lookup_app (k : string) (d1 d2 : dict) :
  Py.lookup k (d1 ++ d2)
  = match Py.lookup k d1 with Some v => Some v | None => Py.lookup k d2 end.
Proof.
  induction d1 as [| [k' v'] t IH]; simpl; [reflexivity |].
  destruct (k' =? k)%string; auto.
Qed.

Lemma lookup_set_same (k : string) (v : pyval) (d : dict) :
  Py.lookup k (Py.set k v d) = Some v.
Proof.
  induction d as [| [k' v'] t IH]; simpl.
  - now rewrite String.eqb_refl.
  - destruct (k' =? k)%string eqn:E; simpl; rewrite E; auto.
Qed.

Lemma lookup_set_other (k k' : string) (v : pyval) (d : dict) :
  k <> k' -> Py.lookup k' (Py.set k v d) = Py.lookup k' d.
Proof.
  intros Hne. induction d as [| [k0 v0] t IH]; simpl.
  - destruct (String.eqb_spec k k'); congruence.
  - destruct (String.eqb_spec k0 k) as [-> | Hk0]; simpl.
    + destruct (String.eqb_spec k k'); congruence.
    + destruct (k0 =? k')%string; auto.
Qed.

Lemma lookup_setdefault_other (k k' : string) (v : pyval) (d : dict) :
  k <> k' -> Py.lookup k' (Py.setdefault k v d) = Py.lookup k' d.
Proof.
  intros Hne. unfold Py.setdefault.
  destruct (Py.lookup k d); [reflexivity |].
  rewrite lookup_app. destruct (Py.lookup k' d); [reflexivity |].
  simpl. destruct (String.eqb_spec k k'); congruence.
Qed.

Lemma is_ok_true {A : Type} (r : result A) :
  is_ok r = true <-> exists a, r = Ok a.
Proof.
  destruct r; simpl; split; intros H; try discriminate; eauto.
  destruct H as [a H]; discriminate.
Qed.

Lemma map_result_app {A B : Type} (f : A -> result B) (l1 l2 : list A) :
  map_result f (l1 ++ l2)
  = (a <- map_result f l1 ;; b <- map_result f l2 ;; Ok (a ++ b))%result.
Proof.
  induction l1 as [| x t IH]; simpl.
  - destruct (map_result f l2); reflexivity.
  - destruct (f x); simpl; [| reflexivity].
    rewrite IH. destruct (map_result f t); simpl; [| reflexivity].
    destruct (map_result f l2); reflexivity.
Qed.

Lemma map_result_map {A B C : Type} (g : A -> B) (f : B -> result C) (l : list A) :
  map_result f (map g l) = map_result (fun x => f (g x)) l.
Proof.
  induction l as [| x t IH]; simpl; [reflexivity |]. now rewrite IH.
Qed.

Lemma map_result_is_ok {A B : Type} (f : A -> result B) (l : list A) :
  is_ok (map_result f l) = forallb (fun x => is_ok (f x)) l.
Proof.
  induction l as [| x t IH]; simpl; [reflexivity |].
  destruct (f x); simpl; [| reflexivity].
  rewrite <- IH. destruct (map_result f t); reflexivity.
Qed.

Lemma map_result_length {A B : Type} (f : A -> result B) (l : list A) (ys : list B) :
  map_result f l = Ok ys -> List.length ys = List.length l.
Proof.
  revert ys. induction l as [| x t IH]; simpl; intros ys H.
  - now inversion H.
  - destruct (f x); simpl in H; [| discriminate].
    destruct (map_result f t); simpl in H; [| discriminate].
    inversion H. simpl. f_equal. auto.
Qed.

Lemma map_result_nth {A B : Type} (f : A -> result B) (l : list A) (ys : list B)
    (i : nat) (x : A) :
  map_result f l = Ok ys -> nth_error l i = Some x ->
  exists y, f x = Ok y /\ nth_error ys i = Some y.
Proof.
  revert ys i. induction l as [| x0 t IH]; simpl; intros ys i H Hn.
  - destruct i; discriminate.
  - destruct (f x0) eqn:Ef; simpl in H; [| discriminate].
    destruct (map_result f t) eqn:Et; simpl in H; [| discriminate].
    inversion H; subst. destruct i; simpl in *.
    + inversion Hn; subst. eauto.
    + eauto.
Qed.

Lemma map_result_Forall {A B : Type} (f : A -> result B) (P : B -> Prop)
    (l : list A) (ys : list B) :
  (forall x y, f x = Ok y -> P y) -> map_result f l = Ok ys -> Forall P ys.
Proof.
  intros Hf. revert ys. induction l as [| x t IH]; simpl; intros ys H.
  - inversion H. constructor.
  - destruct (f x) eqn:Ef; simpl in H; [| discriminate].
    destruct (map_result f t); simpl in H; [| discriminate].
    inversion H. constructor; eauto.
Qed.

(** ** The per-file aggregator *)

Section AggregatorFacts.

Context {L : PyLib}.

(** The nested loops visit [issue_inputs] in order, and stop at the
    first element that raises. *)
Lemma flatten_items_map (category : string) (items : list pyval) (acc : list dict) :
  flatten_items category items acc
  = (ds <- map_result (flatten_issue category) items ;; Ok (acc ++ ds))%result.
Proof.
  revert acc. induction items as [| x t IH]; simpl; intros acc.
  - now rewrite app_nil_r.
  - destruct (flatten_issue category x); simpl; [| reflexivity].
    rewrite IH. destruct (map_result (flatten_issue category) t); simpl;
      [| reflexivity].
    now rewrite <- app_assoc.
Qed.

Lemma flatten_categories_map (entries : dict) (acc : list dict) :
  flatten_categories entries acc
  = (ds <- map_result (fun p => flatten_issue (fst p) (snd p)) (issue_inputs entries) ;;
     Ok (acc ++ ds))%result.
Proof.
  revert acc. induction entries as [| [category items] t IH]; simpl; intros acc.
  - now rewrite app_nil_r.
  - unfold issue_inputs in *. simpl.
    destruct items; simpl; try apply IH.
    rewrite map_result_app, map_result_map. simpl.
    change (fun x : pyval => flatten_issue category x)
      with (flatten_issue category).
    rewrite flatten_items_map.
    destruct (map_result (flatten_issue category) l); simpl; [| reflexivity].
    rewrite IH.
    destruct (map_result _ (flat_map _ t)); simpl; [| reflexivity].
    now rewrite app_assoc.
Qed.

Lemma flatten_map (classification : dict) :
  _flatten_issues_from_classification classification
  = map_result (fun p => flatten_issue (fst p) (snd p)) (issue_inputs classification).
Proof.
  unfold _flatten_issues_from_classification.
  rewrite flatten_categories_map.
  destruct (map_result _ _); reflexivity.
Qed.

(** Every issue leaves the loop body with one of the four severities. *)
Lemma flatten_issue_severity (category : string) (issue : pyval) (d : dict) :
  flatten_issue category issue = Ok d ->
  exists sev, Py.lookup "severity" d = Some (PStr sev) /\ In sev severities.
Proof.
  unfold flatten_issue. intros H.
  destruct (Py.lower _) as [sev |] eqn:E; simpl in H; [| discriminate].
  inversion H; subst; clear H.
  exists (if PyStr.mem sev severities then sev else "medium"). split.
  - rewrite lookup_setdefault_other by discriminate. apply lookup_set_same.
  - destruct (PyStr.mem sev severities) eqn:M.
    + now apply mem_In.
    + simpl. auto.
Qed.

Lemma flatten_issue_is_ok (category : string) (issue : pyval) :
  is_ok (flatten_issue category issue) = severity_well_typed issue.
Proof.
  unfold flatten_issue, severity_well_typed.
  destruct issue; try reflexivity.
  unfold Py.get, Py.get_default.
  rewrite lookup_setdefault_other by discriminate.
  unfold Py.or_.
  destruct (Py.lookup "severity" d) as [v |]; [| reflexivity].
  destruct (Py.truthy v) eqn:T; [| reflexivity].
  destruct v; reflexivity.
Qed.

End AggregatorFacts.

Section RiskScore.

Context {L : PyLib}.

Lemma flatten_string_issue (category : string) (issue : pyval) :
  is_dict issue = false ->
  flatten_issue category issue = Ok (string_issue category issue).
Proof.
  destruct issue; simpl; intros H; try discriminate; reflexivity.
Qed.

Lemma flatten_severities (classification : dict) (issues : list dict) :
  _flatten_issues_from_classification classification = Ok issues ->
  Forall (fun d => exists sev, Py.lookup "severity" d = Some (PStr sev)
                               /\ In sev severities) issues.
Proof.
  rewrite flatten_map. apply map_result_Forall.
  intros [category issue] d. apply flatten_issue_severity.
Qed.

Lemma score_issues_ok (issues : list dict) (score : Z) :
  Forall (fun d => exists sev, Py.lookup "severity" d = Some (PStr sev)
                               /\ In sev severities) issues ->
  exists total, score_issues issues score = Ok total.
Proof.
  intros H. revert score.
  induction H as [| d t [sev [Hs _]] _ IH]; simpl; intros score.
  - eauto.
  - unfold Py.get_default. rewrite Hs. simpl. apply IH.
Qed.

(** The score is computed whenever the issues can be flattened, and it
    is clamped. *)
Lemma compute_risk_score_cases (classification analysis : dict) :
  match _compute_risk_score classification analysis with
  | Ok score => 0 <= score <= 100
  | Raise e => _flatten_issues_from_classification classification = Raise e
  end.
Proof.
  unfold _compute_risk_score.
  destruct (_flatten_issues_from_classification classification) as [issues | e] eqn:F;
    simpl; [| reflexivity].
  destruct (score_issues_ok issues 0 (flatten_severities _ _ F)) as [total ->].
  simpl. lia.
Qed.

End RiskScore.

(** C6: whatever the classification and the analysis, a risk score that
    [_compute_risk_score] returns lies between 0 and 100, and the function
    returns one whenever the issues can be flattened (it raises only what
    the flattening raises); the empty classification with the empty
    analysis scores 0. *)
Theorem C6_risk_score_in_range {L : PyLib} (classification analysis : dict) :
  match _compute_risk_score classification analysis with
  | Ok score => 0 <= score <= 100
  | Raise e => _flatten_issues_from_classification classification = Raise e
  end
  /\ _compute_risk_score empty_classification empty_analysis = Ok 0
  /\ _compute_risk_score empty_classification [] = Ok 0.
Proof.
  split; [apply compute_risk_score_cases |].
  split; reflexivity.
Qed.

(** C1 (as amended): with no analysis risks, the classification whose
    single key is [critical] and whose list holds the string X scores 10,
    the key being a category and the element carrying no severity; a
    single issue whose own severity is critical scores 30; and two files
    scoring 30 and 10 give an overall risk score of 20. *)
Theorem C1_risk_score_examples {L : PyLib} (analysis : dict)
    (run_id now : string) (f1 f2 : FileResult.t) (s : Summary.t) :
  Py.truthy (Py.get "risks" analysis) = false ->
  FileResult.risk_score f1 = 30 ->
  FileResult.risk_score f2 = 10 ->
  aggregate_results run_id now [f1; f2] = Ok s ->
  _compute_risk_score critical_key_classification analysis = Ok 10
  /\ _compute_risk_score critical_issue_classification analysis = Ok 30
  /\ Summary.overall_risk_score s = 20.
Proof.
  intros Hrisks H1 H2 Hagg.
  unfold _compute_risk_score. simpl. unfold Py.or_. rewrite Hrisks. simpl.
  repeat split.
  unfold aggregate_results in Hagg.
  destruct (aggregate_loop [f1; f2] [] []) as [acc |]; simpl in Hagg;
    [| discriminate].
  inversion Hagg; subst; clear Hagg. simpl.
  rewrite H1, H2. reflexivity.
Qed.

Lemma C1_risk_score_examples_witness :
  _compute_risk_score (L := Demo.lib) critical_key_classification empty_analysis = Ok 10
  /\ _compute_risk_score (L := Demo.lib) critical_issue_classification empty_analysis = Ok 30
  /\ Summary.overall_risk_score
       (Summary.mk "r1" "2025-01-01T00:00:00Z" 2 20 []
          [Demo.file_30; Demo.file_10] []) = 20.
Proof.
  apply (@C1_risk_score_examples Demo.lib empty_analysis "r1" "2025-01-01T00:00:00Z"
           Demo.file_30 Demo.file_10); reflexivity.
Defined.

(** C1, as the specification words it, fails: the mapping with the single
    key [critical] scores 10, not 30. *)
Lemma C1_counterexample : ~ critical_key_scores_30 Demo.lib.
Proof.
  intros [H _]. vm_compute in H. discriminate.
Qed.

Section Severity.

Context {L : PyLib}.

Lemma flatten_issue_default (category : string) (issue : pyval) :
  severity_missing_or_unrecognised issue = true ->
  exists d, flatten_issue category issue = Ok d
            /\ Py.lookup "severity" d = Some (PStr "medium").
Proof.
  intros H. unfold flatten_issue. cbv zeta.
  match goal with
  | |- context [Py.setdefault "category" ?v ?x] =>
      set (d0 := Py.setdefault "category" v x)
  end.
  assert (Hsev : exists sev,
             Py.lower (Py.or_ (Py.get "severity" d0) (PStr "medium")) = Ok sev
             /\ (if PyStr.mem sev severities then sev else "medium") = "medium").
  { unfold d0, Py.get, Py.get_default.
    rewrite lookup_setdefault_other by discriminate.
    destruct issue; try (exists "medium"; split; reflexivity).
    unfold severity_missing_or_unrecognised, Py.get, Py.get_default in H.
    unfold Py.or_.
    destruct (Py.lookup "severity" d) as [v |];
      [| exists "medium"; split; reflexivity].
    destruct (Py.truthy v) eqn:T; cbn [negb orb] in H;
      [| exists "medium"; split; reflexivity].
    destruct v; try discriminate.
    exists (PyStr.lower s). split; [reflexivity |].
    apply negb_true_iff in H. now rewrite H. }
  destruct Hsev as [sev [-> Hmed]]. cbn [rbind]. rewrite Hmed.
  eexists. split; [reflexivity |].
  rewrite lookup_setdefault_other by discriminate. apply lookup_set_same.
Qed.

End Severity.

(** C9: an element that has no severity field, a null or empty one, or a
    severity string that is none of low, medium, high and critical once
    lowercased, leaves [_flatten_issues_from_classification] as an issue
    whose severity is exactly medium: the loop body returns such an
    issue, and it is the one standing at the element's position in the
    flattened list. *)
Theorem C9_default_severity_is_medium {L : PyLib} (category : string) (issue : pyval) :
  severity_missing_or_unrecognised issue = true ->
  exists d,
    flatten_issue category issue = Ok d
    /\ Py.lookup "severity" d = Some (PStr "medium")
    /\ forall classification i issues,
         nth_error (issue_inputs classification) i = Some (category, issue) ->
         _flatten_issues_from_classification classification = Ok issues ->
         nth_error issues i = Some d.
Proof.
  intros H. destruct (flatten_issue_default category issue H) as [d [Hd Hs]].
  exists d. repeat split; try assumption.
  intros classification i issues Hn Hf. rewrite flatten_map in Hf.
  destruct (map_result_nth _ _ _ _ _ Hf Hn) as [d' [Hd' Hn']].
  simpl in Hd'. congruence.
Qed.

Lemma C9_default_severity_is_medium_witness :
  exists d,
    flatten_issue (L := Demo.lib) "security"
      (PDict [("severity", PStr "Blocker"); ("message", PStr "X")]) = Ok d
    /\ Py.lookup "severity" d = Some (PStr "medium")
    /\ forall classification i issues,
         nth_error (issue_inputs classification) i
         = Some ("security", PDict [("severity", PStr "Blocker"); ("message", PStr "X")]) ->
         _flatten_issues_from_classification (L := Demo.lib) classification = Ok issues ->
         nth_error issues i = Some d.
Proof.
  apply (@C9_default_severity_is_medium Demo.lib). reflexivity.
Defined.

Section FlattenTotality.

Context {L : PyLib}.

Lemma issue_inputs_app (c1 c2 : dict) :
  issue_inputs (c1 ++ c2) = issue_inputs c1 ++ issue_inputs c2.
Proof. apply flat_map_app. Qed.

Lemma issue_inputs_skip (before after : dict) (key : string) (value : pyval) :
  Py.is_list value = false ->
  issue_inputs (before ++ (key, value) :: after) = issue_inputs (before ++ after).
Proof.
  intros H. rewrite !issue_inputs_app. f_equal.
  unfold issue_inputs. simpl. destruct value; try discriminate; reflexivity.
Qed.

Lemma flatten_is_ok (classification : dict) :
  is_ok (_flatten_issues_from_classification classification)
  = forallb (fun p => severity_well_typed (snd p)) (issue_inputs classification).
Proof.
  rewrite flatten_map, map_result_is_ok.
  induction (issue_inputs classification) as [| [category issue] t IH];
    simpl; [reflexivity |].
  now rewrite flatten_issue_is_ok, IH.
Qed.

(** Where a mapped list raises: at its first element that raises. *)
Lemma map_result_raise {A B : Type} (f : A -> result B) (l : list A) (e : pyexc) :
  map_result f l = Raise e ->
  exists before x after,
    l = before ++ x :: after
    /\ forallb (fun y => is_ok (f y)) before = true
    /\ f x = Raise e.
Proof.
  induction l as [| x t IH]; simpl; intros H; [discriminate |].
  destruct (f x) as [y | e0] eqn:Ef; simpl in H.
  - destruct (map_result f t) as [ys | e1]; simpl in H; [discriminate |].
    injection H as ->.
    destruct (IH eq_refl) as [before [x0 [after [-> [Hb Hx]]]]].
    exists (x :: before), x0, after. cbn [forallb app]. rewrite Ef, Hb.
    now repeat split.
  - injection H as ->. exists [], x, t. now repeat split.
Qed.

(** What the loop body raises: the missing [lower] of a severity that is
    truthy and no string. *)
Lemma flatten_issue_raise (category : string) (issue : pyval) (e : pyexc) :
  flatten_issue category issue = Raise e ->
  exists d,
    issue = PDict d
    /\ severity_well_typed issue = false
    /\ e = AttributeError ("'" +++ Py.type_name (Py.get "severity" d)
                           +++ "' object has no attribute 'lower'").
Proof.
  intros H. pose proof (flatten_issue_is_ok category issue) as Hok.
  rewrite H in Hok. cbn [is_ok] in Hok.
  destruct issue as [| b | z | f | s | l | d]; try discriminate.
  exists d. split; [reflexivity |]. split; [now symmetry |].
  unfold flatten_issue in H. unfold severity_well_typed in Hok.
  unfold Py.get, Py.get_default in *.
  rewrite lookup_setdefault_other in H by discriminate.
  unfold Py.or_ in H.
  destruct (Py.lookup "severity" d) as [v |]; [| discriminate].
  destruct (Py.truthy v); [| discriminate].
  destruct v; try discriminate; cbn [Py.lower rbind] in H;
    injection H as <-; reflexivity.
Qed.

End FlattenTotality.

(** C10 (as amended): [_flatten_issues_from_classification] returns
    exactly when no dictionary element of a list value carries a truthy
    severity that is not a string, and when there is such an element it
    raises the AttributeError of the first one, whose severity has no
    [lower]; when it returns, there is one issue per element of the list
    values, an element that is no dictionary having become the issue
    whose message is its string form; and an entry whose value is no list
    is skipped, the result being that of the dictionary without it. *)
Theorem C10_flatten_total_on_typed_severities {L : PyLib} (classification : dict) :
  is_ok (_flatten_issues_from_classification classification)
  = forallb (fun p => severity_well_typed (snd p)) (issue_inputs classification)
  /\ (forall e,
        _flatten_issues_from_classification classification = Raise e ->
        exists before category d after,
          issue_inputs classification = before ++ (category, PDict d) :: after
          /\ forallb (fun p => severity_well_typed (snd p)) before = true
          /\ severity_well_typed (PDict d) = false
          /\ e = AttributeError
                   ("'" +++ Py.type_name (Py.get "severity" d)
                    +++ "' object has no attribute 'lower'"))
  /\ (forall issues,
        _flatten_issues_from_classification classification = Ok issues ->
        List.length issues = List.length (issue_inputs classification)
        /\ forall i category issue,
             nth_error (issue_inputs classification) i = Some (category, issue) ->
             is_dict issue = false ->
             nth_error issues i = Some (string_issue category issue))
  /\ (forall before key value after,
        classification = before ++ (key, value) :: after ->
        Py.is_list value = false ->
        _flatten_issues_from_classification classification
        = _flatten_issues_from_classification (before ++ after)).
Proof.
  split; [apply flatten_is_ok |]. split; [| split].
  - intros e H. rewrite flatten_map in H.
    destruct (map_result_raise _ _ _ H)
      as [before [[category issue] [after [Hl [Hb Hx]]]]].
    cbn [fst snd] in Hx.
    destruct (flatten_issue_raise _ _ _ Hx) as [d [-> [Hw ->]]].
    exists before, category, d, after. split; [exact Hl |].
    split; [| now split].
    rewrite <- Hb. clear. induction before as [| [c i] t IH]; [reflexivity |].
    cbn [forallb fst snd]. now rewrite flatten_issue_is_ok, IH.
  - intros issues H. rewrite flatten_map in H. split.
    + eapply map_result_length; eassumption.
    + intros i category issue Hn Hd.
      destruct (map_result_nth _ _ _ _ _ H Hn) as [d [Hf Hi]].
      simpl in Hf. rewrite (flatten_string_issue _ _ Hd) in Hf.
      congruence.
  - intros before key value after -> Hl.
    rewrite !flatten_map. now rewrite issue_inputs_skip.
Qed.

(** C10, as it is written, fails: an issue whose severity is the number 5
    makes the flattening raise. *)
Lemma C10_counterexample : ~ flatten_never_raises Demo.lib.
Proof.
  intros H. specialize (H numeric_severity_classification).
  vm_compute in H. discriminate.
Qed.

(** ** The schema validator *)

Section ValidatorFacts.

Context {L : PyLib}.

Lemma ensure_keys_dict (d : dict) (keys : list string) (context : string) :
  _ensure_keys (PDict d) keys context = Ok tt
  <-> forall key, In key keys -> Py.lookup key d <> None.
Proof.
  induction keys as [| k t IH]; simpl.
  - split; [intros _ key [] | reflexivity].
  - destruct (Py.lookup k d) eqn:E; simpl.
    + rewrite IH. split.
      * intros H key [<- | Hin]; [congruence | auto].
      * intros H key Hin. apply H. now right.
    + split; [discriminate |].
      intros H. exfalso. apply (H k); auto.
Qed.

Lemma check_lists_dict (d : dict) (keys : list string) :
  check_lists (PDict d) keys = Ok tt
  <-> forall key, In key keys -> exists l, Py.lookup key d = Some (PList l).
Proof.
  induction keys as [| k t IH]; simpl.
  - split; [intros _ key [] | reflexivity].
  - destruct (Py.lookup k d) as [v |] eqn:E; simpl.
    + destruct v; simpl;
        try (split; [discriminate |];
             intros H; destruct (H k (or_introl eq_refl)) as [l Hl]; congruence).
      rewrite IH. split.
      * intros H key [<- | Hin]; [eauto | auto].
      * intros H key Hin. apply H. now right.
    + split; [discriminate |].
      intros H. destruct (H k (or_introl eq_refl)) as [l Hl]. congruence.
Qed.

Lemma check_strings_ok (key : string) (elements : list pyval) :
  check_strings key elements = Ok tt
  <-> Forall (fun e => Py.is_str e = true) elements.
Proof.
  induction elements as [| e t IH]; simpl.
  - split; [constructor | reflexivity].
  - destruct (Py.is_str e) eqn:E.
    + rewrite IH. split.
      * intros H. now constructor.
      * intros H. now inversion H.
    + split; [discriminate |]. intros H. inversion H. congruence.
Qed.

Lemma check_entries_ok (entries : dict) :
  check_entries entries = Ok tt
  <-> Forall (fun kv => iterable_of_strings (snd kv)) entries.
Proof.
  induction entries as [| [key value] t IH]; simpl.
  - split; [constructor | reflexivity].
  - unfold iterable_of_strings at 1.
    destruct (py_iter value) as [elements | e] eqn:E; simpl.
    + destruct (check_strings key elements) as [[] | e] eqn:C; simpl.
      * rewrite IH. split.
        -- intros H. constructor; [| assumption].
           exists elements. split; [assumption |].
           now apply (check_strings_ok key).
        -- intros H. now inversion H.
      * split; [discriminate |]. intros H. inversion H as [| ? ? Hv _]; subst.
        destruct Hv as [elements' [He Hf]]. simpl in He.
        assert (elements' = elements) by congruence. subst.
        apply (check_strings_ok key) in Hf. congruence.
    + split; [discriminate |]. intros H. inversion H as [| ? ? Hv _]; subst.
      destruct Hv as [elements' [He _]]. simpl in He. congruence.
Qed.

Lemma validate_classification_dict (data : dict) (code : string) :
  validate_classification (PDict data) code = Ok tt
  <-> (forall key, In key required_categories -> Py.lookup key data <> None)
      /\ (forall key, In key required_categories ->
            exists l, Py.lookup key data = Some (PList l))
      /\ Forall (fun kv => iterable_of_strings (snd kv)) data.
Proof.
  unfold validate_classification.
  pose proof (ensure_keys_dict data required_categories "Classification") as HE.
  pose proof (check_lists_dict data required_categories) as HL.
  pose proof (check_entries_ok data) as HC.
  destruct (_ensure_keys (PDict data) required_categories "Classification")
    as [[] |]; cbn [rbind].
  2: { split; [discriminate |]. intros [H _]. apply HE in H. discriminate. }
  destruct (check_lists (PDict data) required_categories) as [[] |];
    cbn [rbind py_items].
  2: { split; [discriminate |]. intros [_ [H _]]. apply HL in H. discriminate. }
  rewrite HC. split.
  - intros H. repeat split; [now apply HE | now apply HL | assumption].
  - now intros [_ [_ H]].
Qed.

(** The validator accepts nothing but a dictionary. *)
Lemma validate_classification_is_dict (data : pyval) (code : string) :
  validate_classification data code = Ok tt -> is_dict data = true.
Proof.
  unfold validate_classification. intros H.
  destruct data; try reflexivity; exfalso;
    destruct (_ensure_keys _ _ _) as [[] |]; simpl in H; try discriminate;
    destruct (check_lists _ _) as [[] |] eqn:C; simpl in H; try discriminate;
    simpl in C; discriminate.
Qed.

End ValidatorFacts.

(** C3 (as amended): a dictionary is accepted by
    [validate_classification] if and only if each of the seven categories
    is present with a list of strings as its value and every entry of the
    dictionary, the seven and any other, has a value whose iteration
    yields strings only.  So a missing category, a category that is no
    list and an element that is no string are all rejected, and so is a
    further key whose value holds anything but strings. *)
Theorem C3_validate_classification_accepts_iff {L : PyLib} (data : dict) (code : string) :
  validate_classification (PDict data) code = Ok tt
  <-> categories_are_string_lists data
      /\ Forall (fun kv => iterable_of_strings (snd kv)) data.
Proof.
  rewrite validate_classification_dict. unfold categories_are_string_lists.
  split.
  - intros [_ [Hl He]]. split; [| assumption].
    intros key Hin. destruct (Hl key Hin) as [l Hk]. exists l.
    split; [assumption |].
    apply lookup_In in Hk. rewrite Forall_forall in He.
    destruct (He _ Hk) as [elements [Hi Hf]]. simpl in Hi.
    inversion Hi; now subst.
  - intros [Hc He]. repeat split; try assumption.
    + intros key Hin. destruct (Hc key Hin) as [l [Hk _]]. congruence.
    + intros key Hin. destruct (Hc key Hin) as [l [Hk _]]. eauto.
Qed.

(** C3, as it is written, fails: with the seven categories present as
    lists of strings, a further key holding a number is rejected. *)
Lemma C3_counterexample :
  ~ accepts_iff_categories_are_string_lists Demo.lib extra_key_classification.
Proof.
  intros [_ H].
  assert (Hc : categories_are_string_lists extra_key_classification).
  { intros key Hin. exists []. split; [| constructor].
    simpl in Hin.
    repeat (destruct Hin as [<- | Hin]; [reflexivity |]). destruct Hin. }
  specialize (H Hc). vm_compute in H. discriminate.
Qed.

(** What the validator accepts can be flattened: in the pipeline the
    per-file aggregator never raises. *)
Lemma validated_classification_flattens {L : PyLib} (data : dict) (code : string) :
  validate_classification (PDict data) code = Ok tt ->
  exists issues, _flatten_issues_from_classification data = Ok issues.
Proof.
  intros H. apply validate_classification_dict in H.
  destruct H as [_ [_ H]]. apply is_ok_true. rewrite flatten_is_ok.
  induction H as [| [key value] t Hv _ IH]; [reflexivity |].
  change ((key, value) :: t) with ([(key, value)] ++ t).
  rewrite issue_inputs_app, forallb_app, IH, andb_true_r.
  unfold issue_inputs. simpl. rewrite app_nil_r.
  destruct value; try reflexivity.
  destruct Hv as [elements [Hi Hs]]. simpl in Hi. inversion Hi; subst.
  rewrite forallb_forall. intros [k v] Hin. apply in_map_iff in Hin.
  destruct Hin as [x [Hx Hin]]. inversion Hx; subst. simpl.
  rewrite Forall_forall in Hs. specialize (Hs _ Hin).
  destruct v; try discriminate; reflexivity.
Qed.

(** ** Run-level aggregation *)

Lemma is_red_issue_iff (issue : dict) :
  is_red_issue issue = true
  <-> exists sev, Py.or_ (Py.get "severity" issue) (PStr "") = PStr sev
                  /\ In (PyStr.lower sev) ["high"; "critical"].
Proof.
  unfold is_red_issue.
  destruct (Py.or_ (Py.get "severity" issue) (PStr "")) as [| | | | s | |];
    simpl; try (split; [discriminate | intros [sev [H _]]; discriminate]).
  change ((PyStr.lower s =? "high")%string
          || ((PyStr.lower s =? "critical")%string || false))
    with (PyStr.mem (PyStr.lower s) ["high"; "critical"]).
  rewrite mem_In. split.
  - intros H. exists s. now split.
  - intros [sev [Hs H]]. inversion Hs. now subst.
Qed.

Lemma severity_lower_is_ok (issue : dict) :
  is_ok (Py.lower (Py.or_ (Py.get "severity" issue) (PStr "")))
  = severity_well_typed (PDict issue).
Proof.
  unfold severity_well_typed, Py.or_.
  destruct (Py.truthy (Py.get "severity" issue)) eqn:T; [| reflexivity].
  destruct (Py.get "severity" issue); reflexivity.
Qed.

Lemma red_flags_loop_cases (file : string) (issues : list dict) (acc : list dict) :
  match red_flags_loop file issues acc with
  | Ok red_flags =>
      red_flags = acc ++ map (red_flag_entry file) (filter is_red_issue issues)
  | Raise _ =>
      exists issue, In issue issues /\ severity_well_typed (PDict issue) = false
  end.
Proof.
  revert acc. induction issues as [| issue t IH]; intros acc.
  - simpl. now rewrite app_nil_r.
  - cbn [red_flags_loop filter]. unfold is_red_issue.
    pose proof (severity_lower_is_ok issue) as Hok.
    destruct (Py.lower (Py.or_ (Py.get "severity" issue) (PStr ""))) as [sev | e];
      cbn [rbind].
    + destruct (PyStr.mem sev ["high"; "critical"]).
      * specialize (IH (acc ++ [red_flag_entry file issue])).
        destruct (red_flags_loop file t _).
        -- rewrite IH. simpl. now rewrite <- app_assoc.
        -- destruct IH as [i [Hin Hw]]. exists i. split; [now right | assumption].
      * specialize (IH acc). destruct (red_flags_loop file t acc).
        -- assumption.
        -- destruct IH as [i [Hin Hw]]. exists i. split; [now right | assumption].
    + exists issue. split; [now left | now rewrite <- Hok].
Qed.

Lemma checklist_loop_app (a b acc : list string) :
  checklist_loop (a ++ b) acc = checklist_loop b (checklist_loop a acc).
Proof.
  revert acc. induction a as [| x t IH]; simpl; intros acc; [reflexivity |].
  destruct (PyStr.mem x acc); apply IH.
Qed.

Lemma checklist_loop_snoc (items acc : list string) (x : string) :
  checklist_loop (items ++ [x]) acc
  = if PyStr.mem x (checklist_loop items acc)
    then checklist_loop items acc
    else checklist_loop items acc ++ [x].
Proof.
  rewrite checklist_loop_app. simpl.
  destruct (PyStr.mem x (checklist_loop items acc)); reflexivity.
Qed.

Lemma aggregate_loop_cases (frs : list FileResult.t) (red_flags : list dict)
    (checklist : list string) :
  match aggregate_loop frs red_flags checklist with
  | Ok acc =>
      fst acc = red_flags ++ all_red_flags frs
      /\ snd acc = checklist_loop (all_checklist_items frs) checklist
  | Raise _ =>
      exists fr issue, In fr frs /\ In issue (FileResult.issues fr)
                       /\ severity_well_typed (PDict issue) = false
  end.
Proof.
  revert red_flags checklist. induction frs as [| fr t IH]; intros red_flags checklist.
  - simpl. now rewrite app_nil_r.
  - cbn [aggregate_loop].
    pose proof (red_flags_loop_cases (FileResult.path fr) (FileResult.issues fr)
                  red_flags) as Hrf.
    destruct (red_flags_loop _ _ _) as [rf |]; cbn [rbind].
    + specialize (IH rf (checklist_loop (FileResult.checklist_items fr) checklist)).
      destruct (aggregate_loop t _ _) as [acc |].
      * destruct IH as [H1 H2]. split.
        -- rewrite H1, Hrf. unfold all_red_flags. simpl. now rewrite <- app_assoc.
        -- rewrite H2. unfold all_checklist_items. simpl.
           now rewrite checklist_loop_app.
      * destruct IH as [fr' [issue [Hin H]]]. exists fr', issue.
        split; [now right | assumption].
    + destruct Hrf as [issue [Hin Hw]]. exists fr, issue.
      split; [now left | now split].
Qed.

Lemma first_index_app_in (x : string) (l l' : list string) :
  In x l -> first_index x (l ++ l') = first_index x l.
Proof.
  induction l as [| y t IH]; simpl; [intros [] |].
  destruct (String.eqb_spec y x) as [-> | Hne]; [reflexivity |].
  intros [-> | Hin]; [congruence |]. f_equal. auto.
Qed.

Lemma first_index_app_fresh (x : string) (l : list string) :
  ~ In x l -> first_index x (l ++ [x]) = List.length l.
Proof.
  induction l as [| y t IH]; simpl; intros Hn.
  - now rewrite String.eqb_refl.
  - destruct (String.eqb_spec y x) as [-> | Hne]; [tauto |]. f_equal. tauto.
Qed.

Lemma first_index_lt (x : string) (l : list string) :
  In x l -> (first_index x l < List.length l)%nat.
Proof.
  induction l as [| y t IH]; simpl; [intros [] |].
  destruct (String.eqb_spec y x) as [-> | Hne]; [lia |].
  intros [-> | Hin]; [congruence |]. apply IH in Hin. lia.
Qed.

(** The checklist loop keeps one copy of each item, in the order of the
    first occurrences. *)
Lemma checklist_loop_first_seen (items : list string) :
  let checklist := checklist_loop items [] in
  NoDup checklist
  /\ (forall x, In x checklist <-> In x items)
  /\ (forall i j x y,
        nth_error checklist i = Some x -> nth_error checklist j = Some y ->
        (i < j)%nat -> (first_index x items < first_index y items)%nat).
Proof.
  induction items as [| x items IH] using rev_ind; cbv zeta.
  - simpl. split; [constructor |]. split; [tauto |].
    intros i j x y H. destruct i; discriminate.
  - cbv zeta in IH. destruct IH as [Hnd [Hin Hord]].
    rewrite checklist_loop_snoc.
    destruct (PyStr.mem x (checklist_loop items [])) eqn:M.
    + apply mem_In in M. split; [assumption |]. split.
      * intros z. rewrite Hin, in_app_iff. simpl. split; [tauto |].
        intros [H | [<- | []]]; [assumption | now apply Hin].
      * intros i j a b Ha Hb Hlt.
        rewrite !first_index_app_in
          by (apply Hin; eapply nth_error_In; eassumption).
        eauto.
    + apply mem_not_In in M. split.
      * apply NoDup_app; [assumption | repeat constructor; intros [] |].
        intros z Hz [<- | []]. contradiction.
      * split.
        -- intros z. rewrite !in_app_iff, Hin. reflexivity.
        -- intros i j a b Ha Hb Hlt.
           assert (Hx : ~ In x items) by (intros H; apply M, Hin, H).
           assert (Hj : (j < List.length (checklist_loop items [] ++ [x]))%nat)
             by (apply nth_error_Some; congruence).
           rewrite length_app in Hj. simpl in Hj.
           assert (Hi : (i < List.length (checklist_loop items []))%nat) by lia.
           rewrite nth_error_app1 in Ha by assumption.
           assert (Ha' : In a items) by (apply Hin; eapply nth_error_In; eassumption).
           rewrite (first_index_app_in a) by assumption.
           destruct (Nat.lt_ge_cases j (List.length (checklist_loop items []))) as [Hj' | Hj'].
           ++ rewrite nth_error_app1 in Hb by assumption.
              rewrite (first_index_app_in b)
                by (apply Hin; eapply nth_error_In; eassumption).
              eauto.
           ++ assert (j = List.length (checklist_loop items [])) by lia. subst j.
              rewrite nth_error_app2, Nat.sub_diag in Hb by lia.
              simpl in Hb. inversion Hb; subst b.
              rewrite first_index_app_fresh by assumption.
              now apply first_index_lt.
Qed.

Lemma aggregate_results_cases (run_id now : string) (frs : list FileResult.t) :
  match aggregate_results run_id now frs with
  | Ok s =>
      Summary.red_flags s = all_red_flags frs
      /\ Summary.checklist s = checklist_loop (all_checklist_items frs) []
      /\ Summary.scanned_files s = Z.of_nat (List.length frs)
      /\ Summary.files s = frs
  | Raise _ =>
      exists fr issue, In fr frs /\ In issue (FileResult.issues fr)
                       /\ severity_well_typed (PDict issue) = false
  end.
Proof.
  unfold aggregate_results.
  pose proof (aggregate_loop_cases frs [] []) as H.
  destruct (aggregate_loop frs [] []) as [acc |]; cbn [rbind]; [| assumption].
  destruct H as [H1 H2]. simpl. auto.
Qed.

(** C7: when [aggregate_results] returns, [red_flags] holds one entry
    for each issue whose severity, lowercased, is high or critical, in
    the order of the files and of their issues, and no other entry: an
    entry is there if and only if it is built from such an issue, it
    names the path of the file the issue belongs to, and its severity is
    never low or medium.  The function raises only on an issue whose
    severity is neither falsy nor a string.  For an issue with one of the
    four normalised severities, as the per-file step produces them, the
    test holds exactly when the severity is high or critical. *)
Theorem C7_red_flags_high_or_critical (run_id now : string)
    (file_results : list FileResult.t) :
  match aggregate_results run_id now file_results with
  | Ok s =>
      Summary.red_flags s = all_red_flags file_results
      /\ (forall entry,
            In entry (Summary.red_flags s)
            <-> exists fr issue,
                  In fr file_results /\ In issue (FileResult.issues fr)
                  /\ is_red_issue issue = true
                  /\ entry = red_flag_entry (FileResult.path fr) issue
                  /\ Py.get "file" entry = PStr (FileResult.path fr))
      /\ Forall (fun entry =>
                   exists sev,
                     Py.or_ (Py.get "severity" entry) (PStr "") = PStr sev
                     /\ In (PyStr.lower sev) ["high"; "critical"]
                     /\ ~ In (PyStr.lower sev) ["low"; "medium"])
                (Summary.red_flags s)
  | Raise _ =>
      exists fr issue, In fr file_results /\ In issue (FileResult.issues fr)
                       /\ severity_well_typed (PDict issue) = false
  end
  /\ (forall issue sev,
        Py.get "severity" issue = PStr sev -> In sev severities ->
        (is_red_issue issue = true <-> sev = "high" \/ sev = "critical")).
Proof.
  split.
  2: { intros issue sev Hsev Hin. unfold is_red_issue. rewrite Hsev.
       simpl in Hin.
       destruct Hin as [<- | [<- | [<- | [<- | []]]]]; simpl; split; intros H;
         auto; try discriminate; destruct H as [H | H]; discriminate. }
  pose proof (aggregate_results_cases run_id now file_results) as H.
  destruct (aggregate_results run_id now file_results) as [s |]; [| assumption].
  destruct H as [Hrf _]. rewrite Hrf. split; [reflexivity |].
  assert (Hiff : forall entry,
             In entry (all_red_flags file_results)
             <-> exists fr issue,
                   In fr file_results /\ In issue (FileResult.issues fr)
                   /\ is_red_issue issue = true
                   /\ entry = red_flag_entry (FileResult.path fr) issue
                   /\ Py.get "file" entry = PStr (FileResult.path fr)).
  { intros entry. unfold all_red_flags. rewrite in_flat_map. split.
    - intros [fr [Hfr Hin]]. apply in_map_iff in Hin.
      destruct Hin as [issue [<- Hin]]. apply filter_In in Hin.
      destruct Hin as [Hin Hred]. exists fr, issue. repeat split; assumption.
    - intros [fr [issue [Hfr [Hin [Hred [-> _]]]]]]. exists fr.
      split; [assumption |]. apply in_map, filter_In. now split. }
  split; [exact Hiff |].
  apply Forall_forall. intros entry Hin. apply Hiff in Hin.
  destruct Hin as [fr [issue [_ [_ [Hred [-> _]]]]]].
  apply is_red_issue_iff in Hred. destruct Hred as [sev [Hsev Hin]].
  exists sev. split; [exact Hsev |]. split; [assumption |].
  simpl in *. intros [H | [H | []]]; destruct Hin as [H' | [H' | []]];
    rewrite <- H in H'; discriminate.
Qed.

(** One file with a high and a low issue: the high one alone is flagged. *)
Example demo_red_flags :
  match aggregate_results "r1" "2025-01-01T00:00:00Z" [Demo.flagged_file] with
  | Ok s =>
      Summary.red_flags s
      = [ [ ("file", PStr "pkg.sql"); ("severity", PStr "high");
            ("code", PStr "SECURITY");
            ("message", PStr "dynamic SQL from user input") ] ]
  | Raise _ => False
  end.
Proof. reflexivity. Qed.

(** C8: when [aggregate_results] returns, the aggregate checklist holds
    every checklist item of every file exactly once, in the order of
    their first occurrences; it raises only on an issue whose severity is
    neither falsy nor a string.  Two files that each produce the item
    Review: check nulls, as an analysis whose only risk is check nulls
    does, give a checklist with that one entry. *)
Theorem C8_checklist_first_seen_once (run_id now : string)
    (file_results : list FileResult.t) (p1 p2 : string) :
  match aggregate_results run_id now file_results with
  | Ok s =>
      let items := all_checklist_items file_results in
      NoDup (Summary.checklist s)
      /\ (forall x, In x (Summary.checklist s) <-> In x items)
      /\ (forall i j x y,
            nth_error (Summary.checklist s) i = Some x ->
            nth_error (Summary.checklist s) j = Some y ->
            (i < j)%nat -> (first_index x items < first_index y items)%nat)
  | Raise _ =>
      exists fr issue, In fr file_results /\ In issue (FileResult.issues fr)
                       /\ severity_well_typed (PDict issue) = false
  end
  /\ match aggregate_results run_id now [Demo.nulls_file p1; Demo.nulls_file p2] with
     | Ok s => Summary.checklist s = ["Review: check nulls"]
     | Raise _ => False
     end
  /\ (forall L : PyLib,
        _derive_checklist_items empty_classification
          [("risks", PList [PStr "check nulls"])] = Ok ["Review: check nulls"]).
Proof.
  split; [| split; [reflexivity | intros L; reflexivity]].
  pose proof (aggregate_results_cases run_id now file_results) as H.
  destruct (aggregate_results run_id now file_results) as [s |]; [| assumption].
  destruct H as [_ [Hcl _]]. rewrite Hcl.
  apply checklist_loop_first_seen.
Qed.

(** ** The stage executor *)

Section StageFacts.

Context {L : PyLib} {O : Outside}.

Lemma model_name_eq (model : option string) :
  match model with
  | Some m => if (m =? "")%string then DEFAULT_MODEL else m
  | None => DEFAULT_MODEL
  end = model_name model.
Proof.
  unfold model_name, or_default, nonempty.
  destruct model as [m |]; [| reflexivity]. now destruct (m =? "")%string.
Qed.

Lemma structured_step_history (stage : string) (build : string -> string * string)
    (template : string) (validate : pyval -> string -> result unit)
    (code : string) (model : option string) (w : world) :
  one_correction_at_most (run_structured_step stage build template validate)
    build template code model w.
Proof.
  unfold one_correction_at_most, run_structured_step, stage_request,
    correction_requests, correction_request.
  destruct (build code) as [system_prompt user_prompt].
  io_norm. rewrite model_name_eq.
  case_llm; [| history_done].
  case_loads; try history_done.
  - destruct (validate _ code); history_done.
  - case_correction. case_llm; [| history_done].
    case_loads; try history_done.
    destruct (validate _ code); history_done.
Qed.

End StageFacts.

(** C4: an invocation of the classification stage or of the analysis
    stage makes at most two parse attempts and sends at most two
    requests: its own, and after a reply that does not parse one
    correction request, which is made of the stripped reply and the
    stage's template and of nothing else. *)
Theorem C4_at_most_one_correction_pass {L : PyLib} {O : Outside}
    (code : string) (model : option string) (w : world) :
  one_correction_at_most run_classification_step build_classification_prompt
    CLASSIFICATION_JSON_TEMPLATE code model w
  /\ one_correction_at_most run_analysis_step build_analysis_prompt
       ANALYSIS_JSON_TEMPLATE code model w.
Proof.
  split; apply structured_step_history.
Qed.

(** ** Failure of a stage and the orchestrator *)

Lemma append_assoc (a b c : string) : (a +++ b) +++ c = a +++ b +++ c.
Proof.
  induction a as [| ch t IH]; simpl; [reflexivity |]. now rewrite IH.
Qed.

Lemma append_nil_r (a : string) : a +++ "" = a.
Proof.
  induction a as [| ch t IH]; simpl; [reflexivity |]. now rewrite IH.
Qed.

Lemma still_invalid_carries (stage exc exc2 raw fixed_raw : string) :
  let msg := still_invalid stage exc exc2 raw fixed_raw in
  occurs_in exc msg /\ occurs_in exc2 msg
  /\ occurs_in raw msg /\ occurs_in fixed_raw msg.
Proof.
  cbv zeta. unfold occurs_in, still_invalid. repeat split.
  - exists (stage +++ " JSON still invalid after correction." +++ PyStr.nl
            +++ "Original error: "). eexists.
    rewrite !append_assoc. reflexivity.
  - exists (stage +++ " JSON still invalid after correction." +++ PyStr.nl
            +++ "Original error: " +++ exc +++ PyStr.nl +++ "Correction error: ").
    eexists. rewrite !append_assoc. reflexivity.
  - exists (stage +++ " JSON still invalid after correction." +++ PyStr.nl
            +++ "Original error: " +++ exc +++ PyStr.nl
            +++ "Correction error: " +++ exc2 +++ PyStr.nl
            +++ "Original output:" +++ PyStr.nl).
    eexists. rewrite !append_assoc. reflexivity.
  - exists (stage +++ " JSON still invalid after correction." +++ PyStr.nl
            +++ "Original error: " +++ exc +++ PyStr.nl
            +++ "Correction error: " +++ exc2 +++ PyStr.nl
            +++ "Original output:" +++ PyStr.nl +++ raw +++ PyStr.nl +++ PyStr.nl
            +++ "Corrected output:" +++ PyStr.nl), "".
    rewrite !append_assoc, append_nil_r. reflexivity.
Qed.

Lemma succeeds_ret {A : Type} (a : A) : succeeds (ret a).
Proof. intros w. now exists a, w. Qed.

Lemma succeeds_emit (e : event) : succeeds (emit e).
Proof. intros w. eexists. eexists. reflexivity. Qed.

Lemma succeeds_print (text : string) : succeeds (print text).
Proof. apply succeeds_emit. Qed.

Lemma succeeds_mkdir (path : string) : succeeds (mkdir path).
Proof. apply succeeds_emit. Qed.

Lemma succeeds_write_text (path content : string) :
  succeeds (write_text path content).
Proof. intros w. eexists. eexists. reflexivity. Qed.

Lemma succeeds_bind {A B : Type} (c : M A) (k : A -> M B) :
  succeeds c -> (forall a, succeeds (k a)) -> succeeds (bind c k).
Proof.
  intros Hc Hk w. destruct (Hc w) as [a [w' E]].
  destruct (Hk a w') as [b [w'' E']]. exists b, w''.
  unfold bind. now rewrite E.
Qed.

#[local] Hint Resolve succeeds_ret succeeds_emit succeeds_print succeeds_mkdir
  succeeds_write_text : io.

Section StageFailure.

Context {L : PyLib} {O : Outside}.

Lemma succeeds_now_iso : succeeds now_iso.
Proof. intros w. eexists. eexists. reflexivity. Qed.

Lemma succeeds_log_step (self : RunLogger.t) (name status : string) :
  succeeds (log_step self name status).
Proof.
  unfold log_step. apply succeeds_bind; [apply succeeds_now_iso |].
  intros a. apply succeeds_ret.
Qed.

Lemma succeeds_new_run_logger (input_file : string) (model : option string)
    (input_sha256 : string) (flags : Flags.t) :
  succeeds (new_run_logger input_file model input_sha256 flags).
Proof.
  unfold new_run_logger. apply succeeds_bind; [apply succeeds_now_iso |].
  intros a. apply succeeds_ret.
Qed.

(** Two decode errors in a row: the stage raises, with the message
    built from both errors and both texts. *)
Lemma structured_step_fails_twice (stage : string)
    (build : string -> string * string) (template : string)
    (validate : pyval -> string -> result unit)
    (code : string) (model : option string) (w : world)
    (reply fixed_reply exc exc2 : string) :
  decode_fails_twice stage build template code model w reply fixed_reply
    exc exc2 ->
  run_structured_step stage build template validate code model w
  = (Raise (ValueError
              (still_invalid stage exc exc2 (PyStr.strip (PyStr.strip reply))
                 (PyStr.strip (PyStr.strip fixed_reply)))),
     after w (double_failure_events stage build template code model reply
                fixed_reply exc)).
Proof.
  unfold decode_fails_twice, double_failure_events. cbv zeta.
  intros [H1 [H2 [H3 H4]]]. unfold run_structured_step, after.
  destruct (build code) as [system_prompt user_prompt]. cbn [fst snd] in *.
  io_norm. rewrite model_name_eq, H1. io_norm. rewrite H2. io_norm.
  destruct (build_json_correction_prompt _ template) as [cs cu].
  cbn [fst snd] in *. io_norm.
  rewrite <- !app_assoc. cbn [app]. rewrite H3. io_norm. rewrite H4. io_norm.
  rewrite <- !app_assoc. reflexivity.
Qed.

End StageFailure.

#[local] Hint Resolve succeeds_now_iso succeeds_log_step succeeds_new_run_logger : io.

Section FileFailure.

Context {L : PyLib} {O : Outside}.

(** A stage that raises makes its block raise: the block has no handler
    and does nothing after the stage. *)
Lemma stage_block_raises (s : structured_stage)
    (rel_name base_name code output_dir : string)
    (model : option string) (flags : Flags.t) (run_logger : RunLogger.t)
    (e : pyexc) (w0 w2 : world) :
  stage_enabled s flags = true ->
  stage_step s code model
    (after w0 [ EvPrint ("[INFO] Running " +++ stage_key s +++ " step on: "
                         +++ rel_name);
                EvClock ])
  = (Raise e, w2) ->
  stage_block s rel_name base_name code output_dir model flags run_logger w0
  = (Raise e, w2).
Proof.
  unfold after. intros Hf H.
  destruct s; cbn [stage_enabled stage_block stage_step stage_key] in *.
  - unfold classification_block. rewrite Hf. unfold log_step, now_iso.
    io_norm. rewrite <- app_assoc. cbn [app].
    change ("[INFO] Running classification step on: " +++ rel_name)
      with ("[INFO] Running " +++ "classification" +++ " step on: " +++ rel_name).
    now rewrite H.
  - unfold analysis_block. rewrite Hf. unfold log_step, now_iso.
    io_norm. rewrite <- app_assoc. cbn [app].
    change ("[INFO] Running analysis step on: " +++ rel_name)
      with ("[INFO] Running " +++ "analysis" +++ " step on: " +++ rel_name).
    now rewrite H.
Qed.

Lemma bind_returned {A B : Type} (c : M A) (k : A -> M B) (w w' : world)
    (b : B) :
  bind c k w = (Ok b, w') ->
  exists a w1, c w = (Ok a, w1) /\ k a w1 = (Ok b, w').
Proof.
  unfold bind. destruct (c w) as [[a | e] w1]; [| discriminate].
  intros H. now exists a, w1.
Qed.

Lemma bind_after {A B : Type} (c : M A) (k : A -> M B) (w w1 : world) (a : A) :
  c w = (Ok a, w1) -> bind c k w = k a w1.
Proof. intros H. unfold bind. now rewrite H. Qed.

Lemma bind_raised {A B : Type} (c : M A) (k : A -> M B) (w w1 : world)
    (e : pyexc) :
  c w = (Raise e, w1) -> bind c k w = (Raise e, w1).
Proof. intros H. unfold bind. now rewrite H. Qed.

Ltac same_step H :=
  let a := fresh "a" in
  let w1 := fresh "w" in
  let E := fresh "E" in
  apply bind_returned in H; destruct H as [a [w1 [E H]]];
  rewrite (bind_after _ _ _ _ _ E).

(** [process_file_real_run] begins with the summary block and goes on
    with the classification block and the analysis block: what one of
    them raises, it raises. *)
Lemma real_run_raises_in_classification (path rel_name base_name code : string)
    (output_dir log_dir : string) (model : option string) (flags : Flags.t)
    (summary_text : string) (rl : RunLogger.t) (e : pyexc) (w w0 wf : world) :
  summary_block path rel_name base_name code output_dir log_dir model flags w
  = (Ok (summary_text, rl), w0) ->
  classification_block rel_name base_name code output_dir model flags rl w0
  = (Raise e, wf) ->
  process_file_real_run path rel_name base_name code output_dir log_dir model
    flags w
  = (Raise e, wf).
Proof.
  unfold summary_block, process_file_real_run. intros Hs Hc.
  do 7 same_step Hs. cbv zeta in Hs |- *. same_step Hs.
  unfold ret in Hs. injection Hs as <- <- <-.
  now apply bind_raised.
Qed.

Lemma real_run_raises_in_analysis (path rel_name base_name code : string)
    (output_dir log_dir : string) (model : option string) (flags : Flags.t)
    (summary_text : string) (rl rl' : RunLogger.t) (classification : dict)
    (e : pyexc) (w w0 w0' wf : world) :
  summary_block path rel_name base_name code output_dir log_dir model flags w
  = (Ok (summary_text, rl), w0) ->
  classification_block rel_name base_name code output_dir model flags rl w0
  = (Ok (classification, rl'), w0') ->
  analysis_block rel_name base_name code output_dir model flags rl' w0'
  = (Raise e, wf) ->
  process_file_real_run path rel_name base_name code output_dir log_dir model
    flags w
  = (Raise e, wf).
Proof.
  unfold summary_block, process_file_real_run. intros Hs Hc Ha.
  do 7 same_step Hs. cbv zeta in Hs |- *. same_step Hs.
  unfold ret in Hs. injection Hs as <- <- <-.
  rewrite (bind_after _ _ _ _ _ Hc). cbv beta iota.
  now apply bind_raised.
Qed.

(** A stage that raises where [process_file] calls it makes
    [process_file] raise. *)
Lemma process_file_raises (s : structured_stage)
    (path code output_dir log_dir : string)
    (model : option string) (flags : Flags.t) (e : pyexc) (w w1 w2 : world) :
  reaches_stage s path code output_dir log_dir model flags w w1 ->
  stage_step s code model w1 = (Raise e, w2) ->
  process_file path output_dir log_dir model flags false w = (Raise e, w2).
Proof.
  intros [Hread [Hf [summary_text [rl [w0 [rl' [w0' [Hs [Hc ->]]]]]]]]] H.
  pose proof (stage_block_raises s (path_name path) (path_stem path) code
                output_dir model flags rl' e w0' w2 Hf H) as Hb.
  unfold process_file, bind at 1, read_text. rewrite Hread. cbv zeta.
  destruct s; cbn [stage_block] in Hb.
  - destruct Hc as [-> ->].
    eapply real_run_raises_in_classification; eassumption.
  - destruct Hc as [classification Hc].
    eapply real_run_raises_in_analysis; eassumption.
Qed.

(** A file whose processing raises adds nothing to the results, and the
    loop goes on with the next file. *)
Lemma process_files_skips (path : string) (rest : list string)
    (output_dir log_dir : string) (model : option string) (flags : Flags.t)
    (dry_run : bool) (results : list FileResult.t) (e : pyexc) (w w' : world) :
  process_file path output_dir log_dir model flags dry_run
    (snd (print (processing_line path) w)) = (Raise e, w') ->
  process_files (path :: rest) output_dir log_dir model flags dry_run results w
  = process_files rest output_dir log_dir model flags dry_run results
      (snd (print_err (failed_line path e) w')).
Proof.
  intros H. cbn [process_files]. unfold bind at 1.
  change (print ("[INFO] === Processing " +++ path +++ " ===") w)
    with (Ok tt, snd (print (processing_line path) w)).
  cbv iota beta. unfold bind at 1, try_. rewrite H. cbv iota beta.
  reflexivity.
Qed.

Lemma process_files_keeps (path : string) (rest : list string)
    (output_dir log_dir : string) (model : option string) (flags : Flags.t)
    (dry_run : bool) (results : list FileResult.t) (fr : FileResult.t)
    (w w' : world) :
  process_file path output_dir log_dir model flags dry_run
    (snd (print (processing_line path) w)) = (Ok fr, w') ->
  process_files (path :: rest) output_dir log_dir model flags dry_run results w
  = process_files rest output_dir log_dir model flags dry_run (results ++ [fr]) w'.
Proof.
  intros H. cbn [process_files]. unfold bind at 1.
  change (print ("[INFO] === Processing " +++ path +++ " ===") w)
    with (Ok tt, snd (print (processing_line path) w)).
  cbv iota beta. unfold bind at 1, try_. rewrite H. cbv iota beta.
  reflexivity.
Qed.

End FileFailure.

(** C5: when the reply of a structured stage and the reply to its one
    correction request both fail to parse, the stage raises an error
    whose message carries the two parse errors and the two raw texts,
    whatever the stage and wherever it is invoked.  When that happens to
    the classification or to the analysis of a file, at the world where
    [process_file] calls the stage, the error leaves [process_file], the
    loop of [main] catches it, prints it and goes on with the next file
    from the results it had, so the file is not among the results, and
    [scanned_files] is the number of results. *)
Theorem C5_double_parse_failure_skips_file {L : PyLib} {O : Outside}
    (s : structured_stage) (path code : string) (rest : list string)
    (output_dir log_dir : string)
    (model : option string) (flags : Flags.t) (results : list FileResult.t)
    (reply fixed_reply exc exc2 : string) (w w1 : world) :
  reaches_stage s path code output_dir log_dir model flags
    (snd (print (processing_line path) w)) w1 ->
  decode_fails_twice (stage_name s) (stage_build s) (stage_template s) code
    model w1 reply fixed_reply exc exc2 ->
  stage_fails_after_two_decode_errors
  /\ skipped_after_double_failure s path code rest output_dir log_dir model flags
       results reply fixed_reply exc exc2 w w1.
Proof.
  intros Hreach Hfail. split.
  { unfold stage_fails_after_two_decode_errors. cbv zeta. intros.
    split; [now apply structured_step_fails_twice |].
    apply still_invalid_carries. }
  assert (Hstage : stage_step s code model w1
                   = (Raise (ValueError
                               (still_invalid (stage_name s) exc exc2
                                  (PyStr.strip (PyStr.strip reply))
                                  (PyStr.strip (PyStr.strip fixed_reply)))),
                      after w1 (double_failure_events (stage_name s)
                                  (stage_build s) (stage_template s) code model
                                  reply fixed_reply exc))).
  { clear Hreach.
    destruct s; cbn [stage_step stage_name stage_build stage_template] in *;
      [unfold run_classification_step | unfold run_analysis_step];
      now apply structured_step_fails_twice. }
  unfold skipped_after_double_failure. cbv zeta.
  split; [exact Hstage |].
  pose proof (process_file_raises s path code output_dir log_dir model flags _
                _ _ _ Hreach Hstage) as Hfile.
  split; [exact Hfile |].
  split; [now apply process_files_skips |].
  intros run_id now rs summary Hagg.
  pose proof (aggregate_results_cases run_id now rs) as Hc.
  rewrite Hagg in Hc. tauto.
Qed.

Lemma C5_double_parse_failure_skips_file_witness :
  (stage_fails_after_two_decode_errors (L := Demo.lib) (O := Demo.outside)
   /\ skipped_after_double_failure (L := Demo.lib) (O := Demo.outside)
        Classification "bad.sql" "bad select" ["good.sql"] "/var/output/r1"
        "/var/logs/r1" None Demo.flags [] "{oops" "{oops again"
        "Expecting value: line 1 column 1 (char 0)"
        "Expecting value: line 1 column 1 (char 0)" Demo.w0
        DemoMore.at_classification)
  /\ (stage_fails_after_two_decode_errors (L := Demo.lib)
        (O := DemoMore.bad_analysis)
      /\ skipped_after_double_failure (L := Demo.lib) (O := DemoMore.bad_analysis)
           Analysis "good.sql" "select 1 from dual" [] "/var/output/r1"
           "/var/logs/r1" None Demo.flags [] "{oops" "{oops again"
           "Expecting value: line 1 column 1 (char 0)"
           "Expecting value: line 1 column 1 (char 0)" Demo.w0
           DemoMore.at_analysis).
Proof.
  split.
  - apply (@C5_double_parse_failure_skips_file Demo.lib Demo.outside
             Classification "bad.sql" "bad select" ["good.sql"] "/var/output/r1"
             "/var/logs/r1" None Demo.flags [] "{oops" "{oops again"
             "Expecting value: line 1 column 1 (char 0)"
             "Expecting value: line 1 column 1 (char 0)" Demo.w0
             DemoMore.at_classification).
    + split; [reflexivity |]. split; [reflexivity |].
      eexists _, _, _, _, _. split; [vm_compute; reflexivity |].
      split; [split; reflexivity | vm_compute; reflexivity].
    + repeat split; vm_compute; reflexivity.
  - apply (@C5_double_parse_failure_skips_file Demo.lib DemoMore.bad_analysis
             Analysis "good.sql" "select 1 from dual" [] "/var/output/r1"
             "/var/logs/r1" None Demo.flags [] "{oops" "{oops again"
             "Expecting value: line 1 column 1 (char 0)"
             "Expecting value: line 1 column 1 (char 0)" Demo.w0
             DemoMore.at_analysis).
    + split; [reflexivity |]. split; [reflexivity |].
      eexists _, _, _, _, _. split; [vm_compute; reflexivity |].
      split; [eexists; vm_compute; reflexivity | vm_compute; reflexivity].
    + repeat split; vm_compute; reflexivity.
Defined.

(** On the example world the run goes on after the failed file: the
    results hold the second file alone. *)
Example demo_run_skips_bad_file :
  option_map (map FileResult.path)
    (match fst (process_files (L := Demo.lib) (O := Demo.outside)
                  ["bad.sql"; "good.sql"] "/var/output/r1" "/var/logs/r1"
                  None Demo.flags false [] Demo.w0) with
     | Ok results => Some results
     | Raise _ => None
     end)
  = Some ["good.sql"].
Proof. vm_compute. reflexivity. Qed.

(** ** The dry run *)

Lemma quietly_ret {A : Type} (P : event -> bool) (a : A) : quietly P (ret a).
Proof. intros w. split; [reflexivity |]. exists []. now rewrite app_nil_r. Qed.

Lemma quietly_emit (P : event -> bool) (e : event) :
  P e = true -> quietly P (emit e).
Proof.
  intros H w. split; [reflexivity |]. exists [e]. simpl. now rewrite H.
Qed.

Lemma quietly_read_text (P : event -> bool) (path : string) :
  P (EvRead path) = true -> quietly P (read_text path).
Proof.
  intros H w. unfold read_text.
  destruct (fs_lookup path (fs w)); (split; [reflexivity |]);
    exists [EvRead path]; simpl; now rewrite H.
Qed.

Lemma quietly_bind {A B : Type} (P : event -> bool) (c : M A) (k : A -> M B) :
  quietly P c -> (forall a, quietly P (k a)) -> quietly P (bind c k).
Proof.
  intros Hc Hk w. unfold bind. destruct (Hc w) as [Hfs [s1 [Ht Hp]]].
  destruct (c w) as [[a | e] w1]; simpl in *.
  - destruct (Hk a w1) as [Hfs' [s2 [Ht' Hp']]]. split; [congruence |].
    exists (s1 ++ s2). rewrite Ht', Ht, <- app_assoc. split; [reflexivity |].
    rewrite forallb_app, Hp, Hp'. reflexivity.
  - split; [assumption |]. now exists s1.
Qed.

Lemma quietly_try {A : Type} (P : event -> bool) (c : M A) :
  quietly P c -> quietly P (try_ c).
Proof.
  intros Hc w. unfold try_. destruct (Hc w) as [Hfs Ht].
  destruct (c w) as [r w1]. now split.
Qed.

Lemma returns_bind {A B : Type} (c : M A) (k : A -> M B) (b : B) :
  succeeds c -> (forall a, returns (k a) b) -> returns (bind c k) b.
Proof.
  intros Hc Hk w. destruct (Hc w) as [a [w' E]].
  destruct (Hk a w') as [w'' E']. exists w''. unfold bind. now rewrite E.
Qed.

Lemma returns_ret {A : Type} (a : A) : returns (ret a) a.
Proof. intros w. now exists w. Qed.

#[local] Hint Resolve quietly_ret quietly_emit quietly_read_text : io.

Section DryRun.

Context {L : PyLib} {O : Outside}.

Lemma quietly_dry_run_show (step system_prompt user_prompt : string) :
  quietly is_print_or_read (dry_run_show step system_prompt user_prompt).
Proof.
  unfold dry_run_show, print.
  repeat (apply quietly_bind; [now apply quietly_emit | intros ?]).
  now apply quietly_emit.
Qed.

Lemma succeeds_dry_run_show (step system_prompt user_prompt : string) :
  succeeds (dry_run_show step system_prompt user_prompt).
Proof.
  unfold dry_run_show.
  repeat (apply succeeds_bind; [auto with io | intros ?]). auto with io.
Qed.

Lemma quietly_when (b : bool) (c : M unit) :
  quietly is_print_or_read c -> quietly is_print_or_read (when b c).
Proof. intros H. destruct b; [assumption | apply quietly_ret]. Qed.

Lemma succeeds_when (b : bool) (c : M unit) :
  succeeds c -> succeeds (when b c).
Proof. intros H. destruct b; [assumption | apply succeeds_ret]. Qed.

(** The dry run of one file prints and returns the stub. *)
Lemma process_file_dry_run_quiet (path rel_name code : string)
    (model : option string) (flags : Flags.t) :
  quietly is_print_or_read (process_file_dry_run path rel_name code model flags)
  /\ returns (process_file_dry_run path rel_name code model flags)
       (dry_run_stub path).
Proof.
  unfold process_file_dry_run.
  destruct (build_summary_prompt code), (build_classification_prompt code),
    (build_analysis_prompt code), (build_refactor_prompt code).
  split.
  - repeat (apply quietly_bind;
            [first [ now apply quietly_emit
                   | apply quietly_dry_run_show
                   | apply quietly_when, quietly_dry_run_show ]
            | intros ?]).
    apply quietly_ret.
  - repeat (apply returns_bind;
            [first [ apply succeeds_print
                   | apply succeeds_dry_run_show
                   | apply succeeds_when, succeeds_dry_run_show ]
            | intros ?]).
    apply returns_ret.
Qed.

(** In a dry run [process_file] reads the file and prints: it sends no
    request and writes nothing; it returns the stub, or raises what
    reading raised. *)
Lemma process_file_dry (path output_dir log_dir : string)
    (model : option string) (flags : Flags.t) :
  quietly is_print_or_read
    (process_file path output_dir log_dir model flags true)
  /\ forall w fr,
       fst (process_file path output_dir log_dir model flags true w) = Ok fr ->
       fr = dry_run_stub path.
Proof.
  unfold process_file. split.
  - apply quietly_bind; [now apply quietly_read_text | intros code].
    apply process_file_dry_run_quiet.
  - intros w fr. unfold bind.
    destruct (read_text path w) as [[code | e] w1]; simpl; [| discriminate].
    destruct (proj2 (process_file_dry_run_quiet path (path_name path) code
                       model flags) w1) as [w2 ->].
    simpl. congruence.
Qed.

Lemma process_files_dry (files : list string) (output_dir log_dir : string)
    (model : option string) (flags : Flags.t) (results : list FileResult.t)
    (w : world) :
  Forall no_issues results ->
  exists results' w',
    process_files files output_dir log_dir model flags true results w
    = (Ok results', w')
    /\ Forall no_issues results'
    /\ fs w' = fs w
    /\ exists suffix, trace w' = trace w ++ suffix
                      /\ forallb is_print_or_read suffix = true.
Proof.
  revert results w. induction files as [| path rest IH]; intros results w Hres.
  - exists results, w. repeat split; try assumption.
    exists []. now rewrite app_nil_r.
  - destruct (process_file_dry path output_dir log_dir model flags) as [Hq Hstub].
    set (w1 := snd (print (processing_line path) w)).
    destruct (Hq w1) as [Hfs [s1 [Ht Hp]]].
    destruct (process_file path output_dir log_dir model flags true w1)
      as [[fr | e] w2] eqn:E; simpl in Hfs, Ht.
    + rewrite (process_files_keeps _ _ _ _ _ _ _ _ _ _ _ E).
      assert (Hfr : fr = dry_run_stub path) by (apply (Hstub w1); now rewrite E).
      destruct (IH (results ++ [fr]) w2) as [rs [w3 [E3 [Hn [Hfs3 [s3 [Ht3 Hp3]]]]]]].
      { apply Forall_app. split; [assumption |]. subst fr. now repeat constructor. }
      exists rs, w3. repeat split; try assumption; [congruence |].
      exists ((EvPrint (processing_line path) :: s1) ++ s3).
      rewrite Ht3, Ht. unfold w1. simpl. rewrite <- !app_assoc. simpl.
      split; [reflexivity |]. rewrite forallb_app, Hp, Hp3. reflexivity.
    + rewrite (process_files_skips _ _ _ _ _ _ _ _ _ _ _ E).
      destruct (IH results (snd (print_err (failed_line path e) w2)))
        as [rs [w3 [E3 [Hn [Hfs3 [s3 [Ht3 Hp3]]]]]]]; [assumption |].
      exists rs, w3. repeat split; try assumption.
      * rewrite Hfs3. simpl. congruence.
      * exists ((EvPrint (processing_line path) :: s1)
                ++ EvPrintErr (failed_line path e) :: s3).
        rewrite Ht3. simpl. rewrite Ht. unfold w1. simpl.
        rewrite <- !app_assoc. simpl.
        split; [reflexivity |]. rewrite forallb_app. simpl.
        rewrite Hp, Hp3. reflexivity.
Qed.

End DryRun.

Lemma llm_requests_app (a b : list event) :
  llm_requests (a ++ b) = llm_requests a ++ llm_requests b.
Proof. apply flat_map_app. Qed.

Lemma llm_requests_quiet (s : list event) :
  forallb is_print_or_read s = true -> llm_requests s = [].
Proof.
  induction s as [| e t IH]; simpl; [reflexivity |].
  intros H. apply andb_true_iff in H. destruct H as [He Ht].
  destruct e; try discriminate; simpl; auto.
Qed.

Lemma aggregate_results_no_issues (run_id now : string) (frs : list FileResult.t) :
  Forall no_issues frs -> exists s, aggregate_results run_id now frs = Ok s.
Proof.
  intros H. pose proof (aggregate_results_cases run_id now frs) as Hc.
  destruct (aggregate_results run_id now frs) as [s | e]; [eauto |].
  destruct Hc as [fr [issue [Hfr [Hin _]]]].
  rewrite Forall_forall in H. rewrite (H fr Hfr) in Hin. destruct Hin.
Qed.

(** C2: in a dry run [process_file] reads and prints only (see
    [process_file_dry]), and the run sends no request to the service;
    but once the files are processed [main] writes the run summary all
    the same: whenever the root exists and a file is found, the history
    of a dry run holds the write of [summary.json] under the run's output
    directory, and the file is on disk afterwards. *)
Theorem C2_dry_run_writes_run_summary {L : PyLib} {O : Outside}
    (args : Args.t) (w : world) :
  Args.dry_run args = true ->
  path_exists (path_resolve (Args.path args)) = true ->
  sorted_glob_files (path_resolve (Args.path args)) (Args.glob args) <> [] ->
  exists run_id summary suffix,
    let target :=
      path_join (path_join (path_resolve (Args.output_dir args)) run_id)
        "summary.json" in
    trace (snd (main args w)) = trace w ++ suffix
    /\ In (EvWrite target (json_dumps (summary_to_py summary))) suffix
    /\ fs_lookup target (fs (snd (main args w))) <> None
    /\ llm_requests suffix = [].
Proof.
  intros Hdry Hroot Hfiles.
  destruct (main args w) as [status wf] eqn:Emain. cbn [snd].
  unfold main in Emain. rewrite Hroot, Hdry in Emain. cbn [negb] in Emain.
  destruct (sorted_glob_files _ _) as [| file files] eqn:Eglob; [congruence |].
  clear Hfiles.
  assert (Hrun : exists run_id w0 s0,
             (match nonempty (Args.run_id args) with
              | Some r => ret r
              | None => now_compact
              end) w = (Ok run_id, w0)
             /\ fs w0 = fs w /\ trace w0 = trace w ++ s0 /\ llm_requests s0 = []).
  { destruct (nonempty (Args.run_id args)) as [r |].
    - exists r, w, []. rewrite app_nil_r. now repeat split.
    - eexists. eexists. exists [EvClock]. repeat split. }
  destruct Hrun as [run_id [w0 [s0 [Erun [Hfs0 [Ht0 Hq0]]]]]].
  unfold bind at 1 in Emain. rewrite Erun in Emain. cbv beta iota in Emain.
  unfold bind at 1, print at 1, emit at 1 in Emain. cbv beta iota in Emain.
  match type of Emain with
  | context [bind (process_files ?fl ?o ?l ?m ?f true []) _ ?w1] =>
      destruct (process_files_dry fl o l m f [] w1 (Forall_nil _))
        as [results [w2 [Epf [Hni [Hfs2 [s2 [Ht2 Hq2]]]]]]]
  end.
  unfold bind at 1 in Emain. rewrite Epf in Emain. cbv beta iota in Emain.
  destruct (aggregate_results_no_issues run_id (utcnow_iso (trace w2) +++ "Z")
              results Hni) as [summary Eagg].
  unfold bind at 1, aggregate_results_now in Emain. rewrite Eagg in Emain.
  cbv beta iota in Emain.
  unfold bind at 1, write_summary_json, bind at 1, mkdir, emit at 1 in Emain.
  cbv beta iota in Emain. cbn [fs trace] in Emain.
  unfold bind at 1, write_text at 1 in Emain. cbv beta iota in Emain.
  cbn [fs trace] in Emain.
  unfold ret at 1 in Emain. cbv beta iota in Emain.
  cbn [fs trace] in Ht2, Hfs2. rewrite Ht0 in Ht2.
  exists run_id, summary.
  unfold bind at 1, write_summary_md, bind at 1, lift in Emain.
  destruct (summary_md_text summary) as [text | e]; cbv beta iota in Emain.
  - unfold bind at 1, mkdir, emit at 1 in Emain. cbv beta iota in Emain.
    unfold bind at 1, write_text at 1 in Emain. cbv beta iota in Emain.
    unfold ret at 1, bind at 1, print, emit at 1 in Emain.
    cbv beta iota in Emain. unfold ret in Emain. cbn [fs trace] in Emain.
    inversion Emain; subst status wf; clear Emain. cbn [fs trace].
    rewrite Ht2. eexists. split; [rewrite <- !app_assoc; reflexivity |].
    split; [| split].
    + apply in_or_app. right. apply in_or_app. right. apply in_or_app. right.
      simpl. auto.
    + unfold fs_lookup. simpl. rewrite String.eqb_refl.
      destruct (_ =? _)%string; discriminate.
    + rewrite !llm_requests_app, Hq0, (llm_requests_quiet _ Hq2). reflexivity.
  - inversion Emain; subst status wf; clear Emain. cbn [fs trace].
    rewrite Ht2. eexists. split; [rewrite <- !app_assoc; reflexivity |].
    split; [| split].
    + apply in_or_app. right. apply in_or_app. right. apply in_or_app. right.
      simpl. auto.
    + unfold fs_lookup. simpl. rewrite String.eqb_refl. discriminate.
    + rewrite !llm_requests_app, Hq0, (llm_requests_quiet _ Hq2). reflexivity.
Qed.

Lemma C2_dry_run_writes_run_summary_witness :
  exists run_id summary suffix,
    let target := path_join (path_join "/var/output" run_id) "summary.json" in
    trace (snd (main (L := Demo.lib) (O := Demo.outside) (Demo.args true) Demo.w0))
    = trace Demo.w0 ++ suffix
    /\ In (EvWrite target (json_dumps (PyLib := Demo.lib) (summary_to_py summary)))
         suffix
    /\ fs_lookup target
         (fs (snd (main (L := Demo.lib) (O := Demo.outside) (Demo.args true) Demo.w0)))
       <> None
    /\ llm_requests suffix = [].
Proof.
  apply (@C2_dry_run_writes_run_summary Demo.lib Demo.outside (Demo.args true)
           Demo.w0); [reflexivity | reflexivity | discriminate].
Defined.

(** The dry run of the example world: no request is sent, and the two
    run-level summary files are written. *)
Example demo_dry_run_writes :
  let w := snd (main (L := Demo.lib) (O := Demo.outside) (Demo.args true) Demo.w0) in
  written_paths (trace w) = ["/var/output/r1/summary.json"; "/var/output/r1/summary.md"]
  /\ llm_requests (trace w) = [].
Proof. vm_compute. split; reflexivity. Qed.

(** * Further properties of the pipeline *)

(** ** Stripping *)

Lemma lstrip_fixed (s : string) :
  match s with
  | EmptyString => True
  | String c _ => PyStr.isspace c = false
  end ->
  PyStr.lstrip s = s.
Proof.
  destruct s as [| c t]; simpl; [reflexivity |]. now intros ->.
Qed.

Lemma rstrip_head (c : ascii) (t : string) :
  PyStr.isspace c = false ->
  exists t', PyStr.rstrip (String c t) = String c t'.
Proof.
  intros H. simpl. destruct (PyStr.rstrip t); rewrite ?H; eauto.
Qed.

Lemma rstrip_idempotent (s : string) :
  PyStr.rstrip (PyStr.rstrip s) = PyStr.rstrip s.
Proof.
  induction s as [| c t IH]; [reflexivity |].
  simpl. destruct (PyStr.rstrip t) as [| c' t'] eqn:E.
  - destruct (PyStr.isspace c) eqn:S; simpl; [reflexivity |]. now rewrite S.
  - cbn [PyStr.rstrip]. fold PyStr.rstrip. cbn [PyStr.rstrip] in IH.
    fold PyStr.rstrip in IH. rewrite <- E, IH, E. reflexivity.
Qed.

Lemma lstrip_head (s : string) :
  match PyStr.lstrip s with
  | EmptyString => True
  | String c _ => PyStr.isspace c = false
  end.
Proof.
  induction s as [| c t IH]; simpl; [exact I |].
  destruct (PyStr.isspace c) eqn:S; [exact IH | exact S].
Qed.

Lemma strip_idempotent (s : string) :
  PyStr.strip (PyStr.strip s) = PyStr.strip s.
Proof.
  unfold PyStr.strip. pose proof (lstrip_head s) as H.
  destruct (PyStr.lstrip s) as [| c t]; [reflexivity |].
  destruct (rstrip_head c t H) as [t' E]. rewrite E.
  rewrite lstrip_fixed by exact H. rewrite <- E. apply rstrip_idempotent.
Qed.

(** ** The validator of the analysis *)

Lemma is_list_of_str_iff (v : pyval) :
  is_list_of_str v = true
  <-> exists l, v = PList l /\ Forall (fun e => Py.is_str e = true) l.
Proof.
  destruct v; simpl;
    try (split; [discriminate | intros [l0 [H _]]; discriminate]).
  rewrite forallb_forall, <- Forall_forall. split.
  - intros H. now exists l.
  - intros [l0 [H Hf]]. inversion H. now subst.
Qed.

Lemma validate_analysis_dict (data : dict) (code : string) :
  validate_analysis (PDict data) code = Ok tt
  <-> (exists s, Py.lookup "summary" data = Some (PStr s))
      /\ (exists l, Py.lookup "risks" data = Some (PList l)
                    /\ Forall (fun e => Py.is_str e = true) l)
      /\ (exists l, Py.lookup "assumptions" data = Some (PList l)
                    /\ Forall (fun e => Py.is_str e = true) l).
Proof.
  unfold validate_analysis. cbn [_ensure_keys py_contains py_getitem rbind].
  destruct (Py.lookup "summary" data) as [vs |]; cbn [rbind].
  2: { split; [discriminate | intros [[s H] _]; discriminate]. }
  destruct (Py.lookup "risks" data) as [vr |]; cbn [rbind].
  2: { split; [discriminate | intros [_ [[l [H _]] _]]; discriminate]. }
  destruct (Py.lookup "assumptions" data) as [va |]; cbn [rbind].
  2: { split; [discriminate | intros [_ [_ [l [H _]]]]; discriminate]. }
  pose proof (is_list_of_str_iff vr) as Hr.
  pose proof (is_list_of_str_iff va) as Ha.
  destruct vs; cbn [Py.is_str negb];
    try (split; [discriminate | intros [[s0 H] _]; discriminate]).
  destruct (is_list_of_str vr); cbn [negb].
  2: { split; [discriminate |]. intros [_ [[l [H Hf]] _]].
       inversion H; subst. assert (false = true); [| discriminate].
       apply Hr. eauto. }
  destruct (is_list_of_str va); cbn [negb].
  2: { split; [discriminate |]. intros [_ [_ [l [H Hf]]]].
       inversion H; subst. assert (false = true); [| discriminate].
       apply Ha. eauto. }
  split; [intros _ | reflexivity].
  destruct (proj1 Hr eq_refl) as [lr [-> Hlr]].
  destruct (proj1 Ha eq_refl) as [la [-> Hla]].
  repeat split; eauto.
Qed.

(** X1: a dictionary is accepted by [validate_analysis] if and only if
    its summary is a string and its risks and its assumptions are lists
    of strings; further keys are not looked at. *)
Theorem X1_validate_analysis_accepts_iff (data : dict) (code : string) :
  validate_analysis (PDict data) code = Ok tt
  <-> (exists s, Py.lookup "summary" data = Some (PStr s))
      /\ (exists l, Py.lookup "risks" data = Some (PList l)
                    /\ Forall (fun e => Py.is_str e = true) l)
      /\ (exists l, Py.lookup "assumptions" data = Some (PList l)
                    /\ Forall (fun e => Py.is_str e = true) l).
Proof.
  pose proof (validate_analysis_dict data code) as H.
  split; intros Hv; now apply H.
Qed.

Lemma validate_analysis_is_dict (data : pyval) (code : string) :
  validate_analysis data code = Ok tt -> is_dict data = true.
Proof.
  unfold validate_analysis. intros H.
  destruct data; try reflexivity; exfalso;
    destruct (_ensure_keys _ _ _) as [[] |]; cbn [rbind] in H; try discriminate;
    cbn [py_getitem rbind] in H; discriminate.
Qed.

(** X2: neither validator accepts a value that is no dictionary: a list,
    a string, a number, a boolean or null is rejected. *)
Theorem X2_validators_reject_non_dict {L : PyLib} (data : pyval) (code : string) :
  is_dict data = false ->
  validate_classification data code <> Ok tt
  /\ validate_analysis data code <> Ok tt.
Proof.
  intros H. split; intros Hv.
  - apply validate_classification_is_dict in Hv. congruence.
  - apply validate_analysis_is_dict in Hv. congruence.
Qed.

Lemma X2_validators_reject_non_dict_witness :
  validate_classification (L := Demo.lib)
    (PList (map PStr required_categories)) "" <> Ok tt
  /\ validate_analysis (PList (map PStr required_categories)) "" <> Ok tt.
Proof.
  apply (@X2_validators_reject_non_dict Demo.lib). reflexivity.
Defined.

(** ** The stages *)

Section StageOutcomes.

Context {L : PyLib} {O : Outside}.

Lemma stage_step_unfold (s : structured_stage) :
  stage_step s
  = run_structured_step (stage_name s) (stage_build s) (stage_template s)
      (stage_validate s).
Proof. destruct s; reflexivity. Qed.

Lemma structured_step_parses_at_once (stage : string)
    (build : string -> string * string) (template : string)
    (validate : pyval -> string -> result unit)
    (code : string) (model : option string) (w : world)
    (reply : string) (data : pyval) :
  llm_reply (trace w) (model_name model) (fst (build code)) (snd (build code))
  = Ok reply ->
  json_loads (PyStr.strip (PyStr.strip reply)) = Ok data ->
  run_structured_step stage build template validate code model w
  = (verdict validate data code,
     after w [ EvLLM (model_name model) (fst (build code)) (snd (build code));
               EvParse (PyStr.strip (PyStr.strip reply)) ]).
Proof.
  intros H1 H2. unfold run_structured_step, verdict, after.
  destruct (build code) as [system_prompt user_prompt]. cbn [fst snd] in *.
  io_norm. rewrite model_name_eq, H1. io_norm. rewrite H2. io_norm.
  destruct (validate data code); rewrite <- app_assoc; reflexivity.
Qed.

Lemma structured_step_parses_after_correction (stage : string)
    (build : string -> string * string) (template : string)
    (validate : pyval -> string -> result unit)
    (code : string) (model : option string) (w : world)
    (reply fixed_reply exc : string) (data : pyval) :
  let raw := PyStr.strip (PyStr.strip reply) in
  let fixed_raw := PyStr.strip (PyStr.strip fixed_reply) in
  let request := EvLLM (model_name model) (fst (build code)) (snd (build code)) in
  let warning :=
    EvPrint ("[WARN] " +++ stage +++ " JSON malformed, attempting correction: "
             +++ exc) in
  let correction :=
    EvLLM (model_name model) (fst (build_json_correction_prompt raw template))
      (snd (build_json_correction_prompt raw template)) in
  llm_reply (trace w) (model_name model) (fst (build code)) (snd (build code))
  = Ok reply ->
  json_loads raw = Raise (JSONDecodeError exc) ->
  llm_reply (trace w ++ [request; EvParse raw; warning]) (model_name model)
    (fst (build_json_correction_prompt raw template))
    (snd (build_json_correction_prompt raw template)) = Ok fixed_reply ->
  json_loads fixed_raw = Ok data ->
  run_structured_step stage build template validate code model w
  = (verdict validate data code,
     after w [request; EvParse raw; warning; correction; EvParse fixed_raw]).
Proof.
  cbv zeta. intros H1 H2 H3 H4. unfold run_structured_step, verdict, after.
  destruct (build code) as [system_prompt user_prompt]. cbn [fst snd] in *.
  io_norm. rewrite model_name_eq, H1. io_norm. rewrite H2. io_norm.
  destruct (build_json_correction_prompt _ template) as [cs cu].
  cbn [fst snd] in *. io_norm.
  rewrite <- !app_assoc. cbn [app]. rewrite H3. io_norm. rewrite H4. io_norm.
  destruct (validate data code); rewrite <- !app_assoc; reflexivity.
Qed.

Lemma structured_step_validated (stage : string)
    (build : string -> string * string) (template : string)
    (validate : pyval -> string -> result unit)
    (code : string) (model : option string) :
  ensures (run_structured_step stage build template validate code model)
    (fun data => validate data code = Ok tt).
Proof.
  intros w data w'. unfold run_structured_step.
  destruct (build code) as [system_prompt user_prompt].
  io_norm. rewrite model_name_eq.
  assert (Hv : forall (p : pyval) (w0 : world),
             match validate p code with
             | Ok _ => (Ok p, w0)
             | Raise e => (Raise e, w0)
             end = (Ok data, w') -> validate data code = Ok tt).
  { intros p w0. destruct (validate p code) as [[] |] eqn:E; intros [= <- <-];
      assumption. }
  case_llm; [| discriminate].
  case_loads; try discriminate; [apply Hv |].
  case_correction. case_llm; [| discriminate].
  case_loads; try discriminate. apply Hv.
Qed.

End StageOutcomes.

(** X3: when the first reply of a structured stage parses, the stage
    sends no correction request: it returns the parsed value if the
    validator accepts it and raises what the validator raises if not, a
    schema violation being never sent back for repair; the history holds
    the one request and the one parse. *)
Theorem X3_schema_violation_is_not_corrected {L : PyLib} {O : Outside}
    (s : structured_stage) (code : string) (model : option string) (w : world)
    (reply : string) (data : pyval) :
  llm_reply (trace w) (model_name model) (fst (stage_build s code))
    (snd (stage_build s code)) = Ok reply ->
  json_loads (PyStr.strip (PyStr.strip reply)) = Ok data ->
  stage_step s code model w
  = (verdict (stage_validate s) data code,
     after w [ EvLLM (model_name model) (fst (stage_build s code))
                 (snd (stage_build s code));
               EvParse (PyStr.strip (PyStr.strip reply)) ]).
Proof.
  intros H1 H2. rewrite stage_step_unfold.
  now apply structured_step_parses_at_once.
Qed.

Lemma X3_schema_violation_is_not_corrected_witness :
  stage_step (L := Demo.lib) (O := Demo.outside) Analysis "select 1" None Demo.w0
  = (verdict (stage_validate (L := Demo.lib) Analysis)
       (PDict Demo.analysis_reply) "select 1",
     after Demo.w0 [ EvLLM "gpt-4.1-mini" "analyze" "select 1"; EvParse "ANA" ]).
Proof.
  apply (@X3_schema_violation_is_not_corrected Demo.lib Demo.outside Analysis
           "select 1" None Demo.w0 "ANA" (PDict Demo.analysis_reply));
    reflexivity.
Defined.

(** X4: when the first reply of a structured stage does not parse and
    the reply to the correction request does, the corrected value goes
    to the same validator: the stage returns it if accepted and raises
    the validator's error if not, after two requests, two parses and one
    warning. *)
Theorem X4_corrected_reply_is_validated {L : PyLib} {O : Outside}
    (s : structured_stage) (code : string) (model : option string) (w : world)
    (reply fixed_reply exc : string) (data : pyval) :
  let raw := PyStr.strip (PyStr.strip reply) in
  let fixed_raw := PyStr.strip (PyStr.strip fixed_reply) in
  let request :=
    EvLLM (model_name model) (fst (stage_build s code)) (snd (stage_build s code)) in
  let correction :=
    EvLLM (model_name model)
      (fst (build_json_correction_prompt raw (stage_template s)))
      (snd (build_json_correction_prompt raw (stage_template s))) in
  llm_reply (trace w) (model_name model) (fst (stage_build s code))
    (snd (stage_build s code)) = Ok reply ->
  json_loads raw = Raise (JSONDecodeError exc) ->
  llm_reply (trace w ++ [request; EvParse raw; EvPrint (warn_line s exc)])
    (model_name model)
    (fst (build_json_correction_prompt raw (stage_template s)))
    (snd (build_json_correction_prompt raw (stage_template s))) = Ok fixed_reply ->
  json_loads fixed_raw = Ok data ->
  stage_step s code model w
  = (verdict (stage_validate s) data code,
     after w [ request; EvParse raw; EvPrint (warn_line s exc); correction;
               EvParse fixed_raw ]).
Proof.
  cbv zeta. intros H1 H2 H3 H4. rewrite stage_step_unfold.
  now apply structured_step_parses_after_correction.
Qed.

(** X5: a value a structured stage returns has passed the stage's
    validator, and is a dictionary. *)
Theorem X5_stage_result_is_validated {L : PyLib} {O : Outside}
    (s : structured_stage) (code : string) (model : option string)
    (w : world) (data : pyval) :
  fst (stage_step s code model w) = Ok data ->
  stage_validate s data code = Ok tt /\ is_dict data = true.
Proof.
  intros H. rewrite stage_step_unfold in H.
  destruct (run_structured_step _ _ _ _ code model w) as [r w'] eqn:E.
  simpl in H. subst r.
  pose proof (structured_step_validated _ _ _ _ _ _ _ _ _ E) as Hv.
  split; [exact Hv |].
  destruct s; simpl in Hv.
  - now apply validate_classification_is_dict in Hv.
  - now apply validate_analysis_is_dict in Hv.
Qed.

Lemma X5_stage_result_is_validated_witness :
  stage_validate (L := Demo.lib) Classification (PDict Demo.classification_reply)
    "select 1" = Ok tt
  /\ is_dict (PDict Demo.classification_reply) = true.
Proof.
  apply (@X5_stage_result_is_validated Demo.lib Demo.outside Classification
           "select 1" None Demo.w0). reflexivity.
Defined.

Lemma X4_corrected_reply_is_validated_witness :
  stage_step (L := Demo.lib) (O := DemoMore.repairing) Classification "select 1"
    None Demo.w0
  = (verdict (stage_validate (L := Demo.lib) Classification)
       (PDict Demo.classification_reply) "select 1",
     after Demo.w0
       [ EvLLM "gpt-4.1-mini" "classify" "select 1";
         EvParse "{oops";
         EvPrint (warn_line Classification "Expecting value: line 1 column 1 (char 0)");
         EvLLM "gpt-4.1-mini"
           (fst (build_json_correction_prompt "{oops" CLASSIFICATION_JSON_TEMPLATE))
           (snd (build_json_correction_prompt "{oops" CLASSIFICATION_JSON_TEMPLATE));
         EvParse "CLS" ]).
Proof.
  apply (@X4_corrected_reply_is_validated Demo.lib DemoMore.repairing
           Classification "select 1" None Demo.w0 "{oops" "CLS"
           "Expecting value: line 1 column 1 (char 0)"
           (PDict Demo.classification_reply)); vm_compute; reflexivity.
Defined.

Lemma strip_empty_iff (s : string) :
  ((PyStr.strip s =? "") || (PyStr.strip (PyStr.strip s) =? ""))%string
  = (PyStr.strip s =? "")%string.
Proof.
  rewrite strip_idempotent. apply orb_diag.
Qed.

(** X6: [run_summary_step] sends one request and nothing else; it
    raises the service's error if the service raised, raises the error
    Summary is empty. if the reply is empty once stripped, and else
    returns the stripped reply. *)
Theorem X6_summary_step_outcome {L : PyLib} {O : Outside}
    (code : string) (model : option string) (w : world) :
  let request :=
    EvLLM (model_name model) (fst (build_summary_prompt code))
      (snd (build_summary_prompt code)) in
  run_summary_step code model w
  = (free_text_outcome "Summary is empty."
       (llm_reply (trace w) (model_name model) (fst (build_summary_prompt code))
          (snd (build_summary_prompt code))),
     after w [request]).
Proof.
  cbv zeta. unfold run_summary_step, free_text_outcome, after.
  destruct (build_summary_prompt code) as [system_prompt user_prompt].
  cbn [fst snd]. io_norm. rewrite model_name_eq.
  destruct (llm_reply (trace w) (model_name model) system_prompt user_prompt)
    as [text | e]; io_norm; [| reflexivity].
  unfold validate_summary. rewrite strip_empty_iff, strip_idempotent.
  destruct (PyStr.strip text =? "")%string; reflexivity.
Qed.

(** X7: [run_refactor_step] sends one request and nothing else; it
    raises the service's error if the service raised, raises the error
    Refactor output is empty. if the reply is empty once stripped, and
    else returns the stripped reply, which is never empty. *)
Theorem X7_refactor_step_outcome {L : PyLib} {O : Outside}
    (code : string) (model : option string) (w : world) :
  let request :=
    EvLLM (model_name model) (fst (build_refactor_prompt code))
      (snd (build_refactor_prompt code)) in
  run_refactor_step code model w
  = (free_text_outcome "Refactor output is empty."
       (llm_reply (trace w) (model_name model) (fst (build_refactor_prompt code))
          (snd (build_refactor_prompt code))),
     after w [request])
  /\ fst (run_refactor_step code model w) <> Ok "".
Proof.
  cbv zeta.
  assert (E : run_refactor_step code model w
              = (free_text_outcome "Refactor output is empty."
                   (llm_reply (trace w) (model_name model)
                      (fst (build_refactor_prompt code))
                      (snd (build_refactor_prompt code))),
                 after w [EvLLM (model_name model)
                            (fst (build_refactor_prompt code))
                            (snd (build_refactor_prompt code))])).
  { unfold run_refactor_step, free_text_outcome, after.
    destruct (build_refactor_prompt code) as [system_prompt user_prompt].
    cbn [fst snd]. io_norm. rewrite model_name_eq.
    destruct (llm_reply (trace w) (model_name model) system_prompt user_prompt)
      as [text | e]; io_norm; [| reflexivity].
    rewrite strip_idempotent.
    destruct (PyStr.strip text =? "")%string; reflexivity. }
  split; [exact E |]. rewrite E. cbn [fst]. unfold free_text_outcome.
  destruct (llm_reply _ _ _ _) as [text |]; [| discriminate].
  destruct (String.eqb_spec (PyStr.strip text) ""); [discriminate |].
  congruence.
Qed.

(** ** The per-file aggregator, further *)

Lemma lookup_setdefault_present (k k' : string) (v v' : pyval) (d : dict) :
  Py.lookup k d = Some v -> Py.lookup k (Py.setdefault k' v' d) = Some v.
Proof.
  intros H. unfold Py.setdefault. destruct (Py.lookup k' d); [assumption |].
  now rewrite lookup_app, H.
Qed.

Lemma lookup_setdefault_absent (k : string) (v : pyval) (d : dict) :
  Py.lookup k d = None -> Py.lookup k (Py.setdefault k v d) = Some v.
Proof.
  intros H. unfold Py.setdefault. rewrite H, lookup_app, H. simpl.
  now rewrite String.eqb_refl.
Qed.

Lemma lower_empty_not_severity : ~ In (PyStr.lower "") severities.
Proof.
  simpl. intros [H | [H | [H | [H | []]]]]; discriminate.
Qed.

(** X8: a dictionary element leaves the flattening with all its fields
    but the severity as they were: a category and a code it states are
    kept, and are set to the key and to the key in upper case only when
    absent; the severity is one of the four, the stated one lowercased
    when that is one of them. *)
Theorem X8_flatten_keeps_issue_fields {L : PyLib} (category : string) (d d' : dict) :
  flatten_issue category (PDict d) = Ok d' ->
  (forall k v, k <> "severity" -> Py.lookup k d = Some v -> Py.lookup k d' = Some v)
  /\ (Py.lookup "category" d = None ->
      Py.lookup "category" d' = Some (PStr category))
  /\ (Py.lookup "code" d = None ->
      Py.lookup "code" d' = Some (PStr (PyStr.upper category)))
  /\ (exists sev, Py.lookup "severity" d' = Some (PStr sev) /\ In sev severities)
  /\ (forall s, Py.lookup "severity" d = Some (PStr s) ->
                In (PyStr.lower s) severities ->
                Py.lookup "severity" d' = Some (PStr (PyStr.lower s))).
Proof.
  intros H. pose proof (flatten_issue_severity _ _ _ H) as Hsev.
  unfold flatten_issue in H. cbv zeta in H.
  destruct (Py.lower _) as [sev |] eqn:E; cbn [rbind] in H; [| discriminate].
  inversion H; subst d'; clear H.
  split; [| split; [| split; [| split]]].
  - intros k v Hk Hl. apply lookup_setdefault_present.
    rewrite lookup_set_other by congruence.
    now apply lookup_setdefault_present.
  - intros Hl. apply lookup_setdefault_present.
    rewrite lookup_set_other by discriminate.
    now apply lookup_setdefault_absent.
  - intros Hl. apply lookup_setdefault_absent.
    rewrite lookup_set_other by discriminate.
    now rewrite lookup_setdefault_other by discriminate.
  - exact Hsev.
  - intros s Hs Hin. rewrite lookup_setdefault_other by discriminate.
    rewrite lookup_set_same. unfold Py.get, Py.get_default in E.
    rewrite lookup_setdefault_other in E by discriminate. rewrite Hs in E.
    unfold Py.or_ in E.
    assert (Ht : Py.truthy (PStr s) = true).
    { simpl. destruct (String.eqb_spec s ""); [| reflexivity].
      subst s. now destruct lower_empty_not_severity. }
    rewrite Ht in E. cbn [Py.lower] in E. inversion E; subst sev.
    apply mem_In in Hin. unfold PyStr.mem, severities in Hin.
    cbn [existsb] in Hin. now rewrite Hin.
Qed.

Lemma X8_flatten_keeps_issue_fields_witness :
  let d := [ ("severity", PStr "HIGH"); ("message", PStr "X");
             ("code", PStr "SQLI") ] in
  let d' := [ ("severity", PStr "high"); ("message", PStr "X");
              ("code", PStr "SQLI"); ("category", PStr "security") ] in
  (forall k v, k <> "severity" -> Py.lookup k d = Some v -> Py.lookup k d' = Some v)
  /\ (Py.lookup "category" d = None ->
      Py.lookup "category" d' = Some (PStr "security"))
  /\ (Py.lookup "code" d = None ->
      Py.lookup "code" d' = Some (PStr (PyStr.upper "security")))
  /\ (exists sev, Py.lookup "severity" d' = Some (PStr sev) /\ In sev severities)
  /\ (forall s, Py.lookup "severity" d = Some (PStr s) ->
                In (PyStr.lower s) severities ->
                Py.lookup "severity" d' = Some (PStr (PyStr.lower s))).
Proof.
  apply (@X8_flatten_keeps_issue_fields Demo.lib "security"). reflexivity.
Defined.

Section ValidatedData.

Context {L : PyLib}.

Lemma validated_inputs_are_strings (data : dict) (code : string) :
  validate_classification (PDict data) code = Ok tt ->
  Forall (fun p => Py.is_str (snd p) = true) (issue_inputs data).
Proof.
  intros H. apply validate_classification_dict in H. destruct H as [_ [_ H]].
  induction H as [| [key value] t Hv _ IH]; [constructor |].
  change ((key, value) :: t) with ([(key, value)] ++ t).
  rewrite issue_inputs_app. apply Forall_app. split; [| exact IH].
  unfold issue_inputs. simpl. rewrite app_nil_r.
  destruct value; try constructor.
  destruct Hv as [elements [Hi Hs]]. simpl in Hi. inversion Hi; subst.
  apply Forall_forall. intros [k v] Hin. apply in_map_iff in Hin.
  destruct Hin as [x [Hx Hin]]. inversion Hx; subst. simpl.
  rewrite Forall_forall in Hs. auto.
Qed.

Lemma flatten_strings (inputs : list (string * pyval)) :
  Forall (fun p => Py.is_str (snd p) = true) inputs ->
  map_result (fun p => flatten_issue (fst p) (snd p)) inputs
  = Ok (map (fun p => string_issue (fst p) (snd p)) inputs).
Proof.
  induction 1 as [| [category issue] t Hs _ IH]; [reflexivity |].
  cbn [map_result map fst snd]. simpl in Hs.
  rewrite flatten_string_issue by (destruct issue; try discriminate; reflexivity).
  cbn [rbind]. rewrite IH. reflexivity.
Qed.

Lemma score_string_issues (inputs : list (string * pyval)) (score : Z) :
  score_issues (map (fun p => string_issue (fst p) (snd p)) inputs) score
  = Ok (score + 10 * Z.of_nat (List.length inputs)).
Proof.
  revert score. induction inputs as [| p t IH]; intros score.
  - simpl. f_equal. lia.
  - cbn [map score_issues]. unfold string_issue at 1.
    cbn [Py.get_default Py.lookup String.eqb Ascii.eqb Bool.eqb severity_weights_get rbind].
    simpl (severity_weights_get _ _). cbn [rbind]. rewrite IH. f_equal.
    cbn [List.length]. lia.
Qed.

End ValidatedData.

(** X9: a classification the validator accepted flattens to one issue
    per element of its list values, each with severity medium, so that
    no issue of it passes the red-flag test of the aggregate. *)
Theorem X9_validated_issues_are_medium {L : PyLib} (data : dict) (code : string) :
  validate_classification (PDict data) code = Ok tt ->
  exists issues,
    _flatten_issues_from_classification data = Ok issues
    /\ issues = map (fun p => string_issue (fst p) (snd p)) (issue_inputs data)
    /\ Forall (fun d => Py.lookup "severity" d = Some (PStr "medium")
                        /\ is_red_issue d = false) issues.
Proof.
  intros H. apply validated_inputs_are_strings in H.
  eexists. split; [rewrite flatten_map; now apply flatten_strings |].
  split; [reflexivity |].
  apply Forall_forall. intros d Hin. apply in_map_iff in Hin.
  destruct Hin as [p [<- _]]. split; reflexivity.
Qed.

Lemma X9_validated_issues_are_medium_witness :
  exists issues,
    _flatten_issues_from_classification (L := Demo.lib) Demo.classification_reply
    = Ok issues
    /\ issues = map (fun p => string_issue (L := Demo.lib) (fst p) (snd p))
                    (issue_inputs Demo.classification_reply)
    /\ Forall (fun d => Py.lookup "severity" d = Some (PStr "medium")
                        /\ is_red_issue d = false) issues.
Proof.
  apply (@X9_validated_issues_are_medium Demo.lib Demo.classification_reply "").
  reflexivity.
Defined.

(** X10: for a classification the validator accepted, the risk score
    is ten times the number of elements of its list values plus five
    times the number of risks of the analysis, capped at 100. *)
Theorem X10_validated_risk_score {L : PyLib} (data analysis : dict) (code : string) :
  validate_classification (PDict data) code = Ok tt ->
  _compute_risk_score data analysis
  = Ok (Z.min 100 (10 * Z.of_nat (List.length (issue_inputs data))
                   + 5 * risk_count analysis)).
Proof.
  intros H. apply validated_inputs_are_strings in H.
  unfold _compute_risk_score. rewrite flatten_map, (flatten_strings _ H).
  cbn [rbind]. rewrite score_string_issues. cbn [rbind]. unfold risk_count.
  f_equal. destruct (Py.or_ _ _); lia.
Qed.

Lemma X10_validated_risk_score_witness :
  _compute_risk_score (L := Demo.lib) Demo.classification_reply Demo.analysis_reply
  = Ok (Z.min 100 (10 * Z.of_nat (List.length (issue_inputs Demo.classification_reply))
                   + 5 * risk_count Demo.analysis_reply)).
Proof.
  apply (@X10_validated_risk_score Demo.lib Demo.classification_reply
           Demo.analysis_reply ""). reflexivity.
Defined.

(** ** Checklist items and suggestions of one file *)

Lemma NoDup_snoc {A : Type} (l : list A) (x : A) :
  NoDup l -> ~ In x l -> NoDup (l ++ [x]).
Proof.
  intros Hl Hx. apply NoDup_app; [assumption | repeat constructor; intros [] |].
  intros z Hz [<- | []]. contradiction.
Qed.

Section Checklist.

Context {L : PyLib}.

Lemma risk_item_text_stripped (item : pyval) (text : string) :
  risk_item_text item = Ok text -> PyStr.strip text = text.
Proof.
  unfold risk_item_text. destruct item;
    try (intros [= <-]; apply strip_idempotent).
  destruct (Py.or_ _ _); simpl; try discriminate.
  intros [= <-]. apply strip_idempotent.
Qed.

Lemma uncertainty_item_text_stripped (item : pyval) (text : string) :
  uncertainty_item_text item = Ok text -> PyStr.strip text = text.
Proof.
  unfold uncertainty_item_text. destruct item;
    try (intros [= <-]; apply strip_idempotent).
  destruct (Py.or_ _ _); simpl; try discriminate.
  intros [= <-]. apply strip_idempotent.
Qed.

Lemma checklist_items_loop_adds (text_of : pyval -> result string)
    (label : string) (items : list pyval) (acc r : list string) :
  (forall item text, text_of item = Ok text -> PyStr.strip text = text) ->
  checklist_items_loop text_of label items acc = Ok r ->
  NoDup acc ->
  NoDup r /\ exists added, r = acc ++ added /\ Forall (labelled label) added.
Proof.
  intros Hstrip. revert acc.
  induction items as [| item t IH]; intros acc H Hnd.
  - inversion H; subst. split; [assumption |]. exists [].
    now rewrite app_nil_r.
  - cbn [checklist_items_loop] in H.
    destruct (text_of item) as [text |] eqn:E; cbn [rbind] in H; [| discriminate].
    destruct (String.eqb_spec text "") as [-> | Hne]; [now apply IH |].
    destruct (PyStr.mem (label +++ text) acc) eqn:M; [now apply IH |].
    apply mem_not_In in M.
    destruct (IH _ H (NoDup_snoc _ _ Hnd M)) as [Hr [added [-> Hadded]]].
    split; [assumption |]. exists ((label +++ text) :: added).
    rewrite <- app_assoc. split; [reflexivity |].
    constructor; [| assumption]. exists text. repeat split; eauto.
Qed.

Lemma checklist_buckets_adds (analysis : dict) (names : list string)
    (acc r : list string) :
  checklist_buckets analysis names acc = Ok r ->
  NoDup acc ->
  NoDup r /\ exists added, r = acc ++ added /\ Forall (labelled "Review: ") added.
Proof.
  revert acc. induction names as [| name t IH]; intros acc H Hnd.
  - inversion H; subst. split; [assumption |]. exists [].
    now rewrite app_nil_r.
  - cbn [checklist_buckets] in H.
    destruct (Py.or_ (Py.get name analysis) (PList [])); try (now apply IH).
    destruct (checklist_items_loop risk_item_text "Review: " l acc) as [acc' |]
      eqn:E; cbn [rbind] in H; [| discriminate].
    destruct (checklist_items_loop_adds _ _ _ _ _ risk_item_text_stripped E Hnd)
      as [Hnd' [a1 [-> Ha1]]].
    destruct (IH _ H Hnd') as [Hr [a2 [-> Ha2]]].
    split; [assumption |]. exists (a1 ++ a2). rewrite app_assoc.
    split; [reflexivity |]. apply Forall_app. now split.
Qed.

Lemma checklist_items_loop_total (text_of : pyval -> result string)
    (label : string) (items : list pyval) (acc : list string) :
  Forall (fun item => is_ok (text_of item) = true) items ->
  is_ok (checklist_items_loop text_of label items acc) = true.
Proof.
  intros H. revert acc. induction H as [| item t Hi _ IH]; intros acc;
    [reflexivity |].
  cbn [checklist_items_loop]. destruct (text_of item); [| discriminate].
  cbn [rbind]. destruct (_ =? _)%string; [apply IH |].
  destruct (PyStr.mem _ _); apply IH.
Qed.

End Checklist.

Lemma checklist_items_loop_first_seen {L : PyLib}
    (text_of : pyval -> result string) (label : string) (items : list pyval)
    (acc r : list string) :
  checklist_items_loop text_of label items acc = Ok r ->
  r = checklist_loop (entry_candidates text_of label items) acc.
Proof.
  revert acc. induction items as [| item t IH]; intros acc H.
  - now inversion H.
  - cbn [checklist_items_loop] in H. unfold entry_candidates. cbn [flat_map].
    fold (entry_candidates text_of label t).
    destruct (text_of item) as [text |]; cbn [rbind] in H; [| discriminate].
    destruct (text =? "")%string; [now apply IH |].
    cbn [app checklist_loop].
    destruct (PyStr.mem (label +++ text) acc); now apply IH.
Qed.

Lemma derive_checklist_items_first_seen {L : PyLib}
    (classification analysis : dict) (checklist : list string) :
  _derive_checklist_items classification analysis = Ok checklist ->
  checklist = checklist_loop (checklist_candidates classification analysis) [].
Proof.
  unfold _derive_checklist_items, checklist_candidates, bucket_items.
  cbn [checklist_buckets]. intros H. rewrite !checklist_loop_app.
  assert (Hstep : forall text_of label v acc r,
            match v with
            | PList l => checklist_items_loop text_of label l acc
            | _ => Ok acc
            end = Ok r ->
            r = checklist_loop
                  (entry_candidates text_of label
                     match v with PList l => l | _ => [] end) acc).
  { intros text_of label v acc r Hv.
    destruct v; try (now inversion Hv).
    now apply checklist_items_loop_first_seen. }
  destruct (Py.or_ (Py.get "risks" analysis) (PList [])) as [| | | | | l1 |] eqn:E1;
    destruct (Py.or_ (Py.get "assumptions" analysis) (PList []))
      as [| | | | | l2 |] eqn:E2;
    cbn [rbind entry_candidates flat_map checklist_loop] in *;
    repeat match type of H with
    | context [checklist_items_loop risk_item_text "Review: " ?l ?acc] =>
        let Ec := fresh "Ec" in
        destruct (checklist_items_loop risk_item_text "Review: " l acc)
          eqn:Ec; cbn [rbind] in H; [| discriminate];
        apply checklist_items_loop_first_seen in Ec; subst
    end;
    exact (Hstep _ _ _ _ _ H).
Qed.

(** X11: the checklist [_derive_checklist_items] returns is the entries
    that the risks, the assumptions and the uncertainty stand for, each
    once and in the order of their first occurrences: an entry is in the
    checklist exactly when some item of these lists has it, the label
    followed by the stripped text of the item, that text being not empty;
    the entries labelled Review: come first, those labelled Clarify:
    after them. *)
Theorem X11_checklist_items_shape {L : PyLib} (classification analysis : dict)
    (checklist : list string) :
  _derive_checklist_items classification analysis = Ok checklist ->
  let candidates := checklist_candidates classification analysis in
  NoDup checklist
  /\ (forall x, In x checklist <-> In x candidates)
  /\ (forall i j x y,
        nth_error checklist i = Some x -> nth_error checklist j = Some y ->
        (i < j)%nat -> (first_index x candidates < first_index y candidates)%nat)
  /\ exists reviews clarifies,
       checklist = reviews ++ clarifies
       /\ Forall (labelled "Review: ") reviews
       /\ Forall (labelled "Clarify: ") clarifies.
Proof.
  intros H. cbv zeta.
  pose proof (derive_checklist_items_first_seen _ _ _ H) as Hfs.
  pose proof (checklist_loop_first_seen
                (checklist_candidates classification analysis)) as Hspec.
  cbv zeta in Hspec. rewrite <- Hfs in Hspec.
  destruct Hspec as [Hnd [Hin Hord]].
  split; [exact Hnd |]. split; [exact Hin |]. split; [exact Hord |].
  clear Hfs Hnd Hin Hord. unfold _derive_checklist_items in H.
  destruct (checklist_buckets analysis ["risks"; "assumptions"] []) as [reviews |]
    eqn:E; cbn [rbind] in H; [| discriminate].
  destruct (checklist_buckets_adds _ _ _ _ E (NoDup_nil _)) as [Hnd [a [-> Ha]]].
  simpl in *.
  destruct (Py.or_ (Py.get "uncertainty" classification) (PList []));
    try (inversion H; subst; exists checklist, [];
         rewrite app_nil_r; repeat split; [assumption | constructor]).
  destruct (checklist_items_loop_adds _ _ _ _ _ uncertainty_item_text_stripped H Hnd)
    as [Hr [c [-> Hc]]].
  now exists a, c.
Qed.

Lemma X11_checklist_items_shape_witness :
  let checklist := ["Review: check nulls"; "Clarify: unclear commit boundary"] in
  let candidates :=
    checklist_candidates (L := Demo.lib) Demo.classification_reply
      Demo.analysis_reply in
  NoDup checklist
  /\ (forall x, In x checklist <-> In x candidates)
  /\ (forall i j x y,
        nth_error checklist i = Some x -> nth_error checklist j = Some y ->
        (i < j)%nat -> (first_index x candidates < first_index y candidates)%nat)
  /\ exists reviews clarifies,
       checklist = reviews ++ clarifies
       /\ Forall (labelled "Review: ") reviews
       /\ Forall (labelled "Clarify: ") clarifies.
Proof.
  apply (@X11_checklist_items_shape Demo.lib Demo.classification_reply
           Demo.analysis_reply). reflexivity.
Defined.

Section Suggestions.

Context {L : PyLib}.

Lemma add_suggestion_keeps (text : string) (suggestions : list string) :
  PyStr.strip text = text ->
  NoDup suggestions /\ Forall stripped_text suggestions ->
  NoDup (add_suggestion text suggestions)
  /\ Forall stripped_text (add_suggestion text suggestions).
Proof.
  intros Hs [Hnd Hf]. unfold add_suggestion.
  destruct (String.eqb_spec text "") as [-> | Hne]; cbn [negb andb];
    [now split |].
  destruct (PyStr.mem text suggestions) eqn:M; cbn [negb]; [now split |].
  apply mem_not_In in M. split; [now apply NoDup_snoc |].
  apply Forall_app. split; [assumption |]. repeat constructor; assumption.
Qed.

Lemma suggestion_keys_keeps (analysis : dict) (keys : list string)
    (suggestions : list string) :
  NoDup suggestions /\ Forall stripped_text suggestions ->
  NoDup (suggestion_keys analysis keys suggestions)
  /\ Forall stripped_text (suggestion_keys analysis keys suggestions).
Proof.
  revert suggestions. induction keys as [| key t IH]; intros suggestions H;
    [exact H |].
  cbn [suggestion_keys]. destruct (Py.get key analysis); try (now apply IH).
  apply IH. clear IH. revert suggestions H.
  induction l as [| item items IHl]; intros suggestions H; [exact H |].
  cbn [fold_left]. apply IHl. apply add_suggestion_keeps; [| exact H].
  apply strip_idempotent.
Qed.

Lemma suggestion_issues_keeps (issues : list dict) (suggestions r : list string) :
  suggestion_issues issues suggestions = Ok r ->
  NoDup suggestions /\ Forall stripped_text suggestions ->
  NoDup r /\ Forall stripped_text r.
Proof.
  revert suggestions. induction issues as [| issue t IH]; intros suggestions H Hinv.
  - now inversion H; subst.
  - cbn [suggestion_issues] in H.
    destruct (Py.or_ _ _) as [| | | | s | |] eqn:E; cbn [Py.strip rbind] in H;
      try discriminate.
    apply (IH _ H). apply add_suggestion_keeps; [| exact Hinv].
    apply strip_idempotent.
Qed.

Lemma suggestion_string_issues (inputs : list (string * pyval))
    (suggestions : list string) :
  suggestion_issues (map (fun p => string_issue (fst p) (snd p)) inputs) suggestions
  = Ok suggestions.
Proof.
  induction inputs as [| p t IH]; [reflexivity |].
  cbn [map suggestion_issues]. unfold string_issue at 1.
  cbn. exact IH.
Qed.

End Suggestions.

(** X12: the suggestions [_derive_refactor_suggestions] returns have no
    duplicates, and each is a stripped text that is not empty. *)
Theorem X12_refactor_suggestions_shape {L : PyLib} (classification analysis : dict)
    (suggestions : list string) :
  _derive_refactor_suggestions classification analysis = Ok suggestions ->
  NoDup suggestions /\ Forall stripped_text suggestions.
Proof.
  unfold _derive_refactor_suggestions. intros H.
  destruct (_flatten_issues_from_classification classification) as [issues |];
    cbn [rbind] in H; [| discriminate].
  apply (suggestion_issues_keeps _ _ _ H).
  apply suggestion_keys_keeps. split; constructor.
Qed.

Lemma X12_refactor_suggestions_shape_witness :
  NoDup ["Use bind variables"; "Split the package"]
  /\ Forall stripped_text ["Use bind variables"; "Split the package"].
Proof.
  apply (@X12_refactor_suggestions_shape Demo.lib
           [ ("security",
              PList [ PDict [ ("message", PStr "dynamic SQL");
                              ("recommendation", PStr "  Use bind variables ") ];
                      PDict [ ("suggestion", PStr "Use bind variables") ] ]) ]
           [ ("improvements", PList [PStr "Use bind variables"; PStr "";
                                     PStr "Split the package"]) ]).
  reflexivity.
Defined.

(** ** The derived fields after validation *)

Section DerivedFields.

Context {L : PyLib}.

Lemma text_of_string_ok (text_of : pyval -> result string) (l : list pyval) :
  (forall v, is_dict v = false -> is_ok (text_of v) = true) ->
  Forall (fun e => Py.is_str e = true) l ->
  Forall (fun item => is_ok (text_of item) = true) l.
Proof.
  intros Ht H. apply Forall_forall. intros v Hin.
  rewrite Forall_forall in H. specialize (H v Hin).
  apply Ht. destruct v; try discriminate; reflexivity.
Qed.

Lemma risk_item_text_ok (v : pyval) :
  is_dict v = false -> is_ok (risk_item_text v) = true.
Proof. destruct v; try discriminate; reflexivity. Qed.

Lemma uncertainty_item_text_ok (v : pyval) :
  is_dict v = false -> is_ok (uncertainty_item_text v) = true.
Proof. destruct v; try discriminate; reflexivity. Qed.

Lemma or_list_of_strings (v : pyval) (l : list pyval) :
  v = PList l -> Forall (fun e => Py.is_str e = true) l ->
  exists l', Py.or_ v (PList []) = PList l'
             /\ Forall (fun e => Py.is_str e = true) l'.
Proof.
  intros -> H. unfold Py.or_. destruct l; simpl; eauto.
Qed.

Lemma checklist_buckets_total (analysis : dict) (names : list string)
    (acc : list string) :
  (forall name, In name names ->
     exists l, Py.lookup name analysis = Some (PList l)
               /\ Forall (fun e => Py.is_str e = true) l) ->
  is_ok (checklist_buckets analysis names acc) = true.
Proof.
  revert acc. induction names as [| name t IH]; intros acc H; [reflexivity |].
  cbn [checklist_buckets].
  destruct (H name (or_introl eq_refl)) as [l [Hl Hs]].
  unfold Py.get, Py.get_default. rewrite Hl.
  destruct (or_list_of_strings _ _ eq_refl Hs) as [l' [-> Hs']].
  pose proof (checklist_items_loop_total risk_item_text "Review: " l' acc
                (text_of_string_ok _ _ risk_item_text_ok Hs')) as Hok.
  destruct (checklist_items_loop _ _ _ _); [| discriminate].
  cbn [rbind]. apply IH. intros n Hn. apply H. now right.
Qed.

End DerivedFields.

Lemma derived_fields_total {L : PyLib}
    (classification analysis : dict) (code : string) :
  validate_classification (PDict classification) code = Ok tt ->
  validate_analysis (PDict analysis) code = Ok tt ->
  is_ok (_flatten_issues_from_classification classification) = true
  /\ is_ok (_compute_risk_score classification analysis) = true
  /\ is_ok (_derive_checklist_items classification analysis) = true
  /\ _derive_refactor_suggestions classification analysis
     = Ok (suggestion_keys analysis suggestion_key_names []).
Proof.
  intros Hc Ha.
  pose proof (validated_inputs_are_strings _ _ Hc) as Hs.
  assert (Hf : _flatten_issues_from_classification classification
               = Ok (map (fun p => string_issue (fst p) (snd p))
                         (issue_inputs classification))).
  { rewrite flatten_map. now apply flatten_strings. }
  split; [now rewrite Hf |]. split.
  { pose proof (compute_risk_score_cases classification analysis) as Hcs.
    destruct (_compute_risk_score classification analysis); [reflexivity |].
    congruence. }
  split.
  - unfold _derive_checklist_items.
    apply validate_analysis_dict in Ha.
    destruct Ha as [_ [Hr Hass]].
    assert (Hb : is_ok (checklist_buckets analysis ["risks"; "assumptions"] [])
                 = true).
    { apply checklist_buckets_total. intros name [<- | [<- | []]]; assumption. }
    destruct (checklist_buckets analysis ["risks"; "assumptions"] []) as [cl |];
      [| discriminate].
    cbn [rbind]. apply validate_classification_dict in Hc.
    destruct Hc as [_ [Hl He]].
    destruct (Hl "uncertainty") as [l Hu]; [simpl; tauto |].
    unfold Py.get, Py.get_default. rewrite Hu.
    apply lookup_In in Hu. rewrite Forall_forall in He.
    destruct (He _ Hu) as [elements [Hi Hstr]]. simpl in Hi.
    inversion Hi; subst elements.
    destruct (or_list_of_strings _ _ eq_refl Hstr) as [l' [-> Hs']].
    apply checklist_items_loop_total.
    now apply (text_of_string_ok _ _ uncertainty_item_text_ok).
  - unfold _derive_refactor_suggestions. rewrite Hf. cbn [rbind].
    apply suggestion_string_issues.
Qed.

(** X13: once the validators have accepted the classification and the
    analysis, the four derived fields of a file are all computed: the
    flattening, the risk score, the checklist items and the suggestions
    return, the suggestions being those of the analysis alone since no
    issue carries a recommendation. *)
Theorem X13_derived_fields_after_validation {L : PyLib}
    (classification analysis : dict) (code : string) :
  validate_classification (PDict classification) code = Ok tt ->
  validate_analysis (PDict analysis) code = Ok tt ->
  is_ok (_flatten_issues_from_classification classification) = true
  /\ is_ok (_compute_risk_score classification analysis) = true
  /\ is_ok (_derive_checklist_items classification analysis) = true
  /\ _derive_refactor_suggestions classification analysis
     = Ok (suggestion_keys analysis suggestion_key_names []).
Proof. exact (derived_fields_total classification analysis code). Qed.

Lemma X13_derived_fields_after_validation_witness :
  is_ok (_flatten_issues_from_classification (L := Demo.lib)
           Demo.classification_reply) = true
  /\ is_ok (_compute_risk_score (L := Demo.lib) Demo.classification_reply
              Demo.analysis_reply) = true
  /\ is_ok (_derive_checklist_items (L := Demo.lib) Demo.classification_reply
              Demo.analysis_reply) = true
  /\ _derive_refactor_suggestions (L := Demo.lib) Demo.classification_reply
       Demo.analysis_reply
     = Ok (suggestion_keys (L := Demo.lib) Demo.analysis_reply
             suggestion_key_names []).
Proof.
  apply (@X13_derived_fields_after_validation Demo.lib Demo.classification_reply
           Demo.analysis_reply ""); reflexivity.
Defined.

(** ** The overall risk score *)

Lemma py_round_div_between (a n lo hi : Z) :
  0 < n -> lo * n <= a -> a <= hi * n -> lo <= py_round_div a n <= hi.
Proof.
  intros Hn Hlo Hhi. unfold py_round_div.
  pose proof (Z.div_mod a n ltac:(lia)) as Hdm.
  pose proof (Z.mod_pos_bound a n Hn) as Hr.
  set (q := a / n) in *. set (r := a mod n) in *.
  assert (Hq1 : lo <= q) by nia.
  assert (Hq2 : q <= hi) by nia.
  assert (Hq3 : 0 < r -> q + 1 <= hi) by nia.
  destruct (2 * r <? n) eqn:E1; [lia |].
  apply Z.ltb_ge in E1.
  destruct (n <? 2 * r) eqn:E2; [lia |].
  destruct (Z.even q); lia.
Qed.

Lemma risk_sum_between (frs : list FileResult.t) (acc lo hi : Z) :
  Forall (fun fr => lo <= FileResult.risk_score fr <= hi) frs ->
  acc + lo * Z.of_nat (List.length frs)
  <= fold_left (fun acc fr => acc + FileResult.risk_score fr) frs acc
  <= acc + hi * Z.of_nat (List.length frs).
Proof.
  intros H. revert acc. induction H as [| fr t Hfr _ IH]; intros acc.
  - simpl. lia.
  - cbn [fold_left List.length]. specialize (IH (acc + FileResult.risk_score fr)).
    lia.
Qed.

(** X14: for per-file scores within 0 and 100, as [process_file]
    returns them, and fewer than 2^46 files, the range in which rounding
    the binary64 quotient and rounding the exact quotient agree, the
    overall risk score of a run is 0 when no file went through, and else
    lies between any two bounds of the per-file scores: within 0 and 100
    as they are, and equal to the common score when all files score the
    same. *)
Theorem X14_overall_risk_between_file_scores (run_id now : string)
    (frs : list FileResult.t) (s : Summary.t) (lo hi : Z) :
  aggregate_results run_id now frs = Ok s ->
  0 <= lo -> hi <= 100 ->
  Z.of_nat (List.length frs) < 2 ^ 46 ->
  Forall (fun fr => lo <= FileResult.risk_score fr <= hi) frs ->
  (frs = [] -> Summary.overall_risk_score s = 0)
  /\ (frs <> [] -> lo <= Summary.overall_risk_score s <= hi).
Proof.
  intros H _ _ _ Hb. unfold aggregate_results in H.
  destruct (aggregate_loop frs [] []) as [acc |]; cbn [rbind] in H;
    [| discriminate].
  inversion H; subst s; clear H. cbn [Summary.overall_risk_score]. split.
  - intros ->. reflexivity.
  - intros Hne. destruct frs as [| fr t]; [congruence |].
    destruct (Z.eqb_spec (Z.of_nat (List.length (fr :: t))) 0) as [E | _];
      [simpl in E; lia |].
    pose proof (risk_sum_between (fr :: t) 0 lo hi Hb) as Hs.
    apply py_round_div_between; simpl List.length in *; lia.
Qed.

Lemma X14_overall_risk_between_file_scores_witness :
  ([Demo.file_30; Demo.file_10] = [] ->
   Summary.overall_risk_score
     (Summary.mk "r1" "2025-01-01T00:00:00Z" 2 20 []
        [Demo.file_30; Demo.file_10] []) = 0)
  /\ ([Demo.file_30; Demo.file_10] <> [] ->
      10 <= Summary.overall_risk_score
              (Summary.mk "r1" "2025-01-01T00:00:00Z" 2 20 []
                 [Demo.file_30; Demo.file_10] []) <= 30).
Proof.
  apply (X14_overall_risk_between_file_scores "r1" "2025-01-01T00:00:00Z"
           [Demo.file_30; Demo.file_10]);
    [reflexivity | lia | lia | reflexivity | repeat constructor; simpl; lia].
Defined.

(** ** The index of the runs *)

Lemma fs_lookup_head (path content : string) (files : list (string * string)) :
  fs_lookup path ((path, content) :: files) = Some content.
Proof. unfold fs_lookup. simpl. now rewrite String.eqb_refl. Qed.

Lemma fs_lookup_other (p path content : string) (files : list (string * string)) :
  p <> path -> fs_lookup p ((path, content) :: files) = fs_lookup p files.
Proof.
  intros H. unfold fs_lookup. simpl.
  destruct (String.eqb_spec path p); [congruence | reflexivity].
Qed.

(** X15: [_update_global_index] never raises and returns the path of
    the index; afterwards the index file holds the entries it held
    before followed by the entry of this run, where a missing file, a
    file that does not parse and a file holding anything but a list
    count as no entries; no other file is changed. *)
Theorem X15_index_is_appended_to {L : PyLib} (log_dir runlog_path : string)
    (run_logger : RunLogger.t) (w : world) :
  let index_path := path_join log_dir "index.json" in
  let w' := snd (_update_global_index log_dir runlog_path run_logger w) in
  fst (_update_global_index log_dir runlog_path run_logger w) = Ok index_path
  /\ fs_lookup index_path (fs w')
     = Some (json_dumps (PList (index_entries log_dir w
                                ++ [index_entry runlog_path run_logger])))
  /\ (forall p, p <> index_path -> fs_lookup p (fs w') = fs_lookup p (fs w)).
Proof.
  cbv zeta. unfold _update_global_index, index_entries, index_entry, is_file,
    read_text, write_text.
  io_norm.
  destruct (fs_lookup (path_join log_dir "index.json") (fs w)) as [text |] eqn:E;
    io_norm; rewrite ?E; io_norm.
  - destruct (json_loads text) as [[] |]; io_norm;
      (split; [reflexivity |]); (split; [apply fs_lookup_head |]);
      intros p Hp; now apply fs_lookup_other.
  - split; [reflexivity |]. split; [apply fs_lookup_head |].
    intros p Hp. now apply fs_lookup_other.
Qed.

(** ** The early exits of [main] *)

(** X16: when the root path does not exist, [main] prints the error to
    the error channel and returns 1: no file is read or written, no
    request is sent, the clock is not read. *)
Theorem X16_missing_root_is_fatal {L : PyLib} {O : Outside}
    (args : Args.t) (w : world) :
  path_exists (path_resolve (Args.path args)) = false ->
  main args w
  = (Ok 1,
     after w [EvPrintErr ("ERROR: root path does not exist: "
                          +++ path_resolve (Args.path args))]).
Proof.
  intros H. unfold main. rewrite H. reflexivity.
Qed.

Lemma X16_missing_root_is_fatal_witness :
  main (L := Demo.lib) (O := DemoMore.missing_root) (Demo.args false) Demo.w0
  = (Ok 1, after Demo.w0 [EvPrintErr "ERROR: root path does not exist: /sql"]).
Proof.
  apply (@X16_missing_root_is_fatal Demo.lib DemoMore.missing_root
           (Demo.args false) Demo.w0). reflexivity.
Defined.

(** X17: when the root exists and no file matches, [main] prints that
    it found none and returns 0: nothing is written, not even the run
    summary, and no request is sent. *)
Theorem X17_no_file_no_output {L : PyLib} {O : Outside}
    (args : Args.t) (w : world) :
  path_exists (path_resolve (Args.path args)) = true ->
  sorted_glob_files (path_resolve (Args.path args)) (Args.glob args) = [] ->
  main args w
  = (Ok 0,
     after w (run_id_clock args
              ++ [EvPrint ("[INFO] No files found under "
                           +++ path_resolve (Args.path args)
                           +++ " matching pattern " +++ Args.glob args)])).
Proof.
  intros Hroot Hglob. unfold main, run_id_clock, after. rewrite Hroot, Hglob.
  cbn [negb]. unfold bind at 1.
  destruct (nonempty (Args.run_id args)) as [r |].
  - unfold ret at 1. io_norm. reflexivity.
  - unfold now_compact. io_norm. rewrite <- app_assoc. reflexivity.
Qed.

Lemma X17_no_file_no_output_witness :
  main (L := Demo.lib) (O := DemoMore.repairing) (Demo.args false) Demo.w0
  = (Ok 0,
     after Demo.w0
       (run_id_clock (Demo.args false)
        ++ [EvPrint "[INFO] No files found under /sql matching pattern **/*.sql"])).
Proof.
  apply (@X17_no_file_no_output Demo.lib DemoMore.repairing (Demo.args false)
           Demo.w0); reflexivity.
Defined.

(** ** What [process_file] returns *)

Lemma ensures_bind {A B : Type} (c : M A) (k : A -> M B)
    (P : A -> Prop) (Q : B -> Prop) :
  ensures c P -> (forall a, P a -> ensures (k a) Q) -> ensures (bind c k) Q.
Proof.
  intros Hc Hk w b w'. unfold bind.
  destruct (c w) as [[a | e] w1] eqn:E; [| discriminate].
  intros H. exact (Hk a (Hc _ _ _ E) _ _ _ H).
Qed.

Lemma ensures_any {A : Type} (c : M A) : ensures c (fun _ => True).
Proof. intros w a w' _. exact I. Qed.

Lemma ensures_skip {A B : Type} (c : M A) (k : A -> M B) (Q : B -> Prop) :
  (forall a, ensures (k a) Q) -> ensures (bind c k) Q.
Proof.
  intros Hk. apply (ensures_bind c k (fun _ => True)); [apply ensures_any |].
  intros a _. apply Hk.
Qed.

Lemma ensures_lift {A : Type} (r : result A) :
  ensures (lift r) (fun a => r = Ok a).
Proof. intros w a w'. unfold lift. now intros [= -> _]. Qed.

Lemma ensures_ret {A : Type} (a : A) (Q : A -> Prop) :
  Q a -> ensures (ret a) Q.
Proof. intros H w b w'. unfold ret. now intros [= <- _]. Qed.

Section FileResults.

Context {L : PyLib} {O : Outside}.

Lemma classification_block_validated (rel_name base_name code output_dir : string)
    (model : option string) (flags : Flags.t) (run_logger : RunLogger.t) :
  ensures (classification_block rel_name base_name code output_dir model flags
             run_logger)
    (fun p => validate_classification (PDict (fst p)) code = Ok tt).
Proof.
  unfold classification_block.
  destruct (negb (Flags.no_classification flags)).
  - apply ensures_skip; intros _. apply ensures_skip; intros rl.
    eapply ensures_bind.
    { unfold run_classification_step. apply structured_step_validated. }
    intros data Hv. apply ensures_skip; intros rl'.
    apply ensures_skip; intros _.
    eapply ensures_bind; [apply ensures_lift |].
    intros classification Hd. apply ensures_ret. cbn [fst].
    destruct data; try discriminate. simpl in Hd. now inversion Hd; subst.
  - apply ensures_skip; intros _. apply ensures_skip; intros rl.
    apply ensures_ret. reflexivity.
Qed.

Lemma analysis_block_validated (rel_name base_name code output_dir : string)
    (model : option string) (flags : Flags.t) (run_logger : RunLogger.t) :
  ensures (analysis_block rel_name base_name code output_dir model flags
             run_logger)
    (fun p => validate_analysis (PDict (fst p)) code = Ok tt).
Proof.
  unfold analysis_block.
  destruct (negb (Flags.no_analysis flags)).
  - apply ensures_skip; intros _. apply ensures_skip; intros rl.
    eapply ensures_bind.
    { unfold run_analysis_step. apply structured_step_validated. }
    intros data Hv. apply ensures_skip; intros rl'.
    apply ensures_skip; intros _.
    eapply ensures_bind; [apply ensures_lift |].
    intros analysis Hd. apply ensures_ret. cbn [fst].
    destruct data; try discriminate. simpl in Hd. now inversion Hd; subst.
  - apply ensures_skip; intros _. apply ensures_skip; intros rl.
    apply ensures_ret. reflexivity.
Qed.

Lemma derived_fields_ok (path summary_text code : string)
    (classification analysis : dict) (issues : list dict) (risk_score : Z)
    (checklist_items refactor_suggestions : list string) :
  validate_classification (PDict classification) code = Ok tt ->
  _flatten_issues_from_classification classification = Ok issues ->
  _compute_risk_score classification analysis = Ok risk_score ->
  _derive_checklist_items classification analysis = Ok checklist_items ->
  _derive_refactor_suggestions classification analysis = Ok refactor_suggestions ->
  file_result_ok (FileResult.mk path risk_score summary_text issues
                    refactor_suggestions checklist_items).
Proof.
  intros Hv Hf Hs Hc Hr. unfold file_result_ok. cbn.
  split; [| split; [| split]].
  - pose proof (compute_risk_score_cases classification analysis) as H.
    now rewrite Hs in H.
  - pose proof (validated_inputs_are_strings _ _ Hv) as Hstr.
    rewrite flatten_map, (flatten_strings _ Hstr) in Hf.
    inversion Hf; subst issues. apply Forall_forall. intros d Hin.
    apply in_map_iff in Hin. destruct Hin as [p [<- _]]. reflexivity.
  - unfold _derive_checklist_items in Hc.
    destruct (checklist_buckets analysis ["risks"; "assumptions"] []) as [rv |]
      eqn:E; cbn [rbind] in Hc; [| discriminate].
    destruct (checklist_buckets_adds _ _ _ _ E (NoDup_nil _)) as [Hnd _].
    destruct (Py.or_ (Py.get "uncertainty" classification) (PList []));
      try (now inversion Hc; subst).
    now destruct (checklist_items_loop_adds _ _ _ _ _
                    uncertainty_item_text_stripped Hc Hnd).
  - unfold _derive_refactor_suggestions in Hr.
    destruct (_flatten_issues_from_classification classification);
      cbn [rbind] in Hr; [| discriminate].
    apply (suggestion_issues_keeps _ _ _ Hr).
    apply suggestion_keys_keeps. split; constructor.
Qed.

Lemma process_file_real_run_result (path rel_name base_name code : string)
    (output_dir log_dir : string) (model : option string) (flags : Flags.t) :
  ensures (process_file_real_run path rel_name base_name code output_dir log_dir
             model flags)
    (fun fr => FileResult.path fr = path /\ file_result_ok fr).
Proof.
  unfold process_file_real_run.
  do 8 (apply ensures_skip; intros ?).
  eapply ensures_bind; [apply classification_block_validated |].
  intros [classification rl1] Hc. cbn [fst] in Hc.
  apply ensures_skip. intros [analysis rl2].
  do 4 (apply ensures_skip; intros ?).
  eapply ensures_bind; [apply ensures_lift |]. intros issues Hf.
  eapply ensures_bind; [apply ensures_lift |]. intros risk_score Hs.
  eapply ensures_bind; [apply ensures_lift |]. intros checklist_items Hcl.
  eapply ensures_bind; [apply ensures_lift |]. intros refactor_suggestions Hr.
  apply ensures_ret. split; [reflexivity |]. cbv beta in *.
  exact (derived_fields_ok _ _ _ _ _ _ _ _ _ Hc Hf Hs Hcl Hr).
Qed.

Lemma dry_run_stub_ok (path : string) : file_result_ok (dry_run_stub path).
Proof.
  unfold file_result_ok, dry_run_stub. cbn.
  repeat split; try constructor; lia.
Qed.

Lemma process_file_result (path output_dir log_dir : string)
    (model : option string) (flags : Flags.t) (dry_run : bool) :
  ensures (process_file path output_dir log_dir model flags dry_run)
    (fun fr => FileResult.path fr = path /\ file_result_ok fr).
Proof.
  unfold process_file. apply ensures_skip. intros code.
  destruct dry_run.
  - intros w fr w' H.
    destruct (proj2 (process_file_dry_run_quiet path (path_name path) code
                       model flags) w) as [w2 E].
    rewrite E in H. inversion H; subst. split; [reflexivity |].
    apply dry_run_stub_ok.
  - apply process_file_real_run_result.
Qed.

End FileResults.

Lemma medium_is_not_red (issue : dict) :
  Py.lookup "severity" issue = Some (PStr "medium") -> is_red_issue issue = false.
Proof.
  intros H. unfold is_red_issue, Py.get, Py.get_default. now rewrite H.
Qed.

Lemma no_red_flags_among_medium (frs : list FileResult.t) :
  Forall file_result_ok frs -> all_red_flags frs = [].
Proof.
  induction 1 as [| fr t [_ [Hm _]] _ IH]; [reflexivity |].
  unfold all_red_flags in *. cbn [flat_map]. rewrite IH, app_nil_r.
  induction Hm as [| d ds Hd _ IHd]; [reflexivity |].
  cbn [filter]. now rewrite (medium_is_not_red _ Hd).
Qed.

(** X18: the result [process_file] returns for a file, in a real run as
    in a dry run, names that file, has a risk score between 0 and 100,
    issues that all have the severity medium, and checklist items and
    suggestions without duplicates; no issue of it is a red flag. *)
Theorem X18_file_result_invariants {L : PyLib} {O : Outside}
    (path output_dir log_dir : string) (model : option string)
    (flags : Flags.t) (dry_run : bool) (w : world) (fr : FileResult.t) :
  fst (process_file path output_dir log_dir model flags dry_run w) = Ok fr ->
  FileResult.path fr = path
  /\ file_result_ok fr
  /\ all_red_flags [fr] = [].
Proof.
  intros H.
  destruct (process_file path output_dir log_dir model flags dry_run w)
    as [r w'] eqn:E.
  simpl in H. subst r.
  destruct (process_file_result _ _ _ _ _ _ _ _ _ E) as [Hp Hok].
  split; [exact Hp |]. split; [exact Hok |].
  apply no_red_flags_among_medium. constructor; [exact Hok | constructor].
Qed.

Lemma X18_file_result_invariants_witness :
  let fr :=
    match fst (process_file (L := Demo.lib) (O := Demo.outside) "good.sql"
                 "/var/output/r1" "/var/logs/r1" None Demo.flags false Demo.w0) with
    | Ok fr => fr
    | Raise _ => dry_run_stub ""
    end in
  FileResult.path fr = "good.sql"
  /\ file_result_ok fr
  /\ all_red_flags [fr] = [].
Proof.
  apply (@X18_file_result_invariants Demo.lib Demo.outside "good.sql"
           "/var/output/r1" "/var/logs/r1" None Demo.flags false Demo.w0).
  vm_compute. reflexivity.
Defined.

Section LoopResults.

Context {L : PyLib} {O : Outside}.


End LoopResults.

(** ** The exit status of [main] *)


Section SummaryText.

Context {L : PyLib}.







End SummaryText.

Section MainStatus.

Context {L : PyLib} {O : Outside}.


End MainStatus.


(** ** The report *)

Section ReportTotal.

Context {L : PyLib}.

Lemma format_issue_section_list (title : string) (l : list pyval) :
  is_ok (_format_issue_section title (PList l)) = true.
Proof.
  unfold _format_issue_section. destruct (negb (Py.truthy (PList l))); reflexivity.
Qed.

Lemma bullets_or_none_list (l : list pyval) :
  is_ok (bullets_or_none (PList l)) = true.
Proof.
  unfold bullets_or_none. destruct (Py.truthy (PList l)); reflexivity.
Qed.

Lemma build_markdown_report_total (file_name summary code : string)
    (classification analysis : dict) :
  validate_classification (PDict classification) code = Ok tt ->
  validate_analysis (PDict analysis) code = Ok tt ->
  is_ok (build_markdown_report file_name summary classification analysis) = true.
Proof.
  intros Hc Ha. apply validate_classification_dict in Hc.
  destruct Hc as [_ [Hl _]]. apply validate_analysis_dict in Ha.
  destruct Ha as [_ [[lr [Hr _]] [la [Hass _]]]].
  unfold build_markdown_report. cbv zeta.
  assert (Hsec : forall title key, In key required_categories ->
            is_ok (_format_issue_section title
                     (Py.get_default key (PList []) classification)) = true).
  { intros title key Hin. destruct (Hl key Hin) as [l Hk].
    unfold Py.get_default. rewrite Hk. apply format_issue_section_list. }
  repeat match goal with
  | |- context [_format_issue_section ?t (Py.get_default ?k _ classification)] =>
      let H := fresh "H" in
      assert (H := Hsec t k ltac:(simpl; tauto));
      destruct (_format_issue_section t (Py.get_default k _ classification));
      [clear H; cbn [rbind] | discriminate H]
  end.
  unfold Py.get_default. rewrite Hr, Hass.
  pose proof (bullets_or_none_list lr) as H1.
  pose proof (bullets_or_none_list la) as H2.
  destruct (bullets_or_none (PList lr)); [| discriminate].
  destruct (bullets_or_none (PList la)); [| discriminate].
  reflexivity.
Qed.

End ReportTotal.

(** X21: [build_markdown_report] returns a report for every
    classification and analysis the validators accept, whatever the file
    name and the summary. *)
Theorem X21_report_of_validated_data {L : PyLib}
    (file_name summary code : string) (classification analysis : dict) :
  validate_classification (PDict classification) code = Ok tt ->
  validate_analysis (PDict analysis) code = Ok tt ->
  exists report,
    build_markdown_report file_name summary classification analysis = Ok report.
Proof.
  intros Hc Ha.
  pose proof (build_markdown_report_total file_name summary code _ _ Hc Ha) as H.
  destruct (build_markdown_report file_name summary classification analysis)
    as [report |]; [now exists report | discriminate].
Qed.

Lemma X21_report_of_validated_data_witness :
  exists report,
    build_markdown_report (L := Demo.lib) "a.sql" "Updates one table."
      Demo.classification_reply Demo.analysis_reply = Ok report.
Proof.
  apply (@X21_report_of_validated_data Demo.lib "a.sql" "Updates one table." ""
           Demo.classification_reply Demo.analysis_reply); reflexivity.
Defined.
(** ** A file in a dry run *)

(** X22: in a dry run [process_file] sends no request, writes nothing
    and leaves every file as it is; it returns the empty result of the
    file whatever the file holds, and raises only when the file cannot be
    read. *)
Theorem X22_dry_run_of_a_file {L : PyLib} {O : Outside}
    (path output_dir log_dir : string) (model : option string)
    (flags : Flags.t) (w : world) :
  let out := process_file path output_dir log_dir model flags true w in
  fs (snd out) = fs w
  /\ llm_requests (trace (snd out)) = llm_requests (trace w)
  /\ written_paths (trace (snd out)) = written_paths (trace w)
  /\ fst out = match fs_lookup path (fs w) with
               | Some _ => Ok (dry_run_stub path)
               | None => Raise (OSError ("No such file or directory: '"
                                         +++ path +++ "'"))
               end.
Proof.
  cbv zeta.
  destruct (process_file_dry path output_dir log_dir model flags) as [Hq _].
  destruct (Hq w) as [Hfs [suffix [Ht Hp]]].
  split; [exact Hfs |]. rewrite Ht.
  split; [rewrite llm_requests_app, (llm_requests_quiet _ Hp); apply app_nil_r |].
  split.
  - unfold written_paths. rewrite flat_map_app.
    replace (flat_map _ suffix) with (@nil string); [apply app_nil_r |].
    clear Ht. induction suffix as [| e t IH]; [reflexivity |].
    simpl in Hp. apply andb_true_iff in Hp. destruct Hp as [He Hp].
    destruct e; try discriminate; simpl; auto.
  - unfold process_file, bind, read_text.
    destruct (fs_lookup path (fs w)) as [code |]; [| reflexivity].
    match goal with
    | |- context [process_file_dry_run path ?n code model flags ?w1] =>
        destruct (proj2 (process_file_dry_run_quiet path n code model flags) w1)
          as [w2 E]
    end.
    now rewrite E.
Qed.
(** ** The files a real run writes *)

Lemma written_paths_app (a b : list event) :
  written_paths (a ++ b) = written_paths a ++ written_paths b.
Proof. apply flat_map_app. Qed.

Lemma written_paths_no_write (s : list event) :
  forallb is_no_write s = true -> written_paths s = [].
Proof.
  induction s as [| e t IH]; simpl; [reflexivity |].
  intros H. apply andb_true_iff in H. destruct H as [He Ht].
  destruct e; try discriminate; simpl; auto.
Qed.

Lemma prefix_of_nil (l : list string) : prefix_of [] l.
Proof. now exists l. Qed.

Lemma prefix_of_app (a b c : list string) :
  prefix_of b c -> prefix_of (a ++ b) (a ++ c).
Proof. intros [rest ->]. exists rest. now rewrite app_assoc. Qed.

Lemma prefix_of_weaken (a b c : list string) :
  prefix_of a b -> prefix_of a (b ++ c).
Proof. intros [rest ->]. exists (rest ++ c). now rewrite app_assoc. Qed.

Lemma writes_quiet {A : Type} (c : M A) :
  quietly is_no_write c -> writes_paths c [] [].
Proof.
  intros H w. destruct (H w) as [_ [suffix [Ht Hp]]]. exists suffix.
  split; [exact Ht |]. rewrite (written_paths_no_write _ Hp).
  destruct (fst (c w)); [reflexivity | apply prefix_of_nil].
Qed.

Lemma writes_bind {A B : Type} (c : M A) (k : A -> M B) (P : A -> Prop)
    (p1 p2 post : list string) :
  ensures c P -> writes_paths c p1 [] ->
  (forall a, P a -> writes_paths (k a) p2 post) ->
  writes_paths (bind c k) (p1 ++ p2) post.
Proof.
  intros He Hc Hk w. destruct (Hc w) as [s1 [Ht1 Ho1]]. unfold bind.
  destruct (c w) as [[a | e] w1] eqn:E; cbn [fst snd] in *.
  - destruct (Hk a (He _ _ _ E) w1) as [s2 [Ht2 Ho2]].
    exists (s1 ++ s2). rewrite Ht2, Ht1, <- app_assoc. split; [reflexivity |].
    rewrite written_paths_app, Ho1, app_nil_r.
    destruct (fst (k a w1)).
    + rewrite Ho2. now rewrite app_assoc.
    + now apply prefix_of_app.
  - exists s1. split; [exact Ht1 |]. now apply prefix_of_weaken.
Qed.

Lemma writes_skip {A B : Type} (c : M A) (k : A -> M B)
    (p1 p2 post : list string) :
  writes_paths c p1 [] -> (forall a, writes_paths (k a) p2 post) ->
  writes_paths (bind c k) (p1 ++ p2) post.
Proof.
  intros Hc Hk. apply (writes_bind c k (fun _ => True)); auto using ensures_any.
Qed.

Lemma writes_eq {A : Type} (c : M A) (pre pre' post : list string) :
  writes_paths c pre post -> pre = pre' -> writes_paths c pre' post.
Proof. now intros H <-. Qed.

Lemma writes_write_text (path content : string) :
  writes_paths (write_text path content) [path] [].
Proof. intros w. exists [EvWrite path content]. now split. Qed.

Lemma writes_always {A : Type} (c : M A) (paths : list string) :
  always_writes c paths -> writes_paths c [] paths.
Proof.
  intros H w. destruct (H w) as [a [suffix [E [Ht Hw]]]]. exists suffix.
  split; [exact Ht |]. now rewrite E.
Qed.

Lemma always_bind {A B : Type} (c : M A) (k : A -> M B)
    (q1 q2 : list string) :
  always_writes c q1 -> (forall a, always_writes (k a) q2) ->
  always_writes (bind c k) (q1 ++ q2).
Proof.
  intros Hc Hk w. destruct (Hc w) as [a [s1 [E1 [Ht1 Hw1]]]]. unfold bind.
  destruct (c w) as [r w1]; cbn [fst snd] in *. subst r.
  destruct (Hk a w1) as [b [s2 [E2 [Ht2 Hw2]]]].
  exists b, (s1 ++ s2). split; [exact E2 |].
  rewrite Ht2, Ht1, <- app_assoc, written_paths_app, Hw1, Hw2. now split.
Qed.

Lemma always_ret {A : Type} (a : A) : always_writes (ret a) [].
Proof. intros w. exists a, []. cbn. now rewrite app_nil_r. Qed.

Lemma always_lift {A : Type} (a : A) : always_writes (lift (Ok a)) [].
Proof. intros w. exists a, []. cbn. now rewrite app_nil_r. Qed.

Lemma always_emit (e : event) :
  is_no_write e = true -> always_writes (emit e) [].
Proof.
  intros H w. exists tt, [e]. cbn. repeat split.
  destruct e; try discriminate; reflexivity.
Qed.

Lemma always_write_text (path content : string) :
  always_writes (write_text path content) [path].
Proof. intros w. exists tt, [EvWrite path content]. now cbn. Qed.

Lemma quietly_lift {A : Type} (P : event -> bool) (r : result A) :
  quietly P (lift r).
Proof.
  intros w. split; [reflexivity |]. exists []. cbn. now rewrite app_nil_r.
Qed.

Lemma quietly_raise {A : Type} (P : event -> bool) (e : pyexc) :
  quietly P (@raise A e).
Proof.
  intros w. split; [reflexivity |]. exists []. cbn. now rewrite app_nil_r.
Qed.

Section RealRunWrites.

Context {L : PyLib} {O : Outside}.

Lemma quietly_call_llm (system_prompt user_prompt : string)
    (model : option string) :
  quietly is_no_write (call_llm system_prompt user_prompt model).
Proof.
  intros w. unfold call_llm. cbv zeta.
  destruct (llm_reply _ _ _ _); (split; [reflexivity |]); eexists;
    (split; [reflexivity | reflexivity]).
Qed.

Lemma quietly_parse_json (text : string) : quietly is_no_write (parse_json text).
Proof.
  unfold parse_json. apply quietly_bind; [now apply quietly_emit | intros _].
  apply quietly_lift.
Qed.

Lemma quietly_now_iso : quietly is_no_write now_iso.
Proof.
  intros w. split; [reflexivity |]. exists [EvClock]. now split.
Qed.

Lemma quietly_log_step (self : RunLogger.t) (name status : string) :
  quietly is_no_write (log_step self name status).
Proof.
  unfold log_step. apply quietly_bind; [apply quietly_now_iso | intros ts].
  apply quietly_ret.
Qed.

Lemma quietly_new_run_logger (input_file : string) (model : option string)
    (input_sha256 : string) (flags : Flags.t) :
  quietly is_no_write (new_run_logger input_file model input_sha256 flags).
Proof.
  unfold new_run_logger. apply quietly_bind; [apply quietly_now_iso | intros ts].
  apply quietly_ret.
Qed.

Lemma quietly_correct_json (raw template : string) (model : option string) :
  quietly is_no_write (_correct_json raw template model).
Proof.
  unfold _correct_json. destruct (build_json_correction_prompt raw template).
  apply quietly_bind; [apply quietly_call_llm | intros reply].
  apply quietly_ret.
Qed.

Lemma quietly_run_summary_step (code : string) (model : option string) :
  quietly is_no_write (run_summary_step code model).
Proof.
  unfold run_summary_step. destruct (build_summary_prompt code).
  apply quietly_bind; [apply quietly_call_llm | intros raw].
  apply quietly_bind; [apply quietly_lift | intros _]. apply quietly_ret.
Qed.

Lemma quietly_run_structured_step (stage : string)
    (build : string -> string * string) (template : string)
    (validate : pyval -> string -> result unit)
    (code : string) (model : option string) :
  quietly is_no_write (run_structured_step stage build template validate code model).
Proof.
  unfold run_structured_step. destruct (build code).
  apply quietly_bind; [apply quietly_call_llm | intros reply]. cbv zeta.
  apply quietly_bind; [apply quietly_try, quietly_parse_json | intros first].
  apply quietly_bind.
  - destruct first as [data | []]; try apply quietly_raise; [apply quietly_ret |].
    apply quietly_bind; [now apply quietly_emit | intros _].
    apply quietly_bind; [apply quietly_correct_json | intros fixed_raw].
    apply quietly_bind; [apply quietly_try, quietly_parse_json | intros second].
    destruct second as [data | []]; try apply quietly_raise. apply quietly_ret.
  - intros data. apply quietly_bind; [apply quietly_lift | intros _].
    apply quietly_ret.
Qed.

Lemma quietly_run_refactor_step (code : string) (model : option string) :
  quietly is_no_write (run_refactor_step code model).
Proof.
  unfold run_refactor_step. destruct (build_refactor_prompt code).
  apply quietly_bind; [apply quietly_call_llm | intros reply]. cbv zeta.
  destruct (_ =? _)%string; [apply quietly_raise | apply quietly_ret].
Qed.

Lemma quietly_print (text : string) : quietly is_no_write (print text).
Proof. now apply quietly_emit. Qed.

Lemma quietly_mkdir (path : string) : quietly is_no_write (mkdir path).
Proof. now apply quietly_emit. Qed.

End RealRunWrites.

#[local] Hint Resolve quietly_call_llm quietly_parse_json quietly_now_iso
  quietly_log_step quietly_new_run_logger quietly_correct_json
  quietly_run_summary_step quietly_run_structured_step
  quietly_run_refactor_step quietly_print quietly_mkdir quietly_lift
  quietly_ret : quiet.

Ltac quiet_step :=
  eapply writes_skip; [apply writes_quiet; auto with quiet | intros ?].

Ltac write_step :=
  eapply writes_skip; [apply writes_write_text | intros ?].

Section RealRunFiles.

Context {L : PyLib} {O : Outside}.

Lemma classification_block_writes (rel_name base_name code output_dir : string)
    (model : option string) (flags : Flags.t) (run_logger : RunLogger.t) :
  writes_paths
    (classification_block rel_name base_name code output_dir model flags
       run_logger)
    (if Flags.no_classification flags then []
     else [path_join output_dir (base_name +++ "_classification.json")]) [].
Proof.
  unfold classification_block.
  destruct (Flags.no_classification flags); cbn [negb].
  - eapply writes_eq.
    + quiet_step. quiet_step. apply writes_quiet, quietly_ret.
    + reflexivity.
  - eapply writes_eq.
    + quiet_step. quiet_step.
      eapply writes_skip;
        [apply writes_quiet; unfold run_classification_step; auto with quiet
        | intros data].
      quiet_step. write_step. quiet_step. apply writes_quiet, quietly_ret.
    + reflexivity.
Qed.

Lemma analysis_block_writes (rel_name base_name code output_dir : string)
    (model : option string) (flags : Flags.t) (run_logger : RunLogger.t) :
  writes_paths
    (analysis_block rel_name base_name code output_dir model flags run_logger)
    (if Flags.no_analysis flags then []
     else [path_join output_dir (base_name +++ "_analysis.json")]) [].
Proof.
  unfold analysis_block.
  destruct (Flags.no_analysis flags); cbn [negb].
  - eapply writes_eq.
    + quiet_step. quiet_step. apply writes_quiet, quietly_ret.
    + reflexivity.
  - eapply writes_eq.
    + quiet_step. quiet_step.
      eapply writes_skip;
        [apply writes_quiet; unfold run_analysis_step; auto with quiet
        | intros data].
      quiet_step. write_step. quiet_step. apply writes_quiet, quietly_ret.
    + reflexivity.
Qed.

Lemma refactor_block_writes (rel_name base_name code output_dir : string)
    (model : option string) (flags : Flags.t) (run_logger : RunLogger.t) :
  writes_paths
    (refactor_block rel_name base_name code output_dir model flags run_logger)
    (if Flags.refactor flags
     then [path_join output_dir (base_name +++ "_refactor.sql")]
     else []) [].
Proof.
  unfold refactor_block. destruct (Flags.refactor flags).
  - eapply writes_eq.
    + quiet_step. quiet_step. quiet_step. write_step. quiet_step. quiet_step.
      apply writes_quiet, quietly_ret.
    + reflexivity.
  - eapply writes_eq.
    + quiet_step. apply writes_quiet, quietly_log_step.
    + reflexivity.
Qed.

Lemma markdown_block_writes (rel_name base_name output_dir summary_text : string)
    (classification analysis : dict) (flags : Flags.t)
    (run_logger : RunLogger.t) :
  writes_paths
    (markdown_block rel_name base_name output_dir summary_text classification
       analysis flags run_logger)
    (if Flags.no_markdown flags then []
     else [path_join output_dir (base_name +++ "_review.md")]) [].
Proof.
  unfold markdown_block. destruct (Flags.no_markdown flags); cbn [negb].
  - eapply writes_eq.
    + quiet_step. apply writes_quiet, quietly_ret.
    + reflexivity.
  - eapply writes_eq.
    + quiet_step. write_step. quiet_step. apply writes_quiet, quietly_ret.
    + reflexivity.
Qed.

Lemma run_logger_write_always (self : RunLogger.t) (log_dir base_name : string) :
  always_writes (run_logger_write self log_dir base_name)
    [path_join log_dir (base_name +++ "_runlog.json")].
Proof.
  unfold run_logger_write. cbv zeta.
  change [path_join log_dir (base_name +++ "_runlog.json")]
    with ([] ++ [path_join log_dir (base_name +++ "_runlog.json")] ++ []).
  apply always_bind; [now apply always_emit | intros _].
  apply always_bind; [apply always_write_text | intros _]. apply always_ret.
Qed.

Lemma update_global_index_always (log_dir runlog_path : string)
    (run_logger : RunLogger.t) :
  always_writes (_update_global_index log_dir runlog_path run_logger)
    [path_join log_dir "index.json"].
Proof.
  intros w. unfold _update_global_index, is_file, read_text, write_text.
  io_norm.
  destruct (fs_lookup (path_join log_dir "index.json") (fs w)) as [text |] eqn:E;
    io_norm; rewrite ?E; io_norm.
  - destruct (json_loads text) as [[] |]; io_norm;
      eexists; eexists; (split; [reflexivity |]);
      (split; [rewrite <- ?app_assoc; reflexivity | reflexivity]).
  - eexists; eexists; (split; [reflexivity |]);
      (split; [rewrite <- ?app_assoc; reflexivity | reflexivity]).
Qed.

End RealRunFiles.

Lemma writes_eq2 {A : Type} (c : M A) (pre pre' post post' : list string) :
  writes_paths c pre post -> pre = pre' -> post = post' ->
  writes_paths c pre' post'.
Proof. now intros H <- <-. Qed.

Section RealRun.

Context {L : PyLib} {O : Outside}.

Lemma process_file_real_run_writes (path rel_name base_name code : string)
    (output_dir log_dir : string) (model : option string) (flags : Flags.t) :
  writes_paths
    (process_file_real_run path rel_name base_name code output_dir log_dir
       model flags)
    (artifact_paths output_dir base_name flags) (log_paths log_dir base_name).
Proof.
  unfold process_file_real_run. eapply writes_eq2.
  - do 7 quiet_step. write_step.
    eapply writes_bind;
      [apply classification_block_validated | apply classification_block_writes |].
    intros [classification rl1] Hc. cbn [fst] in Hc.
    eapply writes_bind;
      [apply analysis_block_validated | apply analysis_block_writes |].
    intros [analysis rl2] Ha. cbn [fst] in Ha.
    eapply writes_skip; [apply refactor_block_writes | intros rl3].
    eapply writes_skip; [apply markdown_block_writes | intros rl4].
    apply writes_always.
    eapply always_bind; [apply run_logger_write_always | intros runlog_path].
    eapply always_bind; [apply update_global_index_always | intros _].
    destruct (derived_fields_total _ _ _ Hc Ha) as [Hf [Hs [Hcl Hr]]].
    destruct (_flatten_issues_from_classification classification);
      [| discriminate].
    destruct (_compute_risk_score classification analysis); [| discriminate].
    destruct (_derive_checklist_items classification analysis); [| discriminate].
    rewrite Hr.
    do 4 (eapply always_bind; [apply always_lift | intros ?]).
    apply always_ret.
  - unfold artifact_paths, artifacts.
    destruct (Flags.no_classification flags), (Flags.no_analysis flags),
      (Flags.refactor flags), (Flags.no_markdown flags); reflexivity.
  - reflexivity.
Qed.

Lemma process_file_writes (path output_dir log_dir : string)
    (model : option string) (flags : Flags.t) :
  writes_paths (process_file path output_dir log_dir model flags false)
    (artifact_paths output_dir (path_stem path) flags)
    (log_paths log_dir (path_stem path)).
Proof.
  unfold process_file. cbv zeta. eapply writes_eq2.
  - eapply writes_skip.
    + apply writes_quiet. now apply quietly_read_text.
    + intros code. apply process_file_real_run_writes.
  - reflexivity.
  - reflexivity.
Qed.

End RealRun.

(** X23: a real run of [process_file] that returns has written, in this
    order and nothing else: the summary of the file, its classification
    and its analysis unless the stage is switched off, the refactored
    code when it is asked for, the report unless it is switched off, then
    the run log and the index of the log directory. *)
Theorem X23_files_of_a_processed_file {L : PyLib} {O : Outside}
    (path output_dir log_dir : string) (model : option string)
    (flags : Flags.t) (w w' : world) (fr : FileResult.t) :
  process_file path output_dir log_dir model flags false w = (Ok fr, w') ->
  exists suffix,
    trace w' = trace w ++ suffix
    /\ written_paths suffix
       = artifact_paths output_dir (path_stem path) flags
         ++ log_paths log_dir (path_stem path).
Proof.
  intros E.
  destruct (process_file_writes path output_dir log_dir model flags w)
    as [suffix [Ht Hw]].
  rewrite E in Ht, Hw. now exists suffix.
Qed.

(** X24: a real run of [process_file] that raises has written the first
    artifacts of the file only, up to the stage that failed: neither the
    run log nor the index of the log directory is written for a file that
    fails. *)
Theorem X24_failed_file_leaves_no_log {L : PyLib} {O : Outside}
    (path output_dir log_dir : string) (model : option string)
    (flags : Flags.t) (w w' : world) (e : pyexc) :
  process_file path output_dir log_dir model flags false w = (Raise e, w') ->
  exists suffix,
    trace w' = trace w ++ suffix
    /\ prefix_of (written_paths suffix)
         (artifact_paths output_dir (path_stem path) flags).
Proof.
  intros E.
  destruct (process_file_writes path output_dir log_dir model flags w)
    as [suffix [Ht Hw]].
  rewrite E in Ht, Hw. now exists suffix.
Qed.

Lemma X23_files_of_a_processed_file_witness :
  exists suffix,
    trace (snd (process_file (L := Demo.lib) (O := Demo.outside) "good.sql"
                  "/var/output/r1" "/var/logs/r1" None Demo.flags false Demo.w0))
    = trace Demo.w0 ++ suffix
    /\ written_paths suffix
       = artifact_paths "/var/output/r1" "good.sql" Demo.flags
         ++ log_paths "/var/logs/r1" "good.sql".
Proof.
  apply (@X23_files_of_a_processed_file Demo.lib Demo.outside "good.sql"
           "/var/output/r1" "/var/logs/r1" None Demo.flags Demo.w0 _
           (match fst (process_file (L := Demo.lib) (O := Demo.outside) "good.sql"
                         "/var/output/r1" "/var/logs/r1" None Demo.flags false
                         Demo.w0) with
            | Ok fr => fr
            | Raise _ => dry_run_stub ""
            end)).
  vm_compute. reflexivity.
Defined.

Lemma X24_failed_file_leaves_no_log_witness :
  exists suffix,
    trace (snd (process_file (L := Demo.lib) (O := Demo.outside) "bad.sql"
                  "/var/output/r1" "/var/logs/r1" None Demo.flags false Demo.w0))
    = trace Demo.w0 ++ suffix
    /\ prefix_of (written_paths suffix)
         (artifact_paths "/var/output/r1" "bad.sql" Demo.flags).
Proof.
  apply (@X24_failed_file_leaves_no_log Demo.lib Demo.outside "bad.sql"
           "/var/output/r1" "/var/logs/r1" None Demo.flags Demo.w0 _
           (match fst (process_file (L := Demo.lib) (O := Demo.outside) "bad.sql"
                         "/var/output/r1" "/var/logs/r1" None Demo.flags false
                         Demo.w0) with
            | Ok _ => ValueError ""
            | Raise e => e
            end)).
  vm_compute. reflexivity.
Defined.

(** ** The run log of a file *)

Lemma written_files_app (a b : list event) :
  written_files (a ++ b) = written_files a ++ written_files b.
Proof. apply flat_map_app. Qed.

Lemma written_files_no_write (s : list event) :
  forallb is_no_write s = true -> written_files s = [].
Proof.
  induction s as [| e t IH]; simpl; [reflexivity |].
  intros H. apply andb_true_iff in H. destruct H as [He Ht].
  destruct e; try discriminate; simpl; auto.
Qed.

Lemma written_paths_files (s : list event) :
  written_paths s = map fst (written_files s).
Proof.
  induction s as [| e t IH]; [reflexivity |].
  unfold written_paths, written_files in *. cbn [flat_map].
  rewrite map_app, IH. now destruct e.
Qed.

Lemma tracks_bind {A B : Type} (c : M A) (k : A -> M B)
    (R : A -> list (string * string) -> Prop)
    (Q : B -> list (string * string) -> Prop) :
  tracks c R ->
  (forall a f1, R a f1 -> tracks (k a) (fun b f2 => Q b (f1 ++ f2))) ->
  tracks (bind c k) Q.
Proof.
  intros Hc Hk w b w'. unfold bind.
  destruct (c w) as [[a | e] w1] eqn:E; [| discriminate].
  intros H. destruct (Hc _ _ _ E) as [s1 [Ht1 HR]].
  destruct (Hk a _ HR _ _ _ H) as [s2 [Ht2 HQ]].
  exists (s1 ++ s2). rewrite Ht2, Ht1, <- app_assoc. split; [reflexivity |].
  now rewrite written_files_app.
Qed.

Lemma tracks_quiet {A : Type} (c : M A) :
  quietly is_no_write c -> tracks c (fun _ f => f = []).
Proof.
  intros H w a w' E. destruct (H w) as [_ [suffix [Ht Hp]]].
  rewrite E in Ht. cbn [snd] in Ht. exists suffix. split; [exact Ht |].
  now apply written_files_no_write.
Qed.

Lemma tracks_ret {A : Type} (a : A) (Q : A -> list (string * string) -> Prop) :
  Q a [] -> tracks (ret a) Q.
Proof.
  intros H w b w'. unfold ret. intros [= <- <-]. exists [].
  now rewrite app_nil_r.
Qed.

Lemma tracks_lift {A : Type} (r : result A)
    (Q : A -> list (string * string) -> Prop) :
  (forall a, r = Ok a -> Q a []) -> tracks (lift r) Q.
Proof.
  intros H w b w'. unfold lift. intros [= -> <-]. exists [].
  rewrite app_nil_r. auto.
Qed.

Lemma tracks_write_text (path content : string) :
  tracks (write_text path content) (fun _ f => f = [(path, content)]).
Proof.
  intros w a w'. unfold write_text. intros [= _ <-].
  now exists [EvWrite path content].
Qed.

Lemma combine_app_same {A B : Type} (a1 a2 : list A) (b1 b2 : list B) :
  List.length b1 = List.length a1 ->
  combine (a1 ++ a2) (b1 ++ b2) = combine a1 b1 ++ combine a2 b2.
Proof.
  revert b1. induction a1 as [| x t IH]; intros [| y b1] H;
    try discriminate; [reflexivity |].
  cbn [app combine]. f_equal. apply IH. now injection H.
Qed.

Section RunLogOfAFile.

Context {L : PyLib} {O : Outside}.

Lemma block_log_refl (rl : RunLogger.t) : block_log rl [] [] [] rl.
Proof.
  unfold block_log, same_header. cbn [combine map]. now rewrite !app_nil_r.
Qed.

Lemma block_log_trans (rl0 rl1 rl2 : RunLogger.t) (k1 k2 : list string)
    (t1 t2 : list (string * string)) (f1 f2 : list (string * string)) :
  block_log rl0 k1 t1 f1 rl1 -> block_log rl1 k2 t2 f2 rl2 ->
  block_log rl0 (k1 ++ k2) (t1 ++ t2) (f1 ++ f2) rl2.
Proof.
  intros [[Ha [Hb [Hc [Hd He]]]] [Hl1 [Ho1 Hs1]]]
         [[Ha' [Hb' [Hc' [Hd' He']]]] [Hl2 [Ho2 Hs2]]].
  unfold block_log, same_header.
  split; [repeat split; congruence |].
  split; [rewrite !length_app; congruence |].
  split.
  - rewrite Ho2, Ho1, (combine_app_same _ _ _ _ Hl1), map_app, app_assoc.
    reflexivity.
  - rewrite Hs2, Hs1, app_assoc. reflexivity.
Qed.

Lemma block_log_add_output (rl : RunLogger.t) (kind path content : string) :
  block_log rl [kind] [] [(path, content)] (add_output rl kind path content).
Proof.
  unfold block_log, same_header, add_output. cbn. now rewrite app_nil_r.
Qed.

Lemma tracks_log_step (rl : RunLogger.t) (name status : string) :
  tracks (log_step rl name status)
    (fun rl' f => f = [] /\ block_log rl [] [(name, status)] [] rl').
Proof.
  intros w rl' w'. unfold log_step, now_iso. io_norm. intros [= <- <-].
  exists [EvClock]. split; [reflexivity |]. split; [reflexivity |].
  unfold block_log, same_header. cbn. rewrite map_app, app_nil_r. now cbn.
Qed.

Lemma tracks_new_run_logger (input_file : string) (model : option string)
    (input_sha256 : string) (flags : Flags.t) :
  tracks (new_run_logger input_file model input_sha256 flags)
    (fun rl f =>
       f = []
       /\ RunLogger.input_file rl = input_file
       /\ RunLogger.model rl = model
       /\ RunLogger.input_sha256 rl = input_sha256
       /\ RunLogger.flags rl = flags
       /\ RunLogger.steps rl = []
       /\ RunLogger.outputs rl = []).
Proof.
  intros w rl w'. unfold new_run_logger, now_iso. io_norm. intros [= <- <-].
  exists [EvClock]. split; [reflexivity |]. now cbn.
Qed.

End RunLogOfAFile.

Ltac track_quiet :=
  eapply tracks_bind;
  [ apply tracks_quiet; auto with quiet
  | cbv beta; intros ? ? ->; cbn [app] ].

Ltac track_write :=
  eapply tracks_bind;
  [ apply tracks_write_text
  | cbv beta; intros ? ? -> ].

Ltac track_log H :=
  eapply tracks_bind;
  [ apply tracks_log_step
  | cbv beta; intros ? ? [-> H]; cbn [app] ].

Section RunLogBlocks.

Context {L : PyLib} {O : Outside}.

Lemma classification_block_log (rel_name base_name code output_dir : string)
    (model : option string) (flags : Flags.t) (rl : RunLogger.t) :
  tracks
    (classification_block rel_name base_name code output_dir model flags rl)
    (fun p f =>
       map fst f
       = (if Flags.no_classification flags then []
          else [path_join output_dir (base_name +++ "_classification.json")])
       /\ block_log rl
            (if Flags.no_classification flags then []
             else ["classification_json"])
            (stage_steps "classification" (negb (Flags.no_classification flags)))
            f (snd p)).
Proof.
  unfold classification_block.
  destruct (Flags.no_classification flags); cbn [negb stage_steps].
  - track_quiet. track_log H1. apply tracks_ret. split; [reflexivity |].
    exact H1.
  - track_quiet. track_log H1.
    eapply tracks_bind;
      [ apply tracks_quiet; unfold run_classification_step; auto with quiet
      | cbv beta; intros data ? ->; cbn [app] ].
    track_log H2. track_write. track_quiet. apply tracks_ret.
    split; [reflexivity |]. cbn [snd].
    pose proof (block_log_trans _ _ _ _ _ _ _ _ _ H1 H2) as H12.
    exact (block_log_trans _ _ _ _ _ _ _ _ _ H12
             (block_log_add_output _ _ _ _)).
Qed.

Lemma analysis_block_log (rel_name base_name code output_dir : string)
    (model : option string) (flags : Flags.t) (rl : RunLogger.t) :
  tracks
    (analysis_block rel_name base_name code output_dir model flags rl)
    (fun p f =>
       map fst f
       = (if Flags.no_analysis flags then []
          else [path_join output_dir (base_name +++ "_analysis.json")])
       /\ block_log rl
            (if Flags.no_analysis flags then [] else ["analysis_json"])
            (stage_steps "analysis" (negb (Flags.no_analysis flags)))
            f (snd p)).
Proof.
  unfold analysis_block.
  destruct (Flags.no_analysis flags); cbn [negb stage_steps].
  - track_quiet. track_log H1. apply tracks_ret. split; [reflexivity |].
    exact H1.
  - track_quiet. track_log H1.
    eapply tracks_bind;
      [ apply tracks_quiet; unfold run_analysis_step; auto with quiet
      | cbv beta; intros data ? ->; cbn [app] ].
    track_log H2. track_write. track_quiet. apply tracks_ret.
    split; [reflexivity |]. cbn [snd].
    pose proof (block_log_trans _ _ _ _ _ _ _ _ _ H1 H2) as H12.
    exact (block_log_trans _ _ _ _ _ _ _ _ _ H12
             (block_log_add_output _ _ _ _)).
Qed.

Lemma refactor_block_log (rel_name base_name code output_dir : string)
    (model : option string) (flags : Flags.t) (rl : RunLogger.t) :
  tracks
    (refactor_block rel_name base_name code output_dir model flags rl)
    (fun rl' f =>
       map fst f
       = (if Flags.refactor flags
          then [path_join output_dir (base_name +++ "_refactor.sql")]
          else [])
       /\ block_log rl
            (if Flags.refactor flags then ["refactor_sql"] else [])
            (stage_steps "refactor" (Flags.refactor flags))
            f rl').
Proof.
  unfold refactor_block.
  destruct (Flags.refactor flags); cbn [stage_steps].
  - track_quiet. track_log H1. track_quiet. track_write. track_log H2.
    track_quiet. apply tracks_ret. split; [reflexivity |].
    match type of H2 with
    | block_log (add_output ?r ?k ?p ?c) _ _ _ _ =>
        pose proof (block_log_trans _ _ _ _ _ _ _ _ _ H1
                      (block_log_add_output r k p c)) as H12
    end.
    exact (block_log_trans _ _ _ _ _ _ _ _ _ H12 H2).
  - track_quiet.
    intros w rl' w' E. destruct (tracks_log_step _ _ _ _ _ _ E)
      as [suffix [Ht [Hf Hb]]].
    exists suffix. split; [exact Ht |]. rewrite Hf. now split.
Qed.

Lemma markdown_block_log (rel_name base_name output_dir summary_text : string)
    (classification analysis : dict) (flags : Flags.t) (rl : RunLogger.t) :
  tracks
    (markdown_block rel_name base_name output_dir summary_text classification
       analysis flags rl)
    (fun rl' f =>
       map fst f
       = (if Flags.no_markdown flags then []
          else [path_join output_dir (base_name +++ "_review.md")])
       /\ block_log rl
            (if Flags.no_markdown flags then [] else ["markdown_report"])
            [] f rl').
Proof.
  unfold markdown_block.
  destruct (Flags.no_markdown flags); cbn [negb].
  - track_quiet. apply tracks_ret. split; [reflexivity |]. apply block_log_refl.
  - track_quiet. track_write. track_quiet. apply tracks_ret.
    split; [reflexivity |]. apply block_log_add_output.
Qed.

Lemma tracks_run_logger_write (rl : RunLogger.t) (log_dir base_name : string) :
  tracks (run_logger_write rl log_dir base_name)
    (fun p f =>
       p = path_join log_dir (base_name +++ "_runlog.json")
       /\ f = [(p, json_dumps (PDict (to_dict rl)))]).
Proof.
  unfold run_logger_write. cbv zeta. track_quiet. track_write.
  apply tracks_ret. rewrite app_nil_r. now split.
Qed.

Lemma tracks_update_global_index (log_dir runlog_path : string)
    (rl : RunLogger.t) :
  tracks (_update_global_index log_dir runlog_path rl)
    (fun _ f => exists text, f = [(path_join log_dir "index.json", text)]).
Proof.
  intros w a w' E.
  destruct (update_global_index_always log_dir runlog_path rl w)
    as [a' [suffix [_ [Ht Hw]]]].
  rewrite E in Ht. cbn [snd] in Ht. exists suffix. split; [exact Ht |].
  rewrite written_paths_files in Hw.
  destruct (written_files suffix) as [| [p text] [| x t]]; try discriminate.
  cbn in Hw. injection Hw as ->. now exists text.
Qed.

End RunLogBlocks.

Section RunLogWhole.

Context {L : PyLib} {O : Outside}.

Lemma process_file_real_run_log (path rel_name base_name code : string)
    (output_dir log_dir : string) (model : option string) (flags : Flags.t) :
  tracks
    (process_file_real_run path rel_name base_name code output_dir log_dir
       model flags)
    (fun _ all =>
       exists logger files index_text,
         all = files
               ++ [(path_join log_dir (base_name +++ "_runlog.json"),
                    json_dumps (PDict (to_dict logger)));
                   (path_join log_dir "index.json", index_text)]
         /\ RunLogger.input_file logger = path
         /\ RunLogger.input_sha256 logger = sha256_hex code
         /\ map fst files = artifact_paths output_dir base_name flags
         /\ RunLogger.outputs logger
            = map output_entry
                (combine (artifact_kinds output_dir base_name flags) files)
         /\ map step_tag (RunLogger.steps logger) = expected_steps flags).
Proof.
  unfold process_file_real_run.
  eapply tracks_bind; [apply tracks_new_run_logger |].
  cbv beta. intros rl0 ? [-> [Hfile [_ [Hsha [_ [Hsteps Houts]]]]]]. cbn [app].
  do 3 track_quiet. track_log H1. track_quiet. track_log H2. track_write.
  eapply tracks_bind; [apply classification_block_log |].
  cbv beta. intros [classification rl1] fc [Hpc Hbc]. cbn [snd] in Hbc.
  eapply tracks_bind; [apply analysis_block_log |].
  cbv beta. intros [analysis rl2] fa [Hpa Hba]. cbn [snd] in Hba.
  eapply tracks_bind; [apply refactor_block_log |].
  cbv beta. intros rl3 fr [Hpr Hbr].
  eapply tracks_bind; [apply markdown_block_log |].
  cbv beta. intros rl4 fm [Hpm Hbm].
  eapply tracks_bind; [apply tracks_run_logger_write |].
  cbv beta. intros ? ? [-> ->].
  eapply tracks_bind; [apply tracks_update_global_index |].
  cbv beta. intros _ ? [index_text ->].
  do 4 track_quiet. apply tracks_ret.
  match type of Hbc with
  | block_log (add_output ?r ?k ?p ?c) _ _ _ _ =>
      pose proof (block_log_add_output r k p c) as Hadd
  end.
  pose proof (block_log_trans _ _ _ _ _ _ _ _ _ H1
               (block_log_trans _ _ _ _ _ _ _ _ _ H2
                 (block_log_trans _ _ _ _ _ _ _ _ _ Hadd
                   (block_log_trans _ _ _ _ _ _ _ _ _ Hbc
                     (block_log_trans _ _ _ _ _ _ _ _ _ Hba
                       (block_log_trans _ _ _ _ _ _ _ _ _ Hbr Hbm))))))
    as Hall.
  cbn [app] in Hall.
  destruct Hall as [[Hf [_ [Hs _]]] [_ [Ho Ht]]].
  rewrite Houts in Ho. rewrite Hsteps in Ht. cbn [app map] in Ho, Ht.
  exists rl4,
    ((path_join output_dir (base_name +++ "_summary.json"),
      json_dumps (PDict [("summary", PStr a3)])) :: fc ++ fa ++ fr ++ fm),
    index_text.
  split; [| split; [congruence | split; [congruence | split; [| split]]]].
  - cbn [app]. now rewrite <- !app_assoc.
  - cbn [map]. rewrite !map_app, Hpc, Hpa, Hpr, Hpm.
    unfold artifact_paths, artifacts.
    destruct (Flags.no_classification flags), (Flags.no_analysis flags),
      (Flags.refactor flags), (Flags.no_markdown flags); reflexivity.
  - rewrite Ho. f_equal. f_equal. unfold artifact_kinds, artifacts.
    destruct (Flags.no_classification flags), (Flags.no_analysis flags),
      (Flags.refactor flags), (Flags.no_markdown flags); reflexivity.
  - rewrite Ht. unfold expected_steps. cbn [stage_steps app].
    now rewrite app_nil_r.
Qed.

End RunLogWhole.
Section RunLogTheorems.

Context {L : PyLib} {O : Outside}.

Lemma process_file_log (path output_dir log_dir : string)
    (model : option string) (flags : Flags.t) (w w' : world)
    (fr : FileResult.t) :
  process_file path output_dir log_dir model flags false w = (Ok fr, w') ->
  exists code logger files index_text suffix,
    fs_lookup path (fs w) = Some code
    /\ trace w' = trace w ++ suffix
    /\ written_files suffix
       = files
         ++ [(path_join log_dir (path_stem path +++ "_runlog.json"),
              json_dumps (PDict (to_dict logger)));
             (path_join log_dir "index.json", index_text)]
    /\ RunLogger.input_file logger = path
    /\ RunLogger.input_sha256 logger = sha256_hex code
    /\ map fst files = artifact_paths output_dir (path_stem path) flags
    /\ RunLogger.outputs logger
       = map output_entry
           (combine (artifact_kinds output_dir (path_stem path) flags) files)
    /\ map step_tag (RunLogger.steps logger) = expected_steps flags.
Proof.
  unfold process_file, bind, read_text. cbv zeta.
  destruct (fs_lookup path (fs w)) as [code |]; [| discriminate].
  intros H. apply process_file_real_run_log in H.
  destruct H as [s [Ht [logger [files [index_text H]]]]]. cbn [trace] in Ht.
  exists code, logger, files, index_text, (EvRead path :: s).
  split; [reflexivity |]. split; [now rewrite Ht, <- app_assoc |]. exact H.
Qed.

End RunLogTheorems.

(** X25: the run log of a file that went through lists the artifacts
    written for the file and nothing else: it is written after them and
    before the index, it names the file and carries the hash of the code
    read from it, and its outputs are, in the order of writing, the kind
    and the path of each artifact with the hash of the content that was
    written to it. *)
Theorem X25_run_log_records_the_artifacts {L : PyLib} {O : Outside}
    (path output_dir log_dir : string) (model : option string)
    (flags : Flags.t) (w w' : world) (fr : FileResult.t) :
  process_file path output_dir log_dir model flags false w = (Ok fr, w') ->
  exists code logger files index_text suffix,
    fs_lookup path (fs w) = Some code
    /\ trace w' = trace w ++ suffix
    /\ written_files suffix
       = files
         ++ [(path_join log_dir (path_stem path +++ "_runlog.json"),
              json_dumps (PDict (to_dict logger)));
             (path_join log_dir "index.json", index_text)]
    /\ RunLogger.input_file logger = path
    /\ RunLogger.input_sha256 logger = sha256_hex code
    /\ map fst files = artifact_paths output_dir (path_stem path) flags
    /\ RunLogger.outputs logger
       = map output_entry
           (combine (artifact_kinds output_dir (path_stem path) flags) files).
Proof.
  intros H. apply process_file_log in H.
  destruct H as [code [logger [files [index_text [suffix H]]]]].
  exists code, logger, files, index_text, suffix. tauto.
Qed.

Lemma X25_run_log_records_the_artifacts_witness :
  exists code logger files index_text suffix,
    fs_lookup "good.sql" (fs Demo.w0) = Some code
    /\ trace (snd (process_file (L := Demo.lib) (O := Demo.outside) "good.sql"
                     "/var/output/r1" "/var/logs/r1" None Demo.flags false
                     Demo.w0))
       = trace Demo.w0 ++ suffix
    /\ written_files suffix
       = files
         ++ [(path_join "/var/logs/r1" ("good.sql" +++ "_runlog.json"),
              json_dumps (PyLib := Demo.lib)
                (PDict (to_dict logger)));
             (path_join "/var/logs/r1" "index.json", index_text)]
    /\ RunLogger.input_file logger = "good.sql"
    /\ RunLogger.input_sha256 logger = sha256_hex (PyLib := Demo.lib) code
    /\ map fst files = artifact_paths "/var/output/r1" "good.sql" Demo.flags
    /\ RunLogger.outputs logger
       = map (output_entry (L := Demo.lib))
           (combine (artifact_kinds "/var/output/r1" "good.sql" Demo.flags)
              files).
Proof.
  apply (@X25_run_log_records_the_artifacts Demo.lib Demo.outside "good.sql"
           "/var/output/r1" "/var/logs/r1" None Demo.flags Demo.w0 _
           (match fst (process_file (L := Demo.lib) (O := Demo.outside) "good.sql"
                         "/var/output/r1" "/var/logs/r1" None Demo.flags false
                         Demo.w0) with
            | Ok fr => fr
            | Raise _ => dry_run_stub ""
            end)).
  vm_compute. reflexivity.
Defined.

(** X26: the steps of the run log of a file that went through are, in
    this order, the start and the success of the summary, then for the
    classification, the analysis and the refactoring either the start and
    the success of the stage or, when the stage is switched off, the one
    entry that it was skipped; the report leaves no step. *)
Theorem X26_run_log_steps {L : PyLib} {O : Outside}
    (path output_dir log_dir : string) (model : option string)
    (flags : Flags.t) (w w' : world) (fr : FileResult.t) :
  process_file path output_dir log_dir model flags false w = (Ok fr, w') ->
  exists logger suffix,
    trace w' = trace w ++ suffix
    /\ In (EvWrite (path_join log_dir (path_stem path +++ "_runlog.json"))
             (json_dumps (PDict (to_dict logger)))) suffix
    /\ map step_tag (RunLogger.steps logger) = expected_steps flags.
Proof.
  intros H. apply process_file_log in H.
  destruct H as [code [logger [files [index_text [suffix H]]]]].
  destruct H as [_ [Ht [Hw [_ [_ [_ [_ Hs]]]]]]].
  exists logger, suffix. split; [exact Ht |]. split; [| exact Hs].
  assert (Hin : In (path_join log_dir (path_stem path +++ "_runlog.json"),
                    json_dumps (PDict (to_dict logger)))
                   (written_files suffix)).
  { rewrite Hw. apply in_or_app. right. now left. }
  clear - Hin. induction suffix as [| e t IH]; [contradiction |].
  unfold written_files in Hin. cbn [flat_map] in Hin.
  apply in_app_or in Hin. destruct Hin as [Hin | Hin].
  - left. destruct e; try contradiction. destruct Hin as [[= -> ->] | []].
    reflexivity.
  - right. now apply IH.
Qed.

Lemma X26_run_log_steps_witness :
  exists logger suffix,
    trace (snd (process_file (L := Demo.lib) (O := Demo.outside) "good.sql"
                  "/var/output/r1" "/var/logs/r1" None Demo.flags false
                  Demo.w0))
    = trace Demo.w0 ++ suffix
    /\ In (EvWrite (path_join "/var/logs/r1" ("good.sql" +++ "_runlog.json"))
             (json_dumps (PyLib := Demo.lib) (PDict (to_dict logger)))) suffix
    /\ map step_tag (RunLogger.steps logger) = expected_steps Demo.flags.
Proof.
  apply (@X26_run_log_steps Demo.lib Demo.outside "good.sql"
           "/var/output/r1" "/var/logs/r1" None Demo.flags Demo.w0 _
           (match fst (process_file (L := Demo.lib) (O := Demo.outside) "good.sql"
                         "/var/output/r1" "/var/logs/r1" None Demo.flags false
                         Demo.w0) with
            | Ok fr => fr
            | Raise _ => dry_run_stub ""
            end)).
  vm_compute. reflexivity.
Defined.

(** ** The loop over the files *)

Lemma went_through_length (outcomes : list (string * result FileResult.t)) :
  (List.length (went_through outcomes) <= List.length outcomes)%nat.
Proof.
  unfold went_through. induction outcomes as [| [p r] t IH]; [simpl; lia |].
  cbn [flat_map snd]. rewrite length_app. destruct r; simpl in *; lia.
Qed.

Section FileLoop.

Context {L : PyLib} {O : Outside}.

Lemma process_file_extends (path output_dir log_dir : string)
    (model : option string) (flags : Flags.t) (dry_run : bool) (w : world) :
  exists suffix,
    trace (snd (process_file path output_dir log_dir model flags dry_run w))
    = trace w ++ suffix.
Proof.
  destruct dry_run.
  - destruct (process_file_dry path output_dir log_dir model flags) as [Hq _].
    destruct (Hq w) as [_ [suffix [Ht _]]]. now exists suffix.
  - destruct (process_file_writes path output_dir log_dir model flags w)
      as [suffix [Ht _]]. now exists suffix.
Qed.

Lemma process_files_extends (files : list string) (output_dir log_dir : string)
    (model : option string) (flags : Flags.t) (dry_run : bool)
    (results : list FileResult.t) (w : world) :
  exists suffix,
    trace (snd (process_files files output_dir log_dir model flags dry_run
                  results w))
    = trace w ++ suffix.
Proof.
  revert results w. induction files as [| path rest IH]; intros results w.
  - exists []. cbn. now rewrite app_nil_r.
  - destruct (process_file_extends path output_dir log_dir model flags dry_run
                (snd (print (processing_line path) w))) as [s1 Hs1].
    destruct (process_file path output_dir log_dir model flags dry_run
                (snd (print (processing_line path) w))) as [[fr | e] w1] eqn:E;
      cbn [snd trace print emit] in Hs1.
    + rewrite (process_files_keeps _ _ _ _ _ _ _ _ _ _ _ E).
      destruct (IH (results ++ [fr]) w1) as [s2 ->]. rewrite Hs1.
      rewrite <- !app_assoc. eauto.
    + rewrite (process_files_skips _ _ _ _ _ _ _ _ _ _ _ E).
      destruct (IH results (snd (print_err (failed_line path e) w1)))
        as [s2 ->].
      cbn [snd trace print_err emit]. rewrite Hs1, <- !app_assoc. eauto.
Qed.

Lemma process_files_outcomes (files : list string) (output_dir log_dir : string)
    (model : option string) (flags : Flags.t) (dry_run : bool)
    (results : list FileResult.t) (w : world) :
  fst (process_files files output_dir log_dir model flags dry_run results w)
  = Ok (results
        ++ went_through
             (file_outcomes files output_dir log_dir model flags dry_run w)).
Proof.
  revert results w. induction files as [| path rest IH]; intros results w.
  - cbn. now rewrite app_nil_r.
  - cbn [file_outcomes]. cbv zeta.
    destruct (process_file path output_dir log_dir model flags dry_run
                (snd (print (processing_line path) w))) as [[fr | e] w1] eqn:E;
      cbn [fst snd].
    + rewrite (process_files_keeps _ _ _ _ _ _ _ _ _ _ _ E), IH.
      unfold went_through. cbn [flat_map snd app].
      now rewrite <- app_assoc.
    + rewrite (process_files_skips _ _ _ _ _ _ _ _ _ _ _ E), IH.
      reflexivity.
Qed.

Lemma file_outcomes_files (files : list string) (output_dir log_dir : string)
    (model : option string) (flags : Flags.t) (dry_run : bool) (w : world) :
  map fst (file_outcomes files output_dir log_dir model flags dry_run w) = files.
Proof.
  revert w. induction files as [| path rest IH]; intros w; [reflexivity |].
  cbn [file_outcomes map fst]. cbv zeta. cbn [fst]. now rewrite IH.
Qed.

Lemma file_outcomes_ok (files : list string) (output_dir log_dir : string)
    (model : option string) (flags : Flags.t) (dry_run : bool) (w : world) :
  Forall (fun po => forall fr, snd po = Ok fr ->
                      FileResult.path fr = fst po /\ file_result_ok fr)
    (file_outcomes files output_dir log_dir model flags dry_run w).
Proof.
  revert w. induction files as [| path rest IH]; intros w; [constructor |].
  cbn [file_outcomes]. cbv zeta. constructor; [| apply IH].
  cbn [fst snd]. intros fr Hfr.
  destruct (process_file path output_dir log_dir model flags dry_run
              (snd (print (processing_line path) w))) as [r w1] eqn:E.
  cbn [fst] in Hfr. subst r.
  exact (process_file_result _ _ _ _ _ _ _ _ _ E).
Qed.

Lemma file_outcomes_failures (files : list string) (output_dir log_dir : string)
    (model : option string) (flags : Flags.t) (dry_run : bool)
    (results : list FileResult.t) (w : world) (path : string) (e : pyexc) :
  In (path, Raise e)
    (file_outcomes files output_dir log_dir model flags dry_run w) ->
  In (EvPrintErr (failed_line path e))
    (trace (snd (process_files files output_dir log_dir model flags dry_run
                   results w))).
Proof.
  revert results w. induction files as [| p rest IH]; intros results w;
    [intros [] |].
  cbn [file_outcomes]. cbv zeta.
  destruct (process_file p output_dir log_dir model flags dry_run
              (snd (print (processing_line p) w))) as [[fr | e0] w1] eqn:E;
    cbn [fst snd].
  - rewrite (process_files_keeps _ _ _ _ _ _ _ _ _ _ _ E).
    intros [Heq | Hin]; [discriminate Heq | now apply IH].
  - rewrite (process_files_skips _ _ _ _ _ _ _ _ _ _ _ E).
    intros [Heq | Hin]; [| now apply IH].
    injection Heq as Hp He. subst p e0.
    destruct (process_files_extends rest output_dir log_dir model flags dry_run
                results (snd (print_err (failed_line path e) w1))) as [s ->].
    cbn [snd trace print_err emit]. apply in_or_app. left.
    apply in_or_app. right. now left.
Qed.

End FileLoop.

(** X19: the loop of [main] over the files never raises, whatever the
    processing of a file raises.  Each file is processed once, in the
    order of the files, at the world the loop has reached; the loop
    returns the results it was given followed by the results of exactly
    the files whose processing returned, in that order, each naming its
    file; a file whose processing raised adds nothing, and its error line
    is printed to the error channel. *)
Theorem X19_file_loop_always_returns {L : PyLib} {O : Outside}
    (files : list string) (output_dir log_dir : string)
    (model : option string) (flags : Flags.t) (dry_run : bool)
    (results : list FileResult.t) (w : world) :
  let outcomes :=
    file_outcomes files output_dir log_dir model flags dry_run w in
  let final :=
    process_files files output_dir log_dir model flags dry_run results w in
  fst final = Ok (results ++ went_through outcomes)
  /\ map fst outcomes = files
  /\ Forall (fun po => forall fr, snd po = Ok fr ->
                         FileResult.path fr = fst po /\ file_result_ok fr)
       outcomes
  /\ (forall path e, In (path, Raise e) outcomes ->
        In (EvPrintErr (failed_line path e)) (trace (snd final)))
  /\ (List.length (went_through outcomes) <= List.length files)%nat.
Proof.
  cbv zeta. split; [apply process_files_outcomes |].
  split; [apply file_outcomes_files |].
  split; [apply file_outcomes_ok |].
  split; [intros path e; apply file_outcomes_failures |].
  rewrite <- (file_outcomes_files files output_dir log_dir model flags dry_run w)
    at 2.
  rewrite length_map.
  apply went_through_length.
Qed.
